(** * The automation job engine of the SMM panel bot

    A shallow embedding of the job engine spread over [config.py] (the
    durable store), [bot.py] (growth calculator, order dispatcher, scheduler
    loop, conversational job creation) and [app.py] (job lifecycle
    operations and the web creation form), followed by the properties the
    specification states about it.

    Conventions of the embedding.
    - A job is the Python dict the creation paths build; it is a record
      whose optional keys are [option]s (key absent) or [entry]s (key
      absent, present with [None], present with a value).
    - Python [int] is [Z]; Python [float] is an IEEE-754 binary64 value,
      computed with the specification of the Standard Library
      ([SpecFloat], precision 53, exponent bound 1024).
    - A Python exception is a value of [Py.exc]; code that can raise returns
      [Py.result].
    - The outside world (clock, panel replies, random draws, uuids) is an
      argument of the function that consults it.
    - The module-level globals of [config.py] together with the files under
      [data/] form the record [World], passed explicitly. *)

From Stdlib Require Import ZArith QArith Qround Qpower Lia Lqa Bool String Ascii List.
From Stdlib Require Import SpecFloat.
From stdpp Require Import base option list gmap strings.

Open Scope string_scope.
Open Scope list_scope.
Open Scope Z_scope.

(* ===================================================================== *)
(** ** Python values, exceptions and floating point                       *)
(* ===================================================================== *)

Module Py.

(** An exception: its class and [str(e)]. *)
Inductive exc := Exc (kind : string) (msg : string).

Definition str (e : exc) : string := let 'Exc _ msg := e in msg.

Inductive result (A : Type) := Ok (a : A) | Raise (e : exc).
Arguments Ok {A} a.
Arguments Raise {A} e.

Definition bind {A B} (f : A -> result B) (m : result A) : result B :=
  match m with
  | Ok a => f a
  | Raise e => Raise e
  end.

(** binary64 *)
Definition prec : Z := 53.
Definition emax : Z := 1024.

Definition fadd := SFadd prec emax.
Definition fsub := SFsub prec emax.
Definition fmul := SFmul prec emax.
Definition fdiv := SFdiv prec emax.

(** [float(n)] for an [int]: correctly rounded, [OverflowError] beyond the
    largest double. *)
Definition float_of_int (n : Z) : result spec_float :=
  match binary_normalize prec emax n 0 false with
  | S754_infinity _ => Raise (Exc "OverflowError" "int too large to convert to float")
  | f => Ok f
  end.

(** [int(x)] for a [float]: truncation toward zero. *)
Definition int_of_float (x : spec_float) : result Z :=
  match x with
  | S754_zero _ => Ok 0
  | S754_nan => Raise (Exc "ValueError" "cannot convert float NaN to integer")
  | S754_infinity _ =>
        Raise (Exc "OverflowError" "cannot convert float infinity to integer")
  | S754_finite s m e =>
        let a := match e with
                 | Z0 => Zpos m
                 | Zpos p => Zpos m * 2 ^ Zpos p
                 | Zneg p => Zpos m / 2 ^ Zpos p
                 end in
        Ok (if s then - a else a)
  end.

(** The literals [1.1] and [0.001] as the doubles Python reads them as. *)
Definition lit_1_1 : spec_float := S754_finite false 4953959590107546 (-52).
Definition lit_0_001 : spec_float := S754_finite false 4611686018427388 (-62).

(** The numbers a job's [increase_range] or a counter can hold. *)
Inductive num := PyNone | PyInt (n : Z) | PyFloat (x : spec_float).

(** [float(v)] *)
Definition to_float (v : num) : result spec_float :=
  match v with
  | PyNone =>
        Raise (Exc "TypeError"
                 "float() argument must be a string or a real number, not 'NoneType'")
  | PyInt n => float_of_int n
  | PyFloat x => Ok x
  end.

(** [v + x] and [n * x] with a float right operand. *)
Definition add_float (v : num) (x : spec_float) : result num :=
  match v with
  | PyNone =>
        Raise (Exc "TypeError" "unsupported operand type(s) for +=: 'NoneType' and 'float'")
  | PyInt n => bind (fun y => Ok (PyFloat (fadd y x))) (float_of_int n)
  | PyFloat y => Ok (PyFloat (fadd y x))
  end.

Definition int_mul_float (n : Z) (x : spec_float) : result spec_float :=
  bind (fun y => Ok (fmul y x)) (float_of_int n).

Definition float_div_int (x : spec_float) (n : Z) : result spec_float :=
  bind (fun y => Ok (fdiv x y)) (float_of_int n).

(** [str.replace(old, new)] for a non-empty [old]: non-overlapping
    occurrences, leftmost first. [skip] counts the characters of a match
    still to be dropped. *)
Fixpoint replace_aux (old new : string) (skip : nat) (s : string) : string :=
  match s with
  | EmptyString => EmptyString
  | String c s' =>
        match skip with
        | S k => replace_aux old new k s'
        | O =>
            if String.prefix old s
            then new +:+ replace_aux old new (String.length old - 1) s'
            else String c (replace_aux old new 0 s')
        end
  end.

Definition replace (old new s : string) : string := replace_aux old new 0 s.

(** JSON documents, as [json.load] returns them. *)
#[local] Unset Elimination Schemes.
Inductive json :=
  | JNull
  | JBool (b : bool)
  | JInt (n : Z)
  | JFloat (x : spec_float)
  | JStr (s : string)
  | JList (l : list json)
  | JDict (d : list (string * json)).
#[local] Set Elimination Schemes.

End Py.

Notation "'let!' x ':=' m 'in' k" := (Py.bind (fun x => k) m)
  (at level 10, x name, m at level 100, k at level 200).

(** A dict key that may be absent, hold [None], or hold a value. *)
Inductive entry (A : Type) := NoKey | IsNone | Is (a : A).
Arguments NoKey {A}.
Arguments IsNone {A}.
Arguments Is {A} a.

(** [d.get(key) == v] for a value [v] that is not [None]. *)
Definition entry_is {A} `{EqDecision A} (e : entry A) (v : A) : bool :=
  match e with
  | Is a => bool_decide (a = v)
  | _ => false
  end.

(* ===================================================================== *)
(** ** Data model                                                         *)
(* ===================================================================== *)

(** The reply of the panel adapter: a JSON object. *)
Definition Response : Type := gmap string Py.json.

(** One entry of an order history ([order_info] in the scheduler). *)
Record OrderInfo := {
  o_timestamp : string;
  o_quantity : Z;
  o_response : Response;
  o_job_id : string;
  o_service_id : string;
  o_link : string
}.

(** A job dict. The first thirteen keys are set by every creation path;
    the others appear when an operation writes them. *)
Record Job := {
  job_id : string;
  user_id : string;
  api_url : string;
  api_key : string;
  service_id : string;
  link : string;
  quantity : Z;
  increase_range : list Py.num;
  frequency : Z;
  next_run : Z;
  started_at : string;
  stopped : bool;
  orders : list OrderInfo;
  paused : option bool;
  bulk_group_id : entry string;
  paused_at : entry string;
  resumed_at : entry string;
  stopped_at : option string;
  stopped_by : option string;
  stopped_reason : option string;
  error_count : option Z;
  template_id : option string
}.

(** [job[key] = v] for the keys the engine assigns. *)
Definition set_quantity (v : Z) (j : Job) : Job :=
  {| job_id := job_id j; user_id := user_id j; api_url := api_url j; api_key := api_key j;
     service_id := service_id j; link := link j; quantity := v;
     increase_range := increase_range j; frequency := frequency j; next_run := next_run j;
     started_at := started_at j; stopped := stopped j; orders := orders j;
     paused := paused j; bulk_group_id := bulk_group_id j; paused_at := paused_at j;
     resumed_at := resumed_at j; stopped_at := stopped_at j; stopped_by := stopped_by j;
     stopped_reason := stopped_reason j; error_count := error_count j;
     template_id := template_id j |}.

Definition set_next_run (v : Z) (j : Job) : Job :=
  {| job_id := job_id j; user_id := user_id j; api_url := api_url j; api_key := api_key j;
     service_id := service_id j; link := link j; quantity := quantity j;
     increase_range := increase_range j; frequency := frequency j; next_run := v;
     started_at := started_at j; stopped := stopped j; orders := orders j;
     paused := paused j; bulk_group_id := bulk_group_id j; paused_at := paused_at j;
     resumed_at := resumed_at j; stopped_at := stopped_at j; stopped_by := stopped_by j;
     stopped_reason := stopped_reason j; error_count := error_count j;
     template_id := template_id j |}.

Definition set_stopped (v : bool) (j : Job) : Job :=
  {| job_id := job_id j; user_id := user_id j; api_url := api_url j; api_key := api_key j;
     service_id := service_id j; link := link j; quantity := quantity j;
     increase_range := increase_range j; frequency := frequency j; next_run := next_run j;
     started_at := started_at j; stopped := v; orders := orders j;
     paused := paused j; bulk_group_id := bulk_group_id j; paused_at := paused_at j;
     resumed_at := resumed_at j; stopped_at := stopped_at j; stopped_by := stopped_by j;
     stopped_reason := stopped_reason j; error_count := error_count j;
     template_id := template_id j |}.

Definition set_orders (v : list OrderInfo) (j : Job) : Job :=
  {| job_id := job_id j; user_id := user_id j; api_url := api_url j; api_key := api_key j;
     service_id := service_id j; link := link j; quantity := quantity j;
     increase_range := increase_range j; frequency := frequency j; next_run := next_run j;
     started_at := started_at j; stopped := stopped j; orders := v;
     paused := paused j; bulk_group_id := bulk_group_id j; paused_at := paused_at j;
     resumed_at := resumed_at j; stopped_at := stopped_at j; stopped_by := stopped_by j;
     stopped_reason := stopped_reason j; error_count := error_count j;
     template_id := template_id j |}.

Definition set_paused (v : option bool) (j : Job) : Job :=
  {| job_id := job_id j; user_id := user_id j; api_url := api_url j; api_key := api_key j;
     service_id := service_id j; link := link j; quantity := quantity j;
     increase_range := increase_range j; frequency := frequency j; next_run := next_run j;
     started_at := started_at j; stopped := stopped j; orders := orders j;
     paused := v; bulk_group_id := bulk_group_id j; paused_at := paused_at j;
     resumed_at := resumed_at j; stopped_at := stopped_at j; stopped_by := stopped_by j;
     stopped_reason := stopped_reason j; error_count := error_count j;
     template_id := template_id j |}.

Definition set_paused_at (v : entry string) (j : Job) : Job :=
  {| job_id := job_id j; user_id := user_id j; api_url := api_url j; api_key := api_key j;
     service_id := service_id j; link := link j; quantity := quantity j;
     increase_range := increase_range j; frequency := frequency j; next_run := next_run j;
     started_at := started_at j; stopped := stopped j; orders := orders j;
     paused := paused j; bulk_group_id := bulk_group_id j; paused_at := v;
     resumed_at := resumed_at j; stopped_at := stopped_at j; stopped_by := stopped_by j;
     stopped_reason := stopped_reason j; error_count := error_count j;
     template_id := template_id j |}.

Definition set_resumed_at (v : entry string) (j : Job) : Job :=
  {| job_id := job_id j; user_id := user_id j; api_url := api_url j; api_key := api_key j;
     service_id := service_id j; link := link j; quantity := quantity j;
     increase_range := increase_range j; frequency := frequency j; next_run := next_run j;
     started_at := started_at j; stopped := stopped j; orders := orders j;
     paused := paused j; bulk_group_id := bulk_group_id j; paused_at := paused_at j;
     resumed_at := v; stopped_at := stopped_at j; stopped_by := stopped_by j;
     stopped_reason := stopped_reason j; error_count := error_count j;
     template_id := template_id j |}.

Definition set_stopped_at (v : option string) (j : Job) : Job :=
  {| job_id := job_id j; user_id := user_id j; api_url := api_url j; api_key := api_key j;
     service_id := service_id j; link := link j; quantity := quantity j;
     increase_range := increase_range j; frequency := frequency j; next_run := next_run j;
     started_at := started_at j; stopped := stopped j; orders := orders j;
     paused := paused j; bulk_group_id := bulk_group_id j; paused_at := paused_at j;
     resumed_at := resumed_at j; stopped_at := v; stopped_by := stopped_by j;
     stopped_reason := stopped_reason j; error_count := error_count j;
     template_id := template_id j |}.

Definition set_stopped_by (v : option string) (j : Job) : Job :=
  {| job_id := job_id j; user_id := user_id j; api_url := api_url j; api_key := api_key j;
     service_id := service_id j; link := link j; quantity := quantity j;
     increase_range := increase_range j; frequency := frequency j; next_run := next_run j;
     started_at := started_at j; stopped := stopped j; orders := orders j;
     paused := paused j; bulk_group_id := bulk_group_id j; paused_at := paused_at j;
     resumed_at := resumed_at j; stopped_at := stopped_at j; stopped_by := v;
     stopped_reason := stopped_reason j; error_count := error_count j;
     template_id := template_id j |}.

Definition set_stopped_reason (v : option string) (j : Job) : Job :=
  {| job_id := job_id j; user_id := user_id j; api_url := api_url j; api_key := api_key j;
     service_id := service_id j; link := link j; quantity := quantity j;
     increase_range := increase_range j; frequency := frequency j; next_run := next_run j;
     started_at := started_at j; stopped := stopped j; orders := orders j;
     paused := paused j; bulk_group_id := bulk_group_id j; paused_at := paused_at j;
     resumed_at := resumed_at j; stopped_at := stopped_at j; stopped_by := stopped_by j;
     stopped_reason := v; error_count := error_count j;
     template_id := template_id j |}.

Definition set_error_count (v : option Z) (j : Job) : Job :=
  {| job_id := job_id j; user_id := user_id j; api_url := api_url j; api_key := api_key j;
     service_id := service_id j; link := link j; quantity := quantity j;
     increase_range := increase_range j; frequency := frequency j; next_run := next_run j;
     started_at := started_at j; stopped := stopped j; orders := orders j;
     paused := paused j; bulk_group_id := bulk_group_id j; paused_at := paused_at j;
     resumed_at := resumed_at j; stopped_at := stopped_at j; stopped_by := stopped_by j;
     stopped_reason := stopped_reason j; error_count := v;
     template_id := template_id j |}.

(** A user record: the two keys the engine reads or writes. The other keys
    (password, api profiles, templates, theme) are not touched by the code
    embedded here. *)
Record User := {
  telegram_id : option string;
  u_orders : option (list OrderInfo)
}.

(** [bot_statistics] *)
Record Statistics := {
  total_orders : Z;
  successful_orders : Z;
  failed_orders : Z;
  total_users : Z;
  active_users_count : Z;
  total_spent : Py.num;
  last_24h_orders : Z
}.

(** A request sent to the panel ([connect_smm_panel]'s payload). *)
Record PanelRequest := {
  p_url : string;
  p_key : string;
  p_action : string;
  p_service : string;
  p_link : string;
  p_quantity : Z
}.

(** What a file under [data/] holds: the JSON document of one collection,
    named by the value it denotes. *)
Inductive Document :=
| DocUsers (d : gmap string User)
| DocJobs (l : list Job)
| DocStatistics (d : Statistics)
| DocJson (v : Py.json).

(** The files, and whether [data/temp] exists or can be created. *)
Record FileSystem := {
  files : gmap string Document;
  temp_dir_usable : bool
}.

(** The globals of [config.py], the files, and the requests sent to the
    panel so far. *)
Record World := {
  user_data : gmap string User;
  activation_keys : list (string * Py.json);
  active_users : list Py.json;
  bot_statistics : Statistics;
  background_jobs : list Job;
  telegram_verification_codes : list (string * Py.json);
  fs : FileSystem;
  panel_log : list PanelRequest
}.

Definition with_jobs (l : list Job) (w : World) : World :=
  {| user_data := user_data w; activation_keys := activation_keys w;
     active_users := active_users w; bot_statistics := bot_statistics w;
     background_jobs := l;
     telegram_verification_codes := telegram_verification_codes w;
     fs := fs w; panel_log := panel_log w |}.

Definition with_users (u : gmap string User) (w : World) : World :=
  {| user_data := u; activation_keys := activation_keys w;
     active_users := active_users w; bot_statistics := bot_statistics w;
     background_jobs := background_jobs w;
     telegram_verification_codes := telegram_verification_codes w;
     fs := fs w; panel_log := panel_log w |}.

Definition with_statistics (s : Statistics) (w : World) : World :=
  {| user_data := user_data w; activation_keys := activation_keys w;
     active_users := active_users w; bot_statistics := s;
     background_jobs := background_jobs w;
     telegram_verification_codes := telegram_verification_codes w;
     fs := fs w; panel_log := panel_log w |}.

Definition with_fs (f : FileSystem) (w : World) : World :=
  {| user_data := user_data w; activation_keys := activation_keys w;
     active_users := active_users w; bot_statistics := bot_statistics w;
     background_jobs := background_jobs w;
     telegram_verification_codes := telegram_verification_codes w;
     fs := f; panel_log := panel_log w |}.

Definition with_panel_log (l : list PanelRequest) (w : World) : World :=
  {| user_data := user_data w; activation_keys := activation_keys w;
     active_users := active_users w; bot_statistics := bot_statistics w;
     background_jobs := background_jobs w;
     telegram_verification_codes := telegram_verification_codes w;
     fs := fs w; panel_log := l |}.

Definition ADMIN_USERNAME : string := "matrix".

(* ===================================================================== *)
(** ** config.py: the durable store                                       *)
(* ===================================================================== *)

(** The dict [data_files] of [save_data], in insertion order. *)
Definition data_files (temp_dir : string) (w : World) : list (string * Document) :=
  [ (temp_dir +:+ "/user_data.json.tmp", DocUsers (user_data w));
    (temp_dir +:+ "/activation_keys.json.tmp", DocJson (Py.JDict (activation_keys w)));
    (temp_dir +:+ "/active_users.json.tmp", DocJson (Py.JList (active_users w)));
    (temp_dir +:+ "/bot_statistics.json.tmp", DocStatistics (bot_statistics w));
    (temp_dir +:+ "/background_jobs.json.tmp", DocJobs (background_jobs w));
    (temp_dir +:+ "/telegram_verification_codes.json.tmp",
      DocJson (Py.JDict (telegram_verification_codes w))) ].

(** First loop of [save_data]: [json.dump] into the temporary file, then
    read it back. *)
Definition write_temp (m : gmap string Document) (entry : string * Document)
  : gmap string Document :=
  <[entry.1 := entry.2]> m.

(** [tmp_file.replace(f"{temp_dir}/", "data/").replace(".tmp", "")] *)
Definition final_file (temp_dir tmp_file : string) : string :=
  Py.replace ".tmp" "" (Py.replace (temp_dir +:+ "/") "data/" tmp_file).

(** Second loop of [save_data]: when the temporary file exists, remove the
    final file if there is one and rename the temporary file onto it. *)
Definition move_temp (temp_dir : string) (m : gmap string Document)
    (entry : string * Document) : gmap string Document :=
  let tmp_file := entry.1 in
  match m !! tmp_file with
  | Some doc =>
      let m1 := delete (final_file temp_dir tmp_file) m in
      <[final_file temp_dir tmp_file := doc]> (delete tmp_file m1)
  | None => m
  end.

Definition save_data (w : World) : World :=
  let temp_dir := if temp_dir_usable (fs w) then "data/temp" else "data" in
  let entries := data_files temp_dir w in
  let written := foldl write_temp (files (fs w)) entries in
  let moved := foldl (move_temp temp_dir) written entries in
  with_fs {| files := moved; temp_dir_usable := temp_dir_usable (fs w) |} w.

(** [load_data]: a collection is replaced when its file exists, parses and
    has the expected shape (dict or list); otherwise it is left as it was.
    A document of another collection's shape is outside this typed model
    and is treated like a file that fails the shape test. *)
Definition load_data (w : World) : World :=
  let m := files (fs w) in
  {| user_data :=
       match m !! "data/user_data.json" with
       | Some (DocUsers d) => d
       | _ => user_data w
       end;
     activation_keys :=
       match m !! "data/activation_keys.json" with
       | Some (DocJson (Py.JDict d)) => d
       | _ => activation_keys w
       end;
     active_users :=
       match m !! "data/active_users.json" with
       | Some (DocJson (Py.JList l)) => l
       | _ => active_users w
       end;
     bot_statistics :=
       match m !! "data/bot_statistics.json" with
       | Some (DocStatistics s) => s
       | _ => bot_statistics w
       end;
     background_jobs :=
       match m !! "data/background_jobs.json" with
       | Some (DocJobs l) => l
       | _ => background_jobs w
       end;
     telegram_verification_codes :=
       match m !! "data/telegram_verification_codes.json" with
       | Some (DocJson (Py.JDict d)) => d
       | _ => telegram_verification_codes w
       end;
     fs := fs w;
     panel_log := panel_log w |}.

(* ===================================================================== *)
(** ** bot.py: dispatcher, growth calculator, scheduler                   *)
(* ===================================================================== *)

Definition count_order (ok : bool) (s : Statistics) : Statistics :=
  {| total_orders := total_orders s + 1;
     successful_orders := if ok then successful_orders s + 1 else successful_orders s;
     failed_orders := if ok then failed_orders s else failed_orders s + 1;
     total_users := total_users s;
     active_users_count := active_users_count s;
     total_spent := total_spent s;
     last_24h_orders := last_24h_orders s + 1 |}.

Definition set_total_spent (v : Py.num) (s : Statistics) : Statistics :=
  {| total_orders := total_orders s;
     successful_orders := successful_orders s;
     failed_orders := failed_orders s;
     total_users := total_users s;
     active_users_count := active_users_count s;
     total_spent := v;
     last_24h_orders := last_24h_orders s |}.

(** [{"error": f"Internal error: {str(e)}"}] *)
Definition error_order (e : Py.exc) : Response :=
  {[ "error" := Py.JStr ("Internal error: " +:+ Py.str e) ]}.

(** [place_order]. [new_order] is what [connect_smm_panel] returns for the
    request (a reply of the panel, or the [{"error": ...}] object it builds
    on a timeout, a connection error, a status other than 200 or a body that
    is not JSON); [timestamp] is the clock reading taken on entry. The
    notifications it sends do not touch the state. An exception inside
    ([quantity * 0.001] on an integer beyond the doubles) is caught and
    turned into an error reply, after the counters were updated and before
    [save_data]. *)
Definition place_order (new_order : Response) (timestamp : string)
    (api_url api_key service_id link : string) (quantity : Z) (user_id : string)
    (w : World) : (Response * string) * World :=
  let request := {| p_url := api_url; p_key := api_key; p_action := "add";
                    p_service := service_id; p_link := link;
                    p_quantity := quantity |} in
  let w := with_panel_log (panel_log w ++ [request]) w in
  match new_order !! "order" with
  | Some order_id =>
      let s := count_order true (bot_statistics w) in
      match (let! estimated_cost := Py.int_mul_float quantity Py.lit_0_001 in
             Py.add_float (total_spent s) estimated_cost) with
      | Py.Ok spent =>
          ((new_order, timestamp), save_data (with_statistics (set_total_spent spent s) w))
      | Py.Raise e => ((error_order e, timestamp), with_statistics s w)
      end
  | None =>
      let s := count_order false (bot_statistics w) in
      ((new_order, timestamp), save_data (with_statistics s w))
  end.

(** [calculate_next_quantity]. [uniform] is [random.uniform], the source of
    the draw. The [try] block is [attempt]; any exception in it leads to the
    fallback [int(current_quantity * 1.1)], whose own exception is not
    caught. *)
Definition calculate_next_quantity (current_quantity : Z) (increase_range : list Py.num)
    (uniform : spec_float -> spec_float -> spec_float) : Py.result Z :=
  let attempt :=
    match increase_range with
    | [min_increase; max_increase] =>
        let! a := Py.to_float min_increase in
        let! b := Py.to_float max_increase in
        let increase_percent := uniform a b in
        let! ratio := Py.float_div_int increase_percent 100 in
        let! product := Py.int_mul_float current_quantity ratio in
        let! increase_amount := Py.int_of_float product in
        Py.Ok (current_quantity + increase_amount)
    | _ => Py.Raise (Py.Exc "ValueError" "wrong number of values to unpack (expected 2)")
    end in
  match attempt with
  | Py.Ok next_quantity => Py.Ok next_quantity
  | Py.Raise _ =>
      let! product := Py.int_mul_float current_quantity Py.lit_1_1 in
      Py.int_of_float product
  end.

(** [get_user_active_jobs] *)
Definition get_user_active_jobs (user : string) (w : World) : list Job :=
  filter (fun job => user_id job = user /\ stopped job = false) (background_jobs w).

(** [get_all_active_jobs] *)
Definition get_all_active_jobs (w : World) : list Job :=
  filter (fun job => stopped job = false) (background_jobs w).

(** [get_user_orders]: the user's 'orders', [[]] for an unknown user or a
    user without that key. *)
Definition get_user_orders (user : string) (w : World) : list OrderInfo :=
  match user_data w !! user with
  | Some u => default [] (u_orders u)
  | None => []
  end.

(** Truth value of an optional string argument ([if stopped_by:]). *)
Definition truthy (o : option string) : bool :=
  match o with
  | Some s => negb (String.eqb s "")
  | None => false
  end.

(** The loop of [stop_job]: the first job with that id is stopped,
    whatever its state. [None] when the loop finds no such job. *)
Fixpoint stop_first (now_str job : string) (by_user : option string) (jobs : list Job)
  : option (list Job) :=
  match jobs with
  | [] => None
  | j :: rest =>
      if String.eqb (job_id j) job then
        let j1 := set_stopped_at (Some now_str) (set_stopped true j) in
        let j2 := if truthy by_user then set_stopped_by by_user j1 else j1 in
        Some (j2 :: rest)
      else option_map (cons j) (stop_first now_str job by_user rest)
  end.

(** [stop_job(job_id, stopped_by)]; [now_str] is [datetime.now()] formatted. *)
Definition stop_job (now_str job : string) (by_user : option string) (w : World)
  : bool * World :=
  match stop_first now_str job by_user (background_jobs w) with
  | Some jobs => (true, save_data (with_jobs jobs w))
  | None => (false, w)
  end.

(** What one pass of the scheduler loop reads from outside: the clock
    ([now = int(time.time())]), [datetime.fromtimestamp(t).strftime(...)]
    (which raises for a time outside the platform's range), and, for the job
    at position [i] of [background_jobs], the panel's reply to its order, the
    time stamp [place_order] takes and the random source. *)
Record TickEnv := {
  now : Z;
  fromtimestamp : Z -> Py.result string;
  panel_reply : nat -> Response;
  order_time : nat -> string;
  uniform : nat -> spec_float -> spec_float -> spec_float
}.

(** [user_data[user_id]['orders'].append(order_info)], creating the list
    when the key is missing. *)
Definition append_user_order (info : OrderInfo) (u : User) : User :=
  {| telegram_id := telegram_id u;
     u_orders := Some (default [] (u_orders u) ++ [info]) |}.

(** The [try] block of the scheduler for the job at position [i]: the job
    as the block leaves it, the world, and the exception if one was raised.
    The job is a mutable dict, so what was assigned before an exception stays
    assigned. *)
Definition process_job (env : TickEnv) (i : nat) (job : Job) (w : World)
  : Job * World * option Py.exc :=
  if stopped job then (job, w, None)
  else
    let debug_info :=
      if 0 <? next_run job
      then (let! next_run_time := fromtimestamp env (next_run job) in
            fromtimestamp env (now env))
      else Py.Ok "" in
    match debug_info with
    | Py.Raise e => (job, w, Some e)
    | Py.Ok _ =>
        if next_run job <=? now env then
          match user_data w !! user_id job with
          | None => (job, w, None)
          | Some user =>
              let current_quantity := quantity job in
              let '((new_order, timestamp), w1) :=
                place_order (panel_reply env i) (order_time env i)
                  (api_url job) (api_key job) (service_id job) (link job)
                  current_quantity (user_id job) w in
              let order_info :=
                {| o_timestamp := timestamp; o_quantity := current_quantity;
                   o_response := new_order; o_job_id := job_id job;
                   o_service_id := service_id job; o_link := link job |} in
              let w2 :=
                with_users (<[user_id job := append_user_order order_info user]>
                              (user_data w1)) w1 in
              let job1 := set_orders (orders job ++ [order_info]) job in
              match calculate_next_quantity current_quantity (increase_range job)
                      (uniform env i) with
              | Py.Raise e => (job1, w2, Some e)
              | Py.Ok next_quantity =>
                  let job2 :=
                    set_next_run (now env + frequency job * 60)
                      (set_quantity next_quantity job1) in
                  match fromtimestamp env (next_run job2) with
                  | Py.Raise e => (job2, w2, Some e)
                  | Py.Ok _ => (job2, w2, None)
                  end
              end
          end
        else (job, w, None)
    end.

(** The [except] block of the scheduler for one job. *)
Definition handle_job_error (e : Py.exc) (job : Job) : Job :=
  let job1 :=
    set_error_count
      (Some match error_count job with
            | None => 1
            | Some n => n + 1
            end) job in
  if 5 <? default 0 (error_count job1)
  then set_stopped_reason (Some ("Too many errors: " +:+ Py.str e)) (set_stopped true job1)
  else job1.

(** One turn of [for job in background_jobs]: the job at position [i] is
    processed and, being the same object, is seen updated in the list. *)
Definition process_at (env : TickEnv) (w : World) (i : nat) : World :=
  match background_jobs w !! i with
  | None => w
  | Some job =>
      let '(job1, w1, raised) := process_job env i job w in
      let job2 := match raised with
                  | Some e => handle_job_error e job1
                  | None => job1
                  end in
      with_jobs (<[i := job2]> (background_jobs w1)) w1
  end.

(** One pass of the [while True] loop of [process_automation_jobs]: every
    job in list order, then [save_data]. *)
Definition scheduler_tick (env : TickEnv) (w : World) : World :=
  save_data (foldl (process_at env) w (seq 0 (length (background_jobs w)))).

(** The loop itself, run for the passes whose environments are given. *)
Definition process_automation_jobs (envs : list TickEnv) (w : World) : World :=
  foldl (fun w env => scheduler_tick env w) w envs.

(** The world a pass has reached when it comes to position [i], and the
    exception (if any) that the [try] block raises for the job there. *)
Definition world_before (env : TickEnv) (w : World) (i : nat) : World :=
  foldl (process_at env) w (seq 0 i).

Definition raised_at (env : TickEnv) (w : World) (i : nat) : option Py.exc :=
  match background_jobs (world_before env w i) !! i with
  | Some job => (process_job env i job (world_before env w i)).2
  | None => None
  end.

(** *** Conversational job creation *)

(** The session data handed to [create_jobs_from_telegram], after the
    [int()] and [float()] conversions of its first lines. *)
Record JobData := {
  api_urls : list string;
  api_keys : list string;
  target_links : list string;
  service_ids : list string;
  jd_quantity : Z;
  jd_increase_min : spec_float;
  jd_increase_max : spec_float;
  jd_frequency : Z
}.

(** What a creation request reads from outside: the [k]-th uuid it draws
    and the clock at the [k]-th job it builds. *)
Record CreateEnv := {
  uuid4 : nat -> string;
  time_at : nat -> Z;
  strftime_at : nat -> string
}.

(** [xs[i] if i < len(xs) else xs[0]]; [None] is an [IndexError]. *)
Definition pick (xs : list string) (i : nat) : option string :=
  if (i <? length xs)%nat then xs !! i else xs !! 0%nat.

Definition telegram_job (env : CreateEnv) (user : string) (d : JobData) (i : nat)
  : option Job :=
  url ← pick (api_urls d) i;
  key ← pick (api_keys d) i;
  sid ← pick (service_ids d) i;
  lnk ← pick (target_links d) i;
  Some {| job_id := "job_" +:+ uuid4 env i; user_id := user;
          api_url := url; api_key := key; service_id := sid; link := lnk;
          quantity := jd_quantity d;
          increase_range := [Py.PyFloat (jd_increase_min d); Py.PyFloat (jd_increase_max d)];
          frequency := jd_frequency d; next_run := time_at env i;
          started_at := strftime_at env i; stopped := false; orders := [];
          paused := None; bulk_group_id := NoKey; paused_at := NoKey;
          resumed_at := NoKey; stopped_at := None; stopped_by := None;
          stopped_reason := None; error_count := None; template_id := None |}.

(** [create_jobs_from_telegram]: the number of jobs created, [0] when an
    exception (an index into an empty list) was caught. *)
Definition create_jobs_from_telegram (env : CreateEnv) (user : string) (d : JobData)
    (w : World) : Z * World :=
  let is_bulk :=
    (1 <? length (api_urls d))%nat || (1 <? length (target_links d))%nat
    || (1 <? length (service_ids d))%nat in
  let max_jobs :=
    Nat.max (Nat.max (length (api_urls d)) (length (target_links d)))
      (length (service_ids d)) in
  let max_jobs := if (10 <? max_jobs)%nat then 10%nat else max_jobs in
  match mapM (telegram_job env user d) (seq 0 max_jobs) with
  | Some created_jobs =>
      (Z.of_nat (length created_jobs),
       save_data (with_jobs (background_jobs w ++ created_jobs) w))
  | None => (0, w)
  end.

(** *** Conversation sessions *)

(** [telegram_user_sessions]: for each chat (under the key [str(chat_id)],
    which is what the functions below take) the session dict of the chat. *)
Definition Sessions : Type := gmap string (gmap string Py.json).

Definition store_user_session (chat : string) (session_data : gmap string Py.json)
    (ss : Sessions) : Sessions :=
  <[chat := session_data]> ss.

Definition get_user_session (chat : string) (ss : Sessions) : option (gmap string Py.json) :=
  ss !! chat.

Definition clear_user_session (chat : string) (ss : Sessions) : Sessions :=
  delete chat ss.

(** [{'step': step, 'data': data}] *)
Definition newjob_entry (step : string) (data : list (string * Py.json)) : Py.json :=
  Py.JDict [("step", Py.JStr step); ("data", Py.JDict data)].

Definition store_newjob_session (chat step : string) (data : list (string * Py.json))
    (ss : Sessions) : Sessions :=
  let session := default ∅ (ss !! chat) in
  <[chat := <["newjob" := newjob_entry step data]> session]> ss.

Definition get_newjob_session (chat : string) (ss : Sessions) : option Py.json :=
  session ← ss !! chat; session !! "newjob".

Definition clear_newjob_session (chat : string) (ss : Sessions) : Sessions :=
  match ss !! chat with
  | Some session =>
      match session !! "newjob" with
      | Some _ => <[chat := delete "newjob" session]> ss
      | None => ss
      end
  | None => ss
  end.

(* ===================================================================== *)
(** ** app.py: lifecycle operations and the creation form                 *)
(* ===================================================================== *)

(** The loop of [pause_job]: the first job with that id and owner. *)
Fixpoint pause_first (now_str job user : string) (jobs : list Job) : option (list Job) :=
  match jobs with
  | [] => None
  | j :: rest =>
      if String.eqb (job_id j) job && String.eqb (user_id j) user
      then Some (set_paused_at (Is now_str) (set_paused (Some true) j) :: rest)
      else option_map (cons j) (pause_first now_str job user rest)
  end.

Definition pause_job (now_str job user : string) (w : World) : bool * World :=
  match pause_first now_str job user (background_jobs w) with
  | Some jobs => (true, save_data (with_jobs jobs w))
  | None => (false, w)
  end.

(** The loop of [resume_job]; [time_now] is [int(time.time())]. *)
Fixpoint resume_first (now_str : string) (time_now : Z) (job user : string)
    (jobs : list Job) : option (list Job) :=
  match jobs with
  | [] => None
  | j :: rest =>
      if String.eqb (job_id j) job && String.eqb (user_id j) user
      then Some (set_next_run time_now
                   (set_resumed_at (Is now_str) (set_paused (Some false) j)) :: rest)
      else option_map (cons j) (resume_first now_str time_now job user rest)
  end.

Definition resume_job (now_str : string) (time_now : Z) (job user : string) (w : World)
  : bool * World :=
  match resume_first now_str time_now job user (background_jobs w) with
  | Some jobs => (true, save_data (with_jobs jobs w))
  | None => (false, w)
  end.

(** The test shared by the three bulk operations. *)
Definition in_group (group user : string) (j : Job) : bool :=
  entry_is (bulk_group_id j) group && String.eqb (user_id j) user && negb (stopped j).

(** The clock of a bulk operation: the readings taken when the loop is at
    position [i]. *)
Record BulkEnv := {
  now_str_at : nat -> string;
  time_now_at : nat -> Z
}.

(** The loop shared by the bulk operations: [change i] is applied to the
    job at position [i] when it passes the test. *)
Definition bulk_apply (change : nat -> Job -> Job) (group user : string) (w : World)
  : Z * World :=
  let jobs := imap (fun i j => if in_group group user j then change i j else j)
                (background_jobs w) in
  let count := Z.of_nat (length (filter (fun j => in_group group user j = true)
                                   (background_jobs w))) in
  (count, if 0 <? count then save_data (with_jobs jobs w) else with_jobs jobs w).

Definition pause_bulk_jobs (env : BulkEnv) (group user : string) (w : World) : Z * World :=
  bulk_apply (fun i j => set_paused_at (Is (now_str_at env i)) (set_paused (Some true) j))
    group user w.

Definition resume_bulk_jobs (env : BulkEnv) (group user : string) (w : World) : Z * World :=
  bulk_apply
    (fun i j => set_next_run (time_now_at env i)
                  (set_resumed_at (Is (now_str_at env i)) (set_paused (Some false) j)))
    group user w.

Definition stop_bulk_jobs (env : BulkEnv) (group user : string) (w : World) : Z * World :=
  bulk_apply (fun i j => set_stopped_at (Some (now_str_at env i)) (set_stopped true j))
    group user w.

(** [stop_job_route]: the first job with that id that the session user owns
    (or any job with that id for the admin) is handed to [stop_job]. The
    result is [job_found]. *)
Definition stop_job_route (now_str job user : string) (w : World) : bool * World :=
  if existsb (fun j => String.eqb (job_id j) job
                       && (String.eqb (user_id j) user || String.eqb user ADMIN_USERNAME))
       (background_jobs w)
  then (true, save_data (stop_job now_str job (Some user) w).2)
  else (false, w).

(** The fields of the creation form, after [int()], [float()] and the
    splitting of the text areas into their non-blank stripped lines. *)
Record ServiceConfig := {
  c_service_id : string;
  c_quantity : Z;
  c_increase_min : spec_float;
  c_increase_max : spec_float;
  c_frequency : Z
}.

Record Form := {
  f_api_url : string;
  f_api_key : string;
  f_service_id : string;
  f_bulk_service_ids : list string;
  f_quantity : Z;
  f_increase_min : spec_float;
  f_increase_max : spec_float;
  f_frequency : Z;
  f_bulk_mode : bool;
  f_individual_settings : bool;
  f_bulk_links : list string;
  f_link : string;
  f_service_configs : list ServiceConfig
}.

(** [if frequency < 5: frequency = 5] *)
Definition clamp_frequency (frequency : Z) : Z :=
  if frequency <? 5 then 5 else frequency.

(** The job dict of the individual-settings branch. *)
Definition individual_job (env : CreateEnv) (user : string) (f : Form)
    (group : entry string) (k : nat) (cl : ServiceConfig * string) : Job :=
  {| job_id := "job_" +:+ uuid4 env k; user_id := user;
     api_url := f_api_url f; api_key := f_api_key f;
     service_id := c_service_id cl.1; link := cl.2;
     quantity := c_quantity cl.1;
     increase_range := [Py.PyFloat (c_increase_min cl.1); Py.PyFloat (c_increase_max cl.1)];
     frequency := clamp_frequency (c_frequency cl.1); next_run := time_at env k;
     started_at := strftime_at env k; stopped := false; orders := [];
     paused := Some false; bulk_group_id := group; paused_at := IsNone;
     resumed_at := IsNone; stopped_at := None; stopped_by := None;
     stopped_reason := None; error_count := None; template_id := None |}.

(** The job dict of the bulk-or-single branch. *)
Definition plain_job (env : CreateEnv) (user : string) (f : Form) (k : nat)
    (ls : string * string) : Job :=
  {| job_id := "job_" +:+ uuid4 env k; user_id := user;
     api_url := f_api_url f; api_key := f_api_key f;
     service_id := ls.2; link := ls.1;
     quantity := f_quantity f;
     increase_range := [Py.PyFloat (f_increase_min f); Py.PyFloat (f_increase_max f)];
     frequency := clamp_frequency (f_frequency f); next_run := time_at env k;
     started_at := strftime_at env k; stopped := false; orders := [];
     paused := None; bulk_group_id := NoKey; paused_at := NoKey;
     resumed_at := NoKey; stopped_at := None; stopped_by := None;
     stopped_reason := None; error_count := None; template_id := None |}.

(** The POST branch of [setup_automation]: the jobs created, or [None] when
    the request is turned away with a flash message. In bulk mode the first
    uuid drawn names the group, so the job ids start at the next one. *)
Definition setup_automation (env : CreateEnv) (user : string) (f : Form) (w : World)
  : option (list Job) * World :=
  let first := if f_bulk_mode f then 1%nat else 0%nat in
  let bulk_group_id := if f_bulk_mode f then Is ("bulk_" +:+ uuid4 env 0) else IsNone in
  let links := if f_bulk_mode f then f_bulk_links f else [f_link f] in
  if f_bulk_mode f && (bool_decide (links = []) || (10 <? length links)%nat)
  then (None, w)
  else if f_individual_settings f && f_bulk_mode f then
    match f_service_configs f with
    | [] => (None, w)
    | service_configs =>
        let created_jobs :=
          imap (fun k => individual_job env user f
                           (if f_bulk_mode f then bulk_group_id else IsNone) (first + k))
            (c ← service_configs; (fun l => (c, l)) <$> links) in
        (Some created_jobs, save_data (with_jobs (background_jobs w ++ created_jobs) w))
    end
  else
    let all_service_ids := f_service_id f :: f_bulk_service_ids f in
    let created_jobs :=
      imap (fun k => plain_job env user f (first + k))
        (l ← links; (fun sid => (l, sid)) <$> all_service_ids) in
    (Some created_jobs, save_data (with_jobs (background_jobs w ++ created_jobs) w)).

(* ===================================================================== *)
(** ** The operations on the job repository, as one step relation         *)
(* ===================================================================== *)

(** One step of the system on the shared state: a pass of the scheduler, a
    lifecycle operation or a creation request, with any arguments and any
    readings of the outside world. *)
Inductive operation : World -> World -> Prop :=
  | op_tick env w : operation w (scheduler_tick env w)
  | op_pause now_str job user w : operation w (pause_job now_str job user w).2
  | op_resume now_str time_now job user w :
      operation w (resume_job now_str time_now job user w).2
  | op_stop now_str job by_user w : operation w (stop_job now_str job by_user w).2
  | op_stop_route now_str job user w : operation w (stop_job_route now_str job user w).2
  | op_pause_bulk env group user w : operation w (pause_bulk_jobs env group user w).2
  | op_resume_bulk env group user w : operation w (resume_bulk_jobs env group user w).2
  | op_stop_bulk env group user w : operation w (stop_bulk_jobs env group user w).2
  | op_setup env user f w : operation w (setup_automation env user f w).2
  | op_telegram env user d w : operation w (create_jobs_from_telegram env user d w).2
  | op_save w : operation w (save_data w).

(** [marked a b]: job [b] is job [a] with new values under at most the
    keys 'paused', 'paused_at', 'resumed_at', 'next_run', 'stopped_at' and
    'stopped_by'. *)
Definition marked (a b : Job) : Prop :=
  exists (p : option bool) (pa ra : entry string) (nr : Z) (sa sb : option string),
    b = set_paused p (set_paused_at pa (set_resumed_at ra
          (set_next_run nr (set_stopped_at sa (set_stopped_by sb a))))).

(* ===================================================================== *)
(** ** Floating-point values, for the statements about them               *)
(* ===================================================================== *)

(** The rational a finite double stands for (0 for the others). *)
Definition F2Q (x : spec_float) : Q :=
  match x with
  | S754_finite s m e => ((if s then -1 else 1) * (inject_Z (Zpos m) * 2 ^ e))%Q
  | _ => 0%Q
  end.

(** A zero or a positive finite double. *)
Definition nonneg_finite (x : spec_float) : bool :=
  match x with
  | S754_zero _ => true
  | S754_finite s _ _ => negb s
  | _ => false
  end.

(** The last step of [binary_round_aux]: the double with mantissa [m] at
    exponent [e]. *)
Definition build (s : bool) (m e : Z) : spec_float :=
  match m with
  | Z0 => S754_zero s
  | Zpos p => if e <=? Py.emax - Py.prec then S754_finite s p e else S754_infinity s
  | Zneg _ => S754_nan
  end.

(** Whether a location makes round-to-nearest-even go up (it may, on a tie). *)
Definition rounds_up (l : location) : Z :=
  match l with
  | loc_Inexact Eq | loc_Inexact Gt => 1
  | _ => 0
  end.

(** [float(100)] *)
Definition float_100 : spec_float := S754_finite false 7036874417766400 (-46).

(** A range the [try] block of [calculate_next_quantity] cannot unpack or
    convert: not two elements, or an element that is [None]. *)
Definition malformed_range (range : list Py.num) : bool :=
  match range with
  | [x; y] =>
      match x, y with
      | Py.PyNone, _ | _, Py.PyNone => true
      | _, _ => false
      end
  | _ => true
  end.

(* ===================================================================== *)
(** ** What a run of the scheduler may do to one job                       *)
(* ===================================================================== *)

(** [scheduler_run n a b]: job [b] is job [a] with up to [n] orders appended
    to its history and new values under the keys the scheduler writes:
    'orders', 'quantity', 'next_run', 'error_count', 'stopped' and
    'stopped_reason'. *)
Definition scheduler_run (n : nat) (a b : Job) : Prop :=
  exists (l : list OrderInfo) (q nr : Z) (ec : option Z) (st : bool) (r : option string),
    b = set_stopped_reason r (set_stopped st (set_error_count ec
          (set_next_run nr (set_quantity q (set_orders (orders a ++ l) a)))))
    /\ (length l <= n)%nat
    /\ Forall (fun o => o_job_id o = job_id a) l
    /\ default 0 (error_count a) <= default 0 ec <= default 0 (error_count a) + Z.of_nat n
    /\ (stopped a = true -> b = a)
    /\ (stopped a = false -> st = true -> 5 < default 0 ec).


(* ===================================================================== *)
(** ** Concrete data for the examples                                     *)
(* ===================================================================== *)

Module Sample.

Definition statistics : Statistics :=
  {| total_orders := 0; successful_orders := 0; failed_orders := 0; total_users := 0;
     active_users_count := 0; total_spent := Py.PyInt 0; last_24h_orders := 0 |}.

Definition user : User := {| telegram_id := None; u_orders := Some [] |}.

(** A fresh process: empty globals, no files, one registered user. *)
Definition world (jobs : list Job) : World :=
  {| user_data := {[ "alice" := user ]};
     activation_keys := []; active_users := [];
     bot_statistics := statistics; background_jobs := jobs;
     telegram_verification_codes := [];
     fs := {| files := ∅; temp_dir_usable := true |};
     panel_log := [] |}.

(** A job as the creation form builds it for [alice]. *)
Definition job (id : string) (q : Z) (lo hi : Z) (freq next : Z) : Job :=
  {| job_id := id; user_id := "alice"; api_url := "https://panel.example/api/v2";
     api_key := "k"; service_id := "1"; link := "https://example.org/p";
     quantity := q;
     increase_range := [Py.PyInt lo; Py.PyInt hi];
     frequency := freq; next_run := next;
     started_at := "2023-11-14 22:13:20"; stopped := false; orders := [];
     paused := None; bulk_group_id := NoKey; paused_at := NoKey;
     resumed_at := NoKey; stopped_at := None; stopped_by := None;
     stopped_reason := None; error_count := None; template_id := None |}.

Definition accepted : Response := {[ "order" := Py.JInt 4711 ]}.
Definition refused : Response := {[ "error" := Py.JStr "Not enough funds on balance" ]}.

(** [datetime.fromtimestamp] where local time is UTC: the years 1 to 9999. *)
Definition utc_fromtimestamp (t : Z) : Py.result string :=
  if (-62135596800 <=? t) && (t <=? 253402300799)
  then Py.Ok "formatted"
  else Py.Raise (Py.Exc "ValueError" "year is out of range").

(** A pass at time [t] in which the panel answers every order with [reply]
    and every draw returns the lower end of the range. *)
Definition pass (t : Z) (reply : Response) : TickEnv :=
  {| now := t; fromtimestamp := utc_fromtimestamp;
     panel_reply := fun _ => reply;
     order_time := fun _ => "2023-11-14 22:15:00";
     uniform := fun _ a _ => a |}.

Definition create_env : CreateEnv :=
  {| uuid4 := fun k => String (ascii_of_nat (97 + k)) "";
     time_at := fun _ => 1700000000;
     strftime_at := fun _ => "2023-11-14 22:13:20" |}.

Definition bulk_env : BulkEnv :=
  {| now_str_at := fun _ => "2023-11-14 22:20:00";
     time_now_at := fun _ => 1700000400 |}.

(** A job due since [1700000000], stopped or paused by its owner. *)
Definition stopped_job : Job := set_stopped true (job "j1" 100 10 20 5 1700000000).
Definition paused_job : Job := set_paused (Some true) (job "j1" 100 10 20 5 1700000000).

(** The session of the specification's scenario: two links, one url, one
    key, one service, quantity 50, growth "5-5", frequency 10. *)
Definition two_links : JobData :=
  {| api_urls := ["https://panel.example/api/v2"]; api_keys := ["k"];
     target_links := ["https://example.org/p"; "https://example.org/q"];
     service_ids := ["1"]; jd_quantity := 50;
     jd_increase_min := S754_finite false 5629499534213120 (-50);
     jd_increase_max := S754_finite false 5629499534213120 (-50);
     jd_frequency := 10 |}.

(** The creation form in bulk mode with two links and one service, and in
    individual-settings mode with one link and one service configuration. *)
Definition bulk_form : Form :=
  {| f_api_url := "https://panel.example/api/v2"; f_api_key := "k";
     f_service_id := "1"; f_bulk_service_ids := []; f_quantity := 100;
     f_increase_min := S754_finite false 5629499534213120 (-49);
     f_increase_max := S754_finite false 5629499534213120 (-48);
     f_frequency := 5; f_bulk_mode := true; f_individual_settings := false;
     f_bulk_links := ["https://example.org/p"; "https://example.org/q"];
     f_link := ""; f_service_configs := [] |}.

Definition individual_form : Form :=
  {| f_api_url := "https://panel.example/api/v2"; f_api_key := "k";
     f_service_id := "1"; f_bulk_service_ids := []; f_quantity := 100;
     f_increase_min := S754_finite false 5629499534213120 (-49);
     f_increase_max := S754_finite false 5629499534213120 (-48);
     f_frequency := 5; f_bulk_mode := true; f_individual_settings := true;
     f_bulk_links := ["https://example.org/p"];
     f_link := "";
     f_service_configs :=
       [{| c_service_id := "1"; c_quantity := 100;
           c_increase_min := S754_finite false 5629499534213120 (-49);
           c_increase_max := S754_finite false 5629499534213120 (-48);
           c_frequency := 5 |}] |}.

(** Six passes, five minutes apart, in each of which the panel refuses the
    order of the job due since [1700000000]; and a seventh. *)
Definition six_refusals : list TickEnv :=
  [pass 1700000100 refused; pass 1700000400 refused; pass 1700000700 refused;
   pass 1700001000 refused; pass 1700001300 refused; pass 1700001600 refused].

Definition after_six_refusals : World :=
  process_automation_jobs six_refusals (world [job "j1" 100 10 20 5 1700000000]).

(** A job whose frequency (ten thousand million minutes, as typed into the
    form) puts its second run beyond the year 9999, and six passes over it. *)
Definition runaway_job : Job := job "j1" 100 10 20 10000000000 1700000000.

Definition six_passes : list TickEnv :=
  [pass 1700000100 accepted; pass 1700000115 accepted; pass 1700000130 accepted;
   pass 1700000145 accepted; pass 1700000160 accepted; pass 1700000175 accepted].

(** [float(29)], and a random source that returns the lower end. *)
Definition float_29 : spec_float :=
  Eval vm_compute in binary_normalize Py.prec Py.emax 29 0 false.

Definition draw_low (a b : spec_float) : spec_float := a.

End Sample.

(* ===================================================================== *)
(** * Properties                                                          *)
(* ===================================================================== *)

(** ** Frame lemmas: what the store and the dispatcher leave alone *)

Lemma save_data_jobs (w : World) : background_jobs (save_data w) = background_jobs w.
Proof. reflexivity. Qed.

Lemma save_data_users (w : World) : user_data (save_data w) = user_data w.
Proof. reflexivity. Qed.

Lemma save_data_panel_log (w : World) : panel_log (save_data w) = panel_log w.
Proof. reflexivity. Qed.

Lemma with_jobs_same (w : World) : with_jobs (background_jobs w) w = w.
Proof. by destruct w. Qed.

Lemma place_order_jobs reply ts url key sid lnk q u (w : World) :
  background_jobs (place_order reply ts url key sid lnk q u w).2 = background_jobs w.
Proof.
  unfold place_order.
  destruct (reply !! "order"); [|reflexivity].
  destruct (Py.bind _ _); reflexivity.
Qed.

Lemma place_order_users reply ts url key sid lnk q u (w : World) :
  user_data (place_order reply ts url key sid lnk q u w).2 = user_data w.
Proof.
  unfold place_order.
  destruct (reply !! "order"); [|reflexivity].
  destruct (Py.bind _ _); reflexivity.
Qed.

(** Every order placed adds exactly one request to the panel log. *)
Lemma place_order_panel_log reply ts url key sid lnk q u (w : World) :
  panel_log (place_order reply ts url key sid lnk q u w).2
  = panel_log w ++ [{| p_url := url; p_key := key; p_action := "add"; p_service := sid;
                       p_link := lnk; p_quantity := q |}].
Proof.
  unfold place_order.
  destruct (reply !! "order"); [|reflexivity].
  destruct (Py.bind _ _); reflexivity.
Qed.

Lemma process_job_jobs env i job (w : World) :
  background_jobs (process_job env i job w).1.2 = background_jobs w.
Proof.
  unfold process_job.
  destruct (stopped job); [reflexivity|].
  destruct (if 0 <? next_run job then _ else _); [|reflexivity].
  destruct (next_run job <=? now env); [|reflexivity].
  destruct (user_data w !! user_id job) as [u|]; [|reflexivity].
  pose proof (place_order_jobs (panel_reply env i) (order_time env i) (api_url job)
                (api_key job) (service_id job) (link job) (quantity job) (user_id job) w) as H.
  destruct (place_order _ _ _ _ _ _ _ _ w) as [[new_order timestamp] w1]. simpl in H.
  destruct (calculate_next_quantity _ _ _); [|exact H].
  destruct (fromtimestamp env _); exact H.
Qed.

(** A stopped job leaves the [try] block at once: same job, same world, no
    exception. *)
Lemma process_job_stopped env i job (w : World) :
  stopped job = true -> process_job env i job w = (job, w, None).
Proof. intros H. unfold process_job. by rewrite H. Qed.

Lemma process_at_length env (w : World) i :
  length (background_jobs (process_at env w i)) = length (background_jobs w).
Proof.
  unfold process_at.
  destruct (background_jobs w !! i) as [job|]; [|reflexivity].
  pose proof (process_job_jobs env i job w) as H.
  destruct (process_job env i job w) as [[job1 w1] raised]. simpl in *.
  by rewrite length_insert, H.
Qed.

Lemma process_at_other env (w : World) i k :
  i ≠ k -> background_jobs (process_at env w i) !! k = background_jobs w !! k.
Proof.
  intros Hne. unfold process_at.
  destruct (background_jobs w !! i) as [job|]; [|reflexivity].
  pose proof (process_job_jobs env i job w) as H.
  destruct (process_job env i job w) as [[job1 w1] raised]. simpl in *.
  by rewrite list_lookup_insert_ne, H.
Qed.

(** The turn of a stopped job changes nothing at all. *)
Lemma process_at_stopped env (w : World) i job :
  background_jobs w !! i = Some job -> stopped job = true -> process_at env w i = w.
Proof.
  intros Hi Hs. unfold process_at. rewrite Hi, (process_job_stopped _ _ _ _ Hs).
  rewrite list_insert_id by done. apply with_jobs_same.
Qed.

Lemma process_at_keeps_stopped env (w : World) i k job :
  background_jobs w !! k = Some job -> stopped job = true ->
  background_jobs (process_at env w i) !! k = Some job.
Proof.
  intros Hk Hs. destruct (decide (i = k)) as [->|Hne].
  - by rewrite (process_at_stopped _ _ _ _ Hk Hs).
  - by rewrite process_at_other.
Qed.

Lemma foldl_process_at_keeps_stopped env (positions : list nat) (w : World) k job :
  background_jobs w !! k = Some job -> stopped job = true ->
  background_jobs (foldl (process_at env) w positions) !! k = Some job.
Proof.
  revert w. induction positions as [|i positions IH]; intros w Hk Hs; [done|].
  simpl. apply IH; [|done]. by apply process_at_keeps_stopped.
Qed.

Lemma tick_keeps_stopped env (w : World) i job :
  background_jobs w !! i = Some job -> stopped job = true ->
  background_jobs (scheduler_tick env w) !! i = Some job.
Proof.
  intros Hi Hs. unfold scheduler_tick. rewrite save_data_jobs.
  by apply foldl_process_at_keeps_stopped.
Qed.

(** ** C4: a stopped job is out of the scheduler's reach *)

(** C4. For every job with [stopped = true], one pass of the scheduler
    leaves the job as it is: the job at its position afterwards is the very
    same record, so its quantity, its next_run and its order history are
    unchanged (and so is everything else in it). *)
Theorem stopped_job_untouched_by_tick (env : TickEnv) (w : World) (i : nat) (job : Job) :
  background_jobs w !! i = Some job ->
  stopped job = true ->
  background_jobs (scheduler_tick env w) !! i = Some job
  /\ (forall job', background_jobs (scheduler_tick env w) !! i = Some job' ->
        quantity job' = quantity job /\ next_run job' = next_run job
        /\ orders job' = orders job).
Proof.
  intros Hi Hs.
  assert (background_jobs (scheduler_tick env w) !! i = Some job) as H
    by (by apply tick_keeps_stopped).
  split; [exact H|].
  intros job' H'. rewrite H in H'. by inversion H'.
Qed.

Lemma stopped_job_untouched_by_tick_witness :
  background_jobs (Sample.world [Sample.stopped_job]) !! 0%nat = Some Sample.stopped_job
  /\ stopped Sample.stopped_job = true
  /\ background_jobs
       (scheduler_tick (Sample.pass 1700000100 Sample.accepted)
          (Sample.world [Sample.stopped_job])) !! 0%nat
     = Some Sample.stopped_job.
Proof.
  split; [reflexivity|]. split; [reflexivity|].
  apply (stopped_job_untouched_by_tick (Sample.pass 1700000100 Sample.accepted)
           (Sample.world [Sample.stopped_job]) 0%nat Sample.stopped_job); reflexivity.
Defined.

(** ** C1: a paused job and the scheduler *)

(** The scheduler never reads the key [paused]: the [try] block does to a
    job with the key set what it does to the job without it. *)
Lemma process_job_ignores_paused env i (v : option bool) job (w : World) :
  process_job env i (set_paused v job) w
  = let '(job1, w1, raised) := process_job env i job w in (set_paused v job1, w1, raised).
Proof.
  unfold process_job. simpl.
  destruct (stopped job); [reflexivity|].
  destruct (if 0 <? next_run job then _ else _); [|reflexivity].
  destruct (next_run job <=? now env); [|reflexivity].
  destruct (user_data w !! user_id job) as [u|]; [|reflexivity].
  destruct (place_order _ _ _ _ _ _ _ _ w) as [[new_order timestamp] w1].
  destruct (calculate_next_quantity _ _ _); [|reflexivity].
  simpl. destruct (fromtimestamp env _); reflexivity.
Qed.

(** C1 (the code at the failing input). A job that is paused, not stopped
    and due is dispatched by the next pass like any other job: one request
    goes to the panel, the order is appended to its history, its quantity
    grows from 100 to 110 and its next_run moves to [now + frequency * 60].
    The claim says the pass leaves such a job unchanged. *)
Theorem paused_job_is_dispatched :
  paused Sample.paused_job = Some true /\ stopped Sample.paused_job = false
  /\ exists job',
       background_jobs
         (scheduler_tick (Sample.pass 1700000100 Sample.accepted)
            (Sample.world [Sample.paused_job])) = [job']
       /\ paused job' = Some true
       /\ quantity Sample.paused_job = 100 /\ quantity job' = 110
       /\ next_run Sample.paused_job = 1700000000 /\ next_run job' = 1700000400
       /\ orders Sample.paused_job = [] /\ length (orders job') = 1%nat
       /\ panel_log
            (scheduler_tick (Sample.pass 1700000100 Sample.accepted)
               (Sample.world [Sample.paused_job]))
          = [{| p_url := "https://panel.example/api/v2"; p_key := "k"; p_action := "add";
                p_service := "1"; p_link := "https://example.org/p"; p_quantity := 100 |}].
Proof.
  split; [reflexivity|]. split; [reflexivity|].
  eexists. split; [vm_compute; reflexivity|].
  repeat split; vm_compute; reflexivity.
Qed.

(** ** C3: lifecycle operations on a stopped job *)

(** C3 (the code at the failing input). On a job that is already stopped,
    [pause_job], [resume_job] and the stop route all report success and
    write to the job: pause sets [paused] and [paused_at], resume clears
    [paused], sets [resumed_at] and resets [next_run], stop rewrites
    [stopped_at] and [stopped_by]. The claim says each reports failure and
    leaves the job unchanged. *)
Theorem lifecycle_operations_reach_stopped_job :
  stopped Sample.stopped_job = true
  /\ pause_job "2023-11-14 22:20:00" "j1" "alice" (Sample.world [Sample.stopped_job])
     = (true,
        save_data
          (Sample.world
             [set_paused_at (Is "2023-11-14 22:20:00")
                (set_paused (Some true) Sample.stopped_job)]))
  /\ resume_job "2023-11-14 22:20:00" 1700000400 "j1" "alice"
       (Sample.world [Sample.stopped_job])
     = (true,
        save_data
          (Sample.world
             [set_next_run 1700000400
                (set_resumed_at (Is "2023-11-14 22:20:00")
                   (set_paused (Some false) Sample.stopped_job))]))
  /\ (stop_job_route "2023-11-14 22:20:00" "j1" "alice"
        (Sample.world [Sample.stopped_job])).1 = true
  /\ background_jobs
       (stop_job_route "2023-11-14 22:20:00" "j1" "alice"
          (Sample.world [Sample.stopped_job])).2
     = [set_stopped_by (Some "alice")
          (set_stopped_at (Some "2023-11-14 22:20:00") Sample.stopped_job)]
  /\ set_paused (Some true) Sample.stopped_job <> Sample.stopped_job
  /\ set_stopped_at (Some "2023-11-14 22:20:00") Sample.stopped_job <> Sample.stopped_job.
Proof.
  repeat split; try reflexivity; intros H; discriminate H.
Qed.

(** ** C5: the bulk operations *)

Lemma in_group_spec (group user : string) (j : Job) :
  in_group group user j = true
  <-> bulk_group_id j = Is group /\ user_id j = user /\ stopped j = false.
Proof.
  unfold in_group, entry_is.
  rewrite !andb_true_iff, negb_true_iff, String.eqb_eq.
  destruct (bulk_group_id j) as [| |g]; try (split; [intros [[? _] _]|intros [? _]]; discriminate).
  rewrite bool_decide_eq_true. split; [intros [[-> ?] ?]|intros [[= ->] [? ?]]]; auto.
Qed.

Lemma bulk_apply_spec (change : nat -> Job -> Job) (group user : string) (w : World) :
  (bulk_apply change group user w).1
  = Z.of_nat (length (filter (fun j => in_group group user j = true) (background_jobs w)))
  /\ forall i : nat,
       background_jobs (bulk_apply change group user w).2 !! i
       = (fun j => if in_group group user j then change i j else j)
           <$> background_jobs w !! i.
Proof.
  unfold bulk_apply. simpl. split; [reflexivity|].
  intros i.
  destruct (0 <? _); simpl; apply list_lookup_imap.
Qed.

(** C5. For every group id and requester, each of [pause_bulk_jobs],
    [resume_bulk_jobs] and [stop_bulk_jobs] writes to exactly the jobs whose
    bulk_group_id is that group, whose owner is the requester and which are
    not stopped (the test [in_group]), leaves every other job as it is, and
    returns the number of jobs that pass the test; the result is an integer
    in every case, 0 included, and no exception is involved. *)
Theorem bulk_operations_affect_exactly_the_group
    (env : BulkEnv) (group user : string) (w : World) :
  (forall j, in_group group user j = true
             <-> bulk_group_id j = Is group /\ user_id j = user /\ stopped j = false)
  /\ ((pause_bulk_jobs env group user w).1
      = Z.of_nat (length (filter (fun j => in_group group user j = true)
                            (background_jobs w)))
      /\ forall i : nat,
           background_jobs (pause_bulk_jobs env group user w).2 !! i
           = (fun j => if in_group group user j
                       then set_paused_at (Is (now_str_at env i)) (set_paused (Some true) j)
                       else j) <$> background_jobs w !! i)
  /\ ((resume_bulk_jobs env group user w).1
      = Z.of_nat (length (filter (fun j => in_group group user j = true)
                            (background_jobs w)))
      /\ forall i : nat,
           background_jobs (resume_bulk_jobs env group user w).2 !! i
           = (fun j => if in_group group user j
                       then set_next_run (time_now_at env i)
                              (set_resumed_at (Is (now_str_at env i))
                                 (set_paused (Some false) j))
                       else j) <$> background_jobs w !! i)
  /\ ((stop_bulk_jobs env group user w).1
      = Z.of_nat (length (filter (fun j => in_group group user j = true)
                            (background_jobs w)))
      /\ forall i : nat,
           background_jobs (stop_bulk_jobs env group user w).2 !! i
           = (fun j => if in_group group user j
                       then set_stopped_at (Some (now_str_at env i)) (set_stopped true j)
                       else j) <$> background_jobs w !! i)
  /\ 0 <= (pause_bulk_jobs env group user w).1
  /\ 0 <= (resume_bulk_jobs env group user w).1
  /\ 0 <= (stop_bulk_jobs env group user w).1.
Proof.
  split; [intros j; apply in_group_spec|].
  split; [apply bulk_apply_spec|].
  split; [apply bulk_apply_spec|].
  split; [apply bulk_apply_spec|].
  unfold pause_bulk_jobs, resume_bulk_jobs, stop_bulk_jobs, bulk_apply; simpl.
  repeat split; apply Nat2Z.is_nonneg.
Qed.

(** ** C7: resuming *)

(** The loop of [resume_job] rewrites the first job that has the id and the
    owner, and only that one. *)
Lemma resume_first_at now_str time_now job user (jobs : list Job) (i : nat) (j : Job) :
  jobs !! i = Some j ->
  job_id j = job -> user_id j = user ->
  (forall k j', (k < i)%nat -> jobs !! k = Some j' ->
                ~ (job_id j' = job /\ user_id j' = user)) ->
  resume_first now_str time_now job user jobs
  = Some (<[i := set_next_run time_now
                   (set_resumed_at (Is now_str) (set_paused (Some false) j))]> jobs).
Proof.
  revert i. induction jobs as [|j0 rest IH]; intros i Hi Hid Hu Hfirst; [done|].
  destruct i as [|i]; simpl in *.
  - inversion Hi; subst j0.
    assert (String.eqb (job_id j) job && String.eqb (user_id j) user = true) as ->
      by (rewrite andb_true_iff, !String.eqb_eq; done).
    reflexivity.
  - assert (String.eqb (job_id j0) job && String.eqb (user_id j0) user = false) as ->.
    { apply not_true_is_false. rewrite andb_true_iff, !String.eqb_eq.
      apply (Hfirst 0%nat j0); [lia|done]. }
    rewrite (IH i Hi Hid Hu); [done|].
    intros k j' Hk Hj'. apply (Hfirst (S k) j'); [lia|done].
Qed.

(** C7. For every job that is paused, not stopped and owned by the
    requester (and is the job the id denotes: no earlier job of that owner
    has the same id), [resume_job] succeeds and leaves at the job's position
    a job with [next_run] equal to the clock reading [time_now] of the call
    (so at most now), [paused = False] and [resumed_at] recorded, nothing
    else changed; the scheduler's test [now >= next_run] then holds in every
    later pass, whatever the frequency. *)
Theorem resume_makes_job_due
    (now_str : string) (time_now : Z) (w : World) (i : nat) (j : Job) :
  background_jobs w !! i = Some j ->
  paused j = Some true ->
  stopped j = false ->
  (forall k j', (k < i)%nat -> background_jobs w !! k = Some j' ->
                ~ (job_id j' = job_id j /\ user_id j' = user_id j)) ->
  (resume_job now_str time_now (job_id j) (user_id j) w).1 = true
  /\ exists j',
       background_jobs (resume_job now_str time_now (job_id j) (user_id j) w).2 !! i
       = Some j'
       /\ j' = set_next_run time_now
                 (set_resumed_at (Is now_str) (set_paused (Some false) j))
       /\ next_run j' <= time_now
       /\ paused j' = Some false
       /\ resumed_at j' = Is now_str
       /\ stopped j' = false
       /\ forall env : TickEnv, time_now <= now env -> (next_run j' <=? now env) = true.
Proof.
  intros Hi _ Hs Hfirst. unfold resume_job.
  rewrite (resume_first_at now_str time_now (job_id j) (user_id j) _ i j Hi eq_refl eq_refl Hfirst).
  simpl. split; [reflexivity|].
  eexists. split.
  - apply list_lookup_insert_eq. by eapply lookup_lt_Some.
  - simpl. repeat split; try done; try lia;
      intros env Hle; by apply Z.leb_le.
Qed.

Lemma resume_makes_job_due_witness :
  background_jobs (Sample.world [Sample.paused_job]) !! 0%nat = Some Sample.paused_job
  /\ (resume_job "2023-11-14 22:20:00" 1700000400 "j1" "alice"
        (Sample.world [Sample.paused_job])).1 = true.
Proof.
  split; [reflexivity|].
  apply (resume_makes_job_due "2023-11-14 22:20:00" 1700000400
           (Sample.world [Sample.paused_job]) 0%nat Sample.paused_job);
    [reflexivity|reflexivity|reflexivity|].
  intros k j' Hk. lia.
Defined.

(** ** C10: pairing the lists of the conversational builder *)

Lemma pick_nonempty (xs : list string) (i : nat) :
  xs <> [] -> pick xs i = Some (if (i <? length xs)%nat then nth i xs "" else hd "" xs).
Proof.
  intros Hne. unfold pick.
  destruct (i <? length xs)%nat eqn:Hlt.
  - apply Nat.ltb_lt in Hlt.
    destruct (nth_lookup_or_length xs i "") as [H|H]; [exact H|lia].
  - destruct xs; [done|reflexivity].
Qed.

(** C10. For all non-empty lists of urls, keys, links and service ids, the
    conversational creation builds exactly
    [min 10 (max (len api_urls) (len target_links) (len service_ids))] jobs
    (the number of keys plays no part), appends them to the repository and
    returns their number; the job at position [i] takes each field from
    position [i] of its list when the list is that long and from position 0
    otherwise, also for a shorter list of more than one element; so the
    creation does not fail on lists of different lengths. *)
Theorem telegram_creation_pairs_by_position
    (env : CreateEnv) (user : string) (d : JobData) (w : World) :
  api_urls d <> [] -> api_keys d <> [] -> target_links d <> [] -> service_ids d <> [] ->
  let n := Nat.min 10 (Nat.max (Nat.max (length (api_urls d)) (length (target_links d)))
                         (length (service_ids d))) in
  exists created : list Job,
    create_jobs_from_telegram env user d w
    = (Z.of_nat n, save_data (with_jobs (background_jobs w ++ created) w))
    /\ length created = n
    /\ (1 <= n)%nat
    /\ forall (i : nat) (job : Job), created !! i = Some job ->
         api_url job = (if (i <? length (api_urls d))%nat
                        then nth i (api_urls d) "" else hd "" (api_urls d))
         /\ api_key job = (if (i <? length (api_keys d))%nat
                           then nth i (api_keys d) "" else hd "" (api_keys d))
         /\ service_id job = (if (i <? length (service_ids d))%nat
                              then nth i (service_ids d) "" else hd "" (service_ids d))
         /\ link job = (if (i <? length (target_links d))%nat
                        then nth i (target_links d) "" else hd "" (target_links d))
         /\ user_id job = user /\ quantity job = jd_quantity d
         /\ frequency job = jd_frequency d /\ stopped job = false.
Proof.
  intros Hu Hk Hl Hs n.
  set (m := Nat.max (Nat.max (length (api_urls d)) (length (target_links d)))
              (length (service_ids d))).
  assert ((if (10 <? m)%nat then 10%nat else m) = n) as Hn.
  { subst n. fold m. destruct (10 <? m)%nat eqn:E.
    - apply Nat.ltb_lt in E. lia.
    - apply Nat.ltb_ge in E. lia. }
  unfold create_jobs_from_telegram. fold m. rewrite Hn.
  destruct (mapM (telegram_job env user d) (seq 0 n)) as [created|] eqn:Hm.
  - apply mapM_Some in Hm.
    pose proof (Forall2_length _ _ _ Hm) as Hlen. rewrite length_seq in Hlen.
    exists created. rewrite <- Hlen. split; [reflexivity|]. split; [reflexivity|].
    split.
    { assert (length (api_urls d) <> 0%nat) by (by destruct (api_urls d)).
      subst n m. lia. }
    intros i job Hi.
    destruct (Forall2_lookup_r _ _ _ _ _ Hm Hi) as (k & Hk' & Hjob).
    apply lookup_seq in Hk' as [-> _]. simpl in Hjob.
    unfold telegram_job in Hjob.
    rewrite !pick_nonempty in Hjob by done. simpl in Hjob.
    inversion Hjob; subst job; simpl. repeat split.
  - exfalso. apply mapM_None in Hm.
    apply Exists_exists in Hm as (i & _ & Hi).
    unfold telegram_job in Hi. rewrite !pick_nonempty in Hi by done.
    simpl in Hi. discriminate.
Qed.

Lemma telegram_creation_pairs_by_position_witness :
  (create_jobs_from_telegram Sample.create_env "alice" Sample.two_links (Sample.world [])).1
  = 2.
Proof.
  assert (api_urls Sample.two_links <> []) as Hu by (vm_compute; discriminate).
  assert (api_keys Sample.two_links <> []) as Hk by (vm_compute; discriminate).
  assert (target_links Sample.two_links <> []) as Hl by (vm_compute; discriminate).
  assert (service_ids Sample.two_links <> []) as Hs by (vm_compute; discriminate).
  destruct (telegram_creation_pairs_by_position Sample.create_env "alice" Sample.two_links
              (Sample.world []) Hu Hk Hl Hs) as (created & Heq & _).
  rewrite Heq. reflexivity.
Defined.

(** ** C8: the bulk group id of created jobs *)

(** C8 (the code at the failing input). The creation form in bulk mode
    with two links builds two jobs, neither of which has the key
    [bulk_group_id]: the group id computed at the top of the bulk branch is
    used by the individual-settings branch only. The conversational builder
    given two links builds two jobs without the key as well. The
    individual-settings branch attaches the id to every job it builds, also
    when it builds a single one. The claim says that jobs created together
    share a group id and that a single job has none. *)
Theorem bulk_creation_without_group_id :
  (exists j1 j2,
     (setup_automation Sample.create_env "alice" Sample.bulk_form (Sample.world [])).1
     = Some [j1; j2]
     /\ bulk_group_id j1 = NoKey /\ bulk_group_id j2 = NoKey)
  /\ (exists j1 j2,
        background_jobs
          (create_jobs_from_telegram Sample.create_env "alice" Sample.two_links
             (Sample.world [])).2 = [j1; j2]
        /\ bulk_group_id j1 = NoKey /\ bulk_group_id j2 = NoKey)
  /\ (exists j,
        (setup_automation Sample.create_env "alice" Sample.individual_form
           (Sample.world [])).1 = Some [j]
        /\ bulk_group_id j = Is "bulk_a").
Proof.
  split; [|split].
  - do 2 eexists. split; [vm_compute; reflexivity|]. split; reflexivity.
  - do 2 eexists. split; [vm_compute; reflexivity|]. split; reflexivity.
  - eexists. split; [vm_compute; reflexivity|]. reflexivity.
Qed.

(** ** C9: saving and loading *)

Lemma write_phase_other (es : list (string * Document)) (m : gmap string Document) k :
  k ∉ es.*1 -> foldl write_temp m es !! k = m !! k.
Proof.
  revert m. induction es as [|e es IH]; intros m Hk; [done|].
  simpl in *. apply not_elem_of_cons in Hk as [Hne Hk].
  rewrite IH by done. unfold write_temp. by rewrite lookup_insert_ne.
Qed.

(** After the first loop every temporary file holds its collection. *)
Lemma write_phase (es : list (string * Document)) (m : gmap string Document) e :
  NoDup es.*1 -> e ∈ es -> foldl write_temp m es !! e.1 = Some e.2.
Proof.
  revert m. induction es as [|e0 es IH]; intros m Hnd He; [by apply elem_of_nil in He|].
  simpl in *. apply NoDup_cons in Hnd as [Hnotin Hnd].
  apply elem_of_cons in He as [->|He].
  - rewrite write_phase_other by done. unfold write_temp. by rewrite lookup_insert_eq.
  - by apply IH.
Qed.

Lemma move_phase_other td (es : list (string * Document)) (m : gmap string Document) k :
  k ∉ es.*1 -> k ∉ (final_file td <$> es.*1) ->
  foldl (move_temp td) m es !! k = m !! k.
Proof.
  revert m. induction es as [|e es IH]; intros m Hk Hf; [done|].
  simpl in *. apply not_elem_of_cons in Hk as [Hne Hk].
  apply not_elem_of_cons in Hf as [Hnf Hf].
  rewrite IH by done. unfold move_temp.
  destruct (m !! e.1); [|done].
  by rewrite lookup_insert_ne, !lookup_delete_ne.
Qed.

(** After the second loop every final file holds what its temporary file
    held, provided the temporary and final names are pairwise different. *)
Lemma move_phase td (es : list (string * Document)) (m : gmap string Document) e :
  NoDup (es.*1 ++ (final_file td <$> es.*1)) ->
  (forall e', e' ∈ es -> m !! e'.1 = Some e'.2) ->
  e ∈ es ->
  foldl (move_temp td) m es !! final_file td e.1 = Some e.2.
Proof.
  revert m. induction es as [|e0 es IH]; intros m Hnd Hm He; [by apply elem_of_nil in He|].
  simpl in Hnd. apply NoDup_cons in Hnd as [Hnotin Hnd].
  apply NoDup_app in Hnd as (Hnd1 & Hdisj & Hnd2).
  apply NoDup_cons in Hnd2 as [Hf0 Hnd2].
  rewrite not_elem_of_app, not_elem_of_cons in Hnotin.
  destruct Hnotin as (Ht0 & Ht0f & Ht0fs).
  simpl. apply elem_of_cons in He as [->|He].
  - rewrite move_phase_other.
    + unfold move_temp. rewrite (Hm e0) by left. by rewrite lookup_insert_eq.
    + intros Hin. apply (Hdisj _ Hin). left.
    + done.
  - apply IH; [| |done].
    + apply NoDup_app. split_and!; [done| |done].
      intros x Hx Hxf. apply (Hdisj x Hx). by right.
    + intros e' He'. unfold move_temp. rewrite (Hm e0) by left.
      assert (e'.1 ∈ es.*1) as Hin by (by apply list_elem_of_fmap_2).
      rewrite lookup_insert_ne, !lookup_delete_ne.
      * apply Hm. by right.
      * intros Heq. apply (Hdisj _ Hin). rewrite <- Heq. left.
      * intros Heq. apply Ht0. by rewrite Heq.
      * intros Heq. apply (Hdisj _ Hin). rewrite <- Heq. left.
Qed.

Lemma saved_file td (w : World) (m : gmap string Document) e :
  td = "data/temp" \/ td = "data" ->
  e ∈ data_files td w ->
  foldl (move_temp td) (foldl write_temp m (data_files td w)) (data_files td w)
    !! final_file td e.1 = Some e.2.
Proof.
  intros Htd He.
  assert (NoDup ((data_files td w).*1 ++ (final_file td <$> (data_files td w).*1))) as Hnd.
  { change ((data_files td w).*1)
      with [td +:+ "/user_data.json.tmp"; td +:+ "/activation_keys.json.tmp";
            td +:+ "/active_users.json.tmp"; td +:+ "/bot_statistics.json.tmp";
            td +:+ "/background_jobs.json.tmp";
            td +:+ "/telegram_verification_codes.json.tmp"].
    destruct Htd as [-> | ->]; apply (bool_decide_unpack _); vm_compute; reflexivity. }
  apply move_phase; [done| |done].
  intros e' He'. apply write_phase; [|done].
  by apply NoDup_app in Hnd as (? & _).
Qed.

(** The name under which each temporary file ends up. *)
Lemma final_file_names :
  final_file "data/temp" "data/temp/background_jobs.json.tmp" = "data/background_jobs.json"
  /\ final_file "data" "data/background_jobs.json.tmp" = "data/background_jobs.json"
  /\ final_file "data/temp" "data/temp/user_data.json.tmp" = "data/user_data.json"
  /\ final_file "data" "data/user_data.json.tmp" = "data/user_data.json"
  /\ final_file "data/temp" "data/temp/bot_statistics.json.tmp" = "data/bot_statistics.json"
  /\ final_file "data" "data/bot_statistics.json.tmp" = "data/bot_statistics.json".
Proof. repeat split; vm_compute; reflexivity. Qed.

(** C9. For every in-memory state [w], the files [save_data] leaves behind,
    read by [load_data] into any process state [w0] (a restarted process,
    say), reproduce the job collection of [w]: the same list, in the same
    order, with every field of every job; the users map and the counters map
    come back as well. File operations are taken to succeed, and every state
    of this model serialises. *)
Theorem save_then_load_restores_jobs (w w0 : World) :
  background_jobs (load_data (with_fs (fs (save_data w)) w0)) = background_jobs w
  /\ user_data (load_data (with_fs (fs (save_data w)) w0)) = user_data w
  /\ bot_statistics (load_data (with_fs (fs (save_data w)) w0)) = bot_statistics w.
Proof.
  unfold load_data, save_data.
  cbn [background_jobs user_data bot_statistics with_fs fs files].
  set (td := if temp_dir_usable (fs w) then "data/temp" else "data").
  assert (td = "data/temp" \/ td = "data") as Htd
    by (subst td; destruct (temp_dir_usable (fs w)); auto).
  pose proof (saved_file td w (files (fs w))
                (td +:+ "/background_jobs.json.tmp", DocJobs (background_jobs w)) Htd) as Hj.
  pose proof (saved_file td w (files (fs w))
                (td +:+ "/user_data.json.tmp", DocUsers (user_data w)) Htd) as Hu.
  pose proof (saved_file td w (files (fs w))
                (td +:+ "/bot_statistics.json.tmp", DocStatistics (bot_statistics w)) Htd)
    as Hs.
  cbn [fst snd] in Hj, Hu, Hs.
  assert (final_file td (td +:+ "/background_jobs.json.tmp") = "data/background_jobs.json"
          /\ final_file td (td +:+ "/user_data.json.tmp") = "data/user_data.json"
          /\ final_file td (td +:+ "/bot_statistics.json.tmp") = "data/bot_statistics.json")
    as (Hfj & Hfu & Hfs)
    by (destruct Htd as [E | E]; rewrite E; repeat split; vm_compute; reflexivity).
  rewrite Hfj in Hj. rewrite Hfu in Hu. rewrite Hfs in Hs.
  rewrite Hj, Hu, Hs; [done| | |]; unfold data_files.
  - do 3 apply list_elem_of_further; apply list_elem_of_here.
  - apply list_elem_of_here.
  - do 4 apply list_elem_of_further; apply list_elem_of_here.
Qed.

(** ** C2: what stops a job *)

(** The [try] block writes [quantity], [next_run] and [orders] only. *)
Lemma process_job_keeps_flags env i job (w : World) :
  stopped (process_job env i job w).1.1 = stopped job
  /\ error_count (process_job env i job w).1.1 = error_count job
  /\ stopped_reason (process_job env i job w).1.1 = stopped_reason job.
Proof.
  unfold process_job.
  destruct (stopped job) eqn:Hs; [done|].
  destruct (if 0 <? next_run job then _ else _); [|done].
  destruct (next_run job <=? now env); [|done].
  destruct (user_data w !! user_id job) as [u|]; [|done].
  destruct (place_order _ _ _ _ _ _ _ _ w) as [[new_order timestamp] w1].
  destruct (calculate_next_quantity _ _ _); [|done].
  destruct (fromtimestamp env _); done.
Qed.

(** A stopped job raises nothing. *)
Lemma process_job_raises_not_stopped env i job (w : World) e :
  (process_job env i job w).2 = Some e -> stopped job = false.
Proof.
  intros H. destruct (stopped job) eqn:Hs; [|done].
  by rewrite (process_job_stopped _ _ _ _ Hs) in H.
Qed.

(** The [except] block counts the exception and stops the job when the
    count has passed 5. *)
Lemma handle_job_error_spec (e : Py.exc) (job : Job) :
  error_count (handle_job_error e job) = Some (default 0 (error_count job) + 1)
  /\ stopped (handle_job_error e job)
     = (stopped job || (5 <? default 0 (error_count job) + 1))
  /\ (5 < default 0 (error_count job) + 1 ->
      stopped_reason (handle_job_error e job) = Some ("Too many errors: " +:+ Py.str e))
  /\ (default 0 (error_count job) + 1 <= 5 ->
      stopped_reason (handle_job_error e job) = stopped_reason job).
Proof.
  unfold handle_job_error. simpl.
  assert (match error_count job with Some n => n + 1 | None => 1 end
          = default 0 (error_count job) + 1) as -> by (by destruct (error_count job)).
  destruct (5 <? default 0 (error_count job) + 1) eqn:E; simpl.
  - apply Z.ltb_lt in E. rewrite orb_true_r. repeat split; try done; lia.
  - apply Z.ltb_ge in E. rewrite orb_false_r. repeat split; try done; lia.
Qed.

Lemma foldl_process_at_other env (positions : list nat) (w : World) i :
  i ∉ positions ->
  background_jobs (foldl (process_at env) w positions) !! i = background_jobs w !! i.
Proof.
  revert w. induction positions as [|k positions IH]; intros w Hi; [done|].
  apply not_elem_of_cons in Hi as [Hne Hi]. simpl.
  rewrite IH by done. by apply process_at_other.
Qed.

Lemma world_before_lookup env (w : World) i :
  background_jobs (world_before env w i) !! i = background_jobs w !! i.
Proof.
  apply foldl_process_at_other. intros Hin. apply elem_of_seq in Hin. lia.
Qed.

Lemma foldl_process_at_length env (positions : list nat) (w : World) :
  length (background_jobs (foldl (process_at env) w positions)) = length (background_jobs w).
Proof.
  revert w. induction positions as [|k positions IH]; intros w; [done|].
  simpl. by rewrite IH, process_at_length.
Qed.

(** What a pass leaves at position [i]: the job as its own turn leaves it. *)
Lemma tick_position env (w : World) i job :
  background_jobs w !! i = Some job ->
  background_jobs (scheduler_tick env w) !! i
  = Some (let '(job1, _, raised) := process_job env i job (world_before env w i) in
          match raised with
          | Some e => handle_job_error e job1
          | None => job1
          end).
Proof.
  intros Hi. unfold scheduler_tick. rewrite save_data_jobs.
  pose proof (lookup_lt_Some _ _ _ Hi) as Hlt.
  replace (length (background_jobs w)) with (i + (1 + (length (background_jobs w) - i - 1)))%nat
    by lia.
  rewrite !seq_app, !foldl_app. simpl. fold (world_before env w i).
  rewrite foldl_process_at_other by (intros Hin; apply elem_of_seq in Hin; lia).
  unfold process_at at 1. rewrite world_before_lookup, Hi.
  pose proof (process_job_jobs env i job (world_before env w i)) as Hj.
  destruct (process_job env i job (world_before env w i)) as [[job1 w1] raised].
  simpl in *. apply list_lookup_insert_eq.
  rewrite Hj. unfold world_before. by rewrite foldl_process_at_length.
Qed.

Lemma tick_raising env (w : World) i job e :
  background_jobs w !! i = Some job ->
  raised_at env w i = Some e ->
  exists job',
    background_jobs (scheduler_tick env w) !! i = Some job'
    /\ error_count job' = Some (default 0 (error_count job) + 1)
    /\ stopped job' = (5 <? default 0 (error_count job) + 1)
    /\ (5 < default 0 (error_count job) + 1 ->
        stopped_reason job' = Some ("Too many errors: " +:+ Py.str e)).
Proof.
  intros Hi Hr. unfold raised_at in Hr. rewrite world_before_lookup, Hi in Hr.
  rewrite (tick_position env w i job Hi).
  pose proof (process_job_keeps_flags env i job (world_before env w i)) as (Hs & Hc & _).
  pose proof (process_job_raises_not_stopped _ _ _ _ _ Hr) as Hns.
  destruct (process_job env i job (world_before env w i)) as [[job1 w1] raised].
  simpl in *. subst raised. eexists. split; [reflexivity|].
  destruct (handle_job_error_spec e job1) as (H1 & H2 & H3 & _).
  rewrite Hc in H1, H2, H3. rewrite Hs, Hns in H2. done.
Qed.

Lemma tick_not_raising env (w : World) i job :
  background_jobs w !! i = Some job ->
  raised_at env w i = None ->
  exists job',
    background_jobs (scheduler_tick env w) !! i = Some job'
    /\ error_count job' = error_count job
    /\ stopped job' = stopped job
    /\ stopped_reason job' = stopped_reason job.
Proof.
  intros Hi Hr. unfold raised_at in Hr. rewrite world_before_lookup, Hi in Hr.
  rewrite (tick_position env w i job Hi).
  pose proof (process_job_keeps_flags env i job (world_before env w i)) as (Hs & Hc & Hsr).
  destruct (process_job env i job (world_before env w i)) as [[job1 w1] raised].
  simpl in *. subst raised. by eexists.
Qed.

Lemma process_automation_jobs_snoc (envs : list TickEnv) env (w : World) :
  process_automation_jobs (envs ++ [env]) w
  = scheduler_tick env (process_automation_jobs envs w).
Proof. unfold process_automation_jobs. by rewrite foldl_app. Qed.

(** While every pass raises for the job, its error count is the number of
    passes and it is stopped from the sixth on. *)
Lemma raising_passes (envs : list TickEnv) (w : World) i job :
  background_jobs w !! i = Some job ->
  error_count job = None ->
  (forall k env, envs !! k = Some env ->
     raised_at env (process_automation_jobs (take k envs) w) i <> None) ->
  forall k, (0 < k <= length envs)%nat ->
    exists job_k e,
      background_jobs (process_automation_jobs (take k envs) w) !! i = Some job_k
      /\ error_count job_k = Some (Z.of_nat k)
      /\ stopped job_k = (5 <? Z.of_nat k)
      /\ (5 < Z.of_nat k ->
          stopped_reason job_k = Some ("Too many errors: " +:+ Py.str e)).
Proof.
  intros Hi Hc Hraise k. induction k as [|k IH]; intros Hk; [lia|].
  destruct (lookup_lt_is_Some_2 envs k) as [env Henv]; [lia|].
  rewrite (take_S_r _ _ _ Henv), process_automation_jobs_snoc.
  specialize (Hraise k env Henv).
  destruct (raised_at env (process_automation_jobs (take k envs) w) i) as [e|] eqn:Hr;
    [clear Hraise|done].
  destruct k as [|k].
  - simpl in *.
    destruct (tick_raising env w i job e Hi Hr) as (job' & H1 & H2 & H3 & H4).
    rewrite Hc in H2, H3, H4. simpl in *. exists job', e. done.
  - destruct IH as (job_k & e_k & H1 & H2 & H3 & H4); [lia|].
    destruct (tick_raising env _ i job_k e H1 Hr) as (job' & G1 & G2 & G3 & G4).
    rewrite H2 in G2, G3, G4. simpl in *.
    replace (Z.of_nat (S k) + 1) with (Z.of_nat (S (S k))) in * by lia.
    exists job', e. done.
Qed.

(** C2 (as amended). First part: for every job that is not stopped and has
    no error count, if an exception is raised while the scheduler processes
    the job in each of six passes, then the job is not stopped after fewer
    than six of them, and after the sixth it has [stopped = true], an error
    count of 6 and a recorded reason; in the following pass the job's turn
    changes nothing (no request is sent in it) and the job stays as it was.
    Second part: a pass sets [stopped = true] on a job only when the job's
    processing raised in that pass and its error count, which is never
    reset, went above the threshold of 5. A refused or failed order is not
    an exception: [place_order] returns the error reply. *)
Theorem scheduler_stops_only_after_six_exceptions :
  (forall (envs : list TickEnv) (w : World) (i : nat) (job : Job),
     background_jobs w !! i = Some job ->
     stopped job = false ->
     error_count job = None ->
     length envs = 6%nat ->
     (forall k env, envs !! k = Some env ->
        raised_at env (process_automation_jobs (take k envs) w) i <> None) ->
     (forall k, (k < 6)%nat ->
        exists job_k,
          background_jobs (process_automation_jobs (take k envs) w) !! i = Some job_k
          /\ stopped job_k = false)
     /\ exists job6 e,
          background_jobs (process_automation_jobs envs w) !! i = Some job6
          /\ stopped job6 = true
          /\ error_count job6 = Some 6
          /\ stopped_reason job6 = Some ("Too many errors: " +:+ Py.str e)
          /\ forall env7 : TickEnv,
               process_at env7 (world_before env7 (process_automation_jobs envs w) i) i
               = world_before env7 (process_automation_jobs envs w) i
               /\ raised_at env7 (process_automation_jobs envs w) i = None
               /\ background_jobs (scheduler_tick env7 (process_automation_jobs envs w)) !! i
                  = Some job6)
  /\ (forall (env : TickEnv) (w : World) (i : nat) (job job' : Job),
        background_jobs w !! i = Some job ->
        background_jobs (scheduler_tick env w) !! i = Some job' ->
        stopped job = false ->
        stopped job' = true ->
        exists e n,
          raised_at env w i = Some e
          /\ error_count job' = Some n /\ 5 < n
          /\ n = default 0 (error_count job) + 1
          /\ stopped_reason job' = Some ("Too many errors: " +:+ Py.str e)).
Proof.
  split.
  - intros envs w i job Hi Hs Hc Hlen Hraise.
    pose proof (raising_passes envs w i job Hi Hc Hraise) as Hpass.
    split.
    + intros k Hk. destruct k as [|k].
      * exists job. done.
      * destruct (Hpass (S k)) as (job_k & e & H1 & H2 & H3 & _); [lia|].
        exists job_k. split; [done|]. rewrite H3. apply Z.ltb_ge. lia.
    + destruct (Hpass 6%nat) as (job6 & e & H1 & H2 & H3 & H4); [lia|].
      rewrite firstn_all2 in H1 by lia.
      exists job6, e. split; [done|]. split; [by rewrite H3|].
      split; [done|]. split; [by apply H4|].
      assert (stopped job6 = true) as Hs6 by (by rewrite H3).
      intros env7.
      assert (background_jobs (world_before env7 (process_automation_jobs envs w) i) !! i
              = Some job6) as Hb by (by rewrite world_before_lookup).
      split; [by apply (process_at_stopped _ _ _ job6)|].
      split.
      * unfold raised_at. rewrite Hb. by rewrite (process_job_stopped _ _ _ _ Hs6).
      * by apply tick_keeps_stopped.
  - intros env w i job job' Hi Hi' Hs Hs'.
    destruct (raised_at env w i) as [e|] eqn:Hr.
    + destruct (tick_raising env w i job e Hi Hr) as (j & H1 & H2 & H3 & H4).
      rewrite Hi' in H1. inversion H1; subst j.
      rewrite Hs' in H3. symmetry in H3. apply Z.ltb_lt in H3.
      exists e, (default 0 (error_count job) + 1). split_and!; try done. by apply H4.
    + destruct (tick_not_raising env w i job Hi Hr) as (j & H1 & _ & H3 & _).
      rewrite Hi' in H1. inversion H1; subst j. congruence.
Qed.

Lemma scheduler_stops_only_after_six_exceptions_witness :
  background_jobs (Sample.world [Sample.runaway_job]) !! 0%nat = Some Sample.runaway_job
  /\ stopped Sample.runaway_job = false
  /\ error_count Sample.runaway_job = None
  /\ exists job6,
       background_jobs
         (process_automation_jobs Sample.six_passes (Sample.world [Sample.runaway_job]))
         !! 0%nat = Some job6
       /\ stopped job6 = true
       /\ error_count job6 = Some 6.
Proof.
  split; [reflexivity|]. split; [reflexivity|]. split; [reflexivity|].
  destruct scheduler_stops_only_after_six_exceptions as [Hstop _].
  destruct (Hstop Sample.six_passes (Sample.world [Sample.runaway_job]) 0%nat
              Sample.runaway_job)
    as (_ & job6 & e & H1 & H2 & H3 & _);
    [reflexivity|reflexivity|reflexivity|reflexivity| |].
  - intros k env Hk.
    destruct k as [|[|[|[|[|[|k]]]]]]; simpl in Hk; inversion Hk; subst env;
      vm_compute; discriminate.
  - exists job6. split; [exact H1|]. split; [exact H2|exact H3].
Defined.

(** C2 (counterexample to the claim as stated). The order of a job is
    refused by the panel in six consecutive passes, each of which fires the
    job. After the sixth the history holds the six refusals, the failure
    counter stands at 6, and the job is not stopped: it has no error count
    and no reason, and the seventh pass sends its order again. *)
Lemma six_failed_dispatches_leave_job_running :
  exists job',
    background_jobs Sample.after_six_refusals = [job']
    /\ o_response <$> orders job' = replicate 6 Sample.refused
    /\ failed_orders (bot_statistics Sample.after_six_refusals) = 6
    /\ length (panel_log Sample.after_six_refusals) = 6%nat
    /\ stopped job' = false
    /\ stopped_reason job' = None
    /\ error_count job' = None
    /\ length (panel_log (scheduler_tick (Sample.pass 1700001900 Sample.refused)
                            Sample.after_six_refusals)) = 7%nat.
Proof.
  eexists. split; [vm_compute; reflexivity|].
  repeat split; vm_compute; reflexivity.
Qed.

(* ===================================================================== *)
(** * Further properties                                                  *)
(* ===================================================================== *)

(** ** Binary64 arithmetic: how far rounding can go up *)

Module Float.


Lemma digits2_pos_size p : digits2_pos p = Pos.size p.
Proof. induction p; simpl; congruence. Qed.

Lemma Zdigits2_bounds m : 0 < m -> 2 ^ (Zdigits2 m - 1) <= m < 2 ^ Zdigits2 m.
Proof.
  destruct m as [|p|p]; try lia. intros _. unfold Zdigits2. rewrite digits2_pos_size.
  pose proof (Pos.size_gt p) as Hgt. pose proof (Pos.size_le p) as Hle.
  apply Pos2Z.pos_lt_pos in Hgt. apply Pos2Z.pos_le_pos in Hle.
  rewrite Pos2Z.inj_pow in Hgt, Hle.
  replace (Z.pos (Pos.size p)) with (Z.succ (Z.pos (Pos.size p) - 1)) in Hle at 1 by lia.
  rewrite Z.pow_succ_r in Hle by lia.
  change (Z.pos p~0) with (2 * Z.pos p) in Hle. lia.
Qed.

Lemma Zdigits2_nonneg m : 0 <= Zdigits2 m.
Proof. destruct m; simpl; lia. Qed.

(** m < 2^k  ->  digits m <= k *)
Lemma Zdigits2_le m k : 0 <= m -> 0 <= k -> m < 2 ^ k -> Zdigits2 m <= k.
Proof.
  intros Hm Hk Hlt. destruct (Z.eq_dec m 0) as [->|Hne]; [simpl; lia|].
  destruct (Zdigits2_bounds m) as [Hlo _]; [lia|].
  destruct (Z_lt_le_dec k (Zdigits2 m)) as [Hgt|]; [|lia].
  exfalso. assert (2 ^ k <= 2 ^ (Zdigits2 m - 1)) by (apply Z.pow_le_mono_r; lia). lia.
Qed.

(** 2^k <= m -> k < digits m *)
Lemma Zdigits2_gt m k : 0 <= k -> 2 ^ k <= m -> k < Zdigits2 m.
Proof.
  intros Hk Hle.
  assert (0 < m) by (pose proof (Z.pow_pos_nonneg 2 k); lia).
  destruct (Zdigits2_bounds m) as [_ Hhi]; [lia|].
  destruct (Z_lt_le_dec k (Zdigits2 m)) as [|Hge]; [lia|].
  exfalso. assert (2 ^ Zdigits2 m <= 2 ^ k) by (apply Z.pow_le_mono_r; lia). lia.
Qed.

Lemma iter_pos_nat {A : Type} (f : A -> A) (p : positive) (x : A) :
  SpecFloat.iter_pos f p x = Nat.iter (Pos.to_nat p) f x.
Proof.
  revert x. induction p as [p IH|p IH|]; intros x; cbn [SpecFloat.iter_pos].
  - rewrite !IH, Pos2Nat.inj_xI.
    replace (S (2 * Pos.to_nat p)) with (Pos.to_nat p + S (Pos.to_nat p))%nat by lia.
    rewrite Nat.iter_add, Nat.iter_succ_r. reflexivity.
  - rewrite !IH, Pos2Nat.inj_xO.
    replace (2 * Pos.to_nat p)%nat with (Pos.to_nat p + Pos.to_nat p)%nat by lia.
    rewrite Nat.iter_add. reflexivity.
  - reflexivity.
Qed.

Lemma shr_1_spec m r s :
  0 <= m ->
  shr_1 (Build_shr_record m r s) = Build_shr_record (m / 2) (Z.odd m) (r || s).
Proof.
  intros Hm. rewrite <- Z.div2_div.
  destruct m as [|[p|p|]|]; try reflexivity. lia.
Qed.

Lemma shr_iter (k : nat) m r s :
  0 <= m ->
  shr_m (Nat.iter (S k) shr_1 (Build_shr_record m r s)) = m / 2 ^ (Z.of_nat (S k))
  /\ shr_r (Nat.iter (S k) shr_1 (Build_shr_record m r s)) = Z.odd (m / 2 ^ Z.of_nat k).
Proof.
  intros Hm. induction k as [|k [IHm IHr]].
  - unfold Nat.iter; cbn [nat_rect]. rewrite shr_1_spec by lia. cbn [shr_m shr_r].
    change (2 ^ Z.of_nat 1) with 2. change (2 ^ Z.of_nat 0) with 1.
    rewrite Z.div_1_r. split; reflexivity.
  - change (Nat.iter (S (S k)) shr_1 (Build_shr_record m r s))
      with (shr_1 (Nat.iter (S k) shr_1 (Build_shr_record m r s))).
    destruct (Nat.iter (S k) shr_1 (Build_shr_record m r s)) as [m' r' s'].
    cbn [shr_m shr_r] in IHm, IHr. subst m'.
    assert (0 < 2 ^ Z.of_nat (S k)) by (apply Z.pow_pos_nonneg; lia).
    rewrite shr_1_spec by (apply Z.div_pos; lia).
    cbn [shr_m shr_r].
    split; [|reflexivity].
    rewrite Z.div_div by lia.
    f_equal. rewrite (Nat2Z.inj_succ (S k)), Z.pow_succ_r by lia. lia.
Qed.

(** Shifting right by [n >= 1] and rounding up at most loses or gains half
    of the last place. *)
Lemma shift_round_bound m n :
  0 <= m -> 1 <= n ->
  (m / 2 ^ n + (if Z.odd (m / 2 ^ (n - 1)) then 1 else 0)) * 2 ^ n <= m + 2 ^ (n - 1).
Proof.
  intros Hm Hn.
  assert (0 < 2 ^ (n - 1)) as Hp by (apply Z.pow_pos_nonneg; lia).
  assert (2 ^ n = 2 * 2 ^ (n - 1)) as Hn2.
  { replace n with (Z.succ (n - 1)) at 1 by lia. apply Z.pow_succ_r. lia. }
  set (a := m / 2 ^ (n - 1)).
  assert (m / 2 ^ n = a / 2) as Hdiv.
  { rewrite Hn2, Z.mul_comm, <- Z.div_div by lia. reflexivity. }
  assert (a * 2 ^ (n - 1) <= m) as Ha.
  { subst a. rewrite Z.mul_comm. apply Z.mul_div_le. lia. }
  rewrite Hdiv, Hn2.
  pose proof (Zdiv2_odd_eqn a) as Hodd. rewrite Z.div2_div in Hodd.
  destruct (Z.odd a); nia.
Qed.

Lemma round_nearest_even_bound m r s :
  round_nearest_even m (loc_of_shr_record (Build_shr_record m r s))
  <= m + (if r then 1 else 0)
  /\ m <= round_nearest_even m (loc_of_shr_record (Build_shr_record m r s)).
Proof.
  destruct r, s; simpl; try lia. destruct (Z.even m); lia.
Qed.

Lemma round_nearest_even_loc m l :
  m <= round_nearest_even m l <= m + rounds_up l.
Proof.
  destruct l as [|[| |]]; simpl; try lia. destruct (Z.even m); lia.
Qed.

Lemma loc_of_shr_record_of_loc m l : loc_of_shr_record (shr_record_of_loc m l) = l.
Proof. destruct l as [|[| |]]; reflexivity. Qed.

Lemma shr_m_of_loc m l : shr_m (shr_record_of_loc m l) = m.
Proof. destruct l as [|[| |]]; reflexivity. Qed.

(** What [shr_fexp] followed by rounding to nearest yields, as integers:
    the result mantissa [m1] at exponent [e1 = e + max 0 n]. *)
Lemma shr_fexp_round m e l :
  0 <= m ->
  let n := fexp Py.prec Py.emax (Zdigits2 m + e) - e in
  let mrs := fst (shr_fexp Py.prec Py.emax m e l) in
  let e1 := snd (shr_fexp Py.prec Py.emax m e l) in
  let m1 := round_nearest_even (shr_m mrs) (loc_of_shr_record mrs) in
  e1 = e + Z.max 0 n
  /\ 0 <= m1
  /\ m1 * 2 ^ (e1 - e) <= m + (if 0 <? n then 2 ^ (n - 1) else rounds_up l)
  /\ (m / 2 ^ (e1 - e) <= m1).
Proof.
  intros Hm n mrs e1 m1. subst mrs e1 m1. unfold shr_fexp. fold n. unfold shr.
  destruct n as [|p|p] eqn:Hn.
  - cbn [fst snd]. rewrite loc_of_shr_record_of_loc, shr_m_of_loc.
    rewrite Z.sub_diag, Z.pow_0_r, Z.div_1_r. change (0 <? 0) with false. cbv iota.
    pose proof (round_nearest_even_loc m l). lia.
  - cbn [fst snd]. rewrite iter_pos_nat.
    destruct (Pos2Nat.is_succ p) as [k Hk]. rewrite Hk.
    assert (Z.pos p = Z.of_nat (S k)) as HpZ by (rewrite <- Hk; symmetry; apply positive_nat_Z).
    assert (Z.of_nat k = Z.pos p - 1) as HkZ by lia.
    replace (e + Z.pos p - e) with (Z.pos p) by lia.
    change (0 <? Z.pos p) with true. cbv iota.
    assert (0 < 2 ^ Z.pos p) as Hpow by (apply Z.pow_pos_nonneg; lia).
    assert (0 <= m / 2 ^ Z.pos p) as Hdiv by (apply Z.div_pos; lia).
    pose proof (shift_round_bound m (Z.pos p) Hm ltac:(lia)) as Hsh.
    assert (forall r s,
              let mrs := Nat.iter (S k) shr_1 (Build_shr_record m r s) in
              let m1 := round_nearest_even (shr_m mrs) (loc_of_shr_record mrs) in
              m / 2 ^ Z.pos p <= m1
              /\ m1 * 2 ^ Z.pos p <= m + 2 ^ (Z.pos p - 1)) as Hgen.
    { intros r s. destruct (shr_iter k m r s Hm) as [Hsm Hsr].
      destruct (Nat.iter (S k) shr_1 (Build_shr_record m r s)) as [m' r' s'].
      cbn [shr_m shr_r] in Hsm, Hsr. rewrite <- HpZ in Hsm. rewrite HkZ in Hsr.
      subst m' r'. intros mrs m1. subst mrs m1. cbn [shr_m].
      match goal with |- context [loc_of_shr_record (Build_shr_record ?a ?b ?c)] =>
        pose proof (round_nearest_even_bound a b c) as [Hub Hlb] end.
      split; [lia|].
      eapply Z.le_trans; [|exact Hsh].
      apply Z.mul_le_mono_nonneg_r; lia. }
    destruct l as [|c]; [|destruct c]; cbn [shr_record_of_loc];
      match goal with |- context [Nat.iter (S k) shr_1 (Build_shr_record m ?r ?s)] =>
        destruct (Hgen r s) as [G1 G2] end;
      (split; [lia|]); (split; [lia|]); (split; [exact G2|exact G1]).
  - cbn [fst snd]. rewrite loc_of_shr_record_of_loc, shr_m_of_loc.
    rewrite Z.sub_diag, Z.pow_0_r, Z.div_1_r. change (0 <? Z.neg p) with false. cbv iota.
    pose proof (round_nearest_even_loc m l). lia.
Qed.

(** [shr_fexp] with an exact location divides the mantissa. *)
Lemma shr_fexp_m m e l :
  0 <= m ->
  let n := fexp Py.prec Py.emax (Zdigits2 m + e) - e in
  snd (shr_fexp Py.prec Py.emax m e l) = e + Z.max 0 n
  /\ shr_m (fst (shr_fexp Py.prec Py.emax m e l)) = m / 2 ^ (Z.max 0 n).
Proof.
  intros Hm n. unfold shr_fexp. fold n. unfold shr.
  destruct n as [|p|p] eqn:Hn.
  - cbn [fst snd]. rewrite shr_m_of_loc. change (Z.max 0 0) with 0.
    rewrite Z.pow_0_r, Z.div_1_r. lia.
  - cbn [fst snd]. rewrite iter_pos_nat.
    destruct (Pos2Nat.is_succ p) as [k Hk]. rewrite Hk.
    assert (Z.pos p = Z.of_nat (S k)) as HpZ by (rewrite <- Hk; symmetry; apply positive_nat_Z).
    replace (Z.max 0 (Z.pos p)) with (Z.pos p) by lia.
    split; [reflexivity|].
    destruct l as [|c]; [|destruct c]; cbn [shr_record_of_loc];
      match goal with |- context [Nat.iter (S k) shr_1 (Build_shr_record m ?r ?s)] =>
        destruct (shr_iter k m r s Hm) as [Hsm _] end;
      rewrite Hsm, HpZ; reflexivity.
  - cbn [fst snd]. rewrite shr_m_of_loc. change (Z.max 0 (Z.neg p)) with 0.
    rewrite Z.pow_0_r, Z.div_1_r. lia.
Qed.

(** The result of [binary_round_aux] on a non-negative mantissa, as
    integers: a mantissa [m3] at an exponent [e3] with
    [m3 * 2^(e3 - e) <= m + delta]. *)
Lemma binary_round_aux_upper s m e l :
  0 <= m ->
  let n := fexp Py.prec Py.emax (Zdigits2 m + e) - e in
  exists m3 e3,
    binary_round_aux Py.prec Py.emax s m e l = build s m3 e3
    /\ 0 <= m3
    /\ e + Z.max 0 n <= e3
    /\ m3 * 2 ^ (e3 - e) <= m + (if 0 <? n then 2 ^ (n - 1) else rounds_up l).
Proof.
  intros Hm n. unfold binary_round_aux.
  pose proof (shr_fexp_round m e l Hm) as H1. cbv zeta in H1. fold n in H1.
  destruct (shr_fexp Py.prec Py.emax m e l) as [mrs1 e1]. cbn [fst snd] in H1.
  set (m1 := round_nearest_even (shr_m mrs1) (loc_of_shr_record mrs1)) in *.
  destruct H1 as (He1 & Hm1 & Hup & _).
  pose proof (shr_fexp_m m1 e1 loc_Exact Hm1) as H2. cbv zeta in H2.
  destruct (shr_fexp Py.prec Py.emax m1 e1 loc_Exact) as [mrs2 e2]. cbn [fst snd] in H2.
  set (n2 := Z.max 0 (fexp Py.prec Py.emax (Zdigits2 m1 + e1) - e1)) in *.
  destruct H2 as (He2 & Hm2).
  exists (shr_m mrs2), e2.
  assert (0 < 2 ^ n2) as Hp2 by (apply Z.pow_pos_nonneg; lia).
  assert (0 <= n2) as Hn2 by lia.
  assert (0 <= shr_m mrs2) as Hm3 by (rewrite Hm2; apply Z.div_pos; lia).
  split.
  { unfold build. destruct (shr_m mrs2) as [|p|p]; try reflexivity. }
  split; [exact Hm3|]. split; [lia|].
  replace (e2 - e) with (n2 + (e1 - e)) by lia.
  rewrite Z.pow_add_r by lia.
  assert (shr_m mrs2 * 2 ^ n2 <= m1) as Hfl.
  { rewrite Hm2, Z.mul_comm. apply Z.mul_div_le. lia. }
  assert (0 <= 2 ^ (e1 - e)) by (apply Z.pow_nonneg; lia).
  nia.
Qed.

#[local] Open Scope Q_scope.

Lemma pow2_pos (e : Z) : 0 < 2 ^ e.
Proof. apply Qpower_0_lt. reflexivity. Qed.

(** Powers of two with symbolic exponents become positive atoms. *)
Ltac pow_atoms :=
  repeat match goal with
    | |- context [Qpower 2 ?e] =>
        pose proof (pow2_pos e);
        let p := fresh "pw" in set (p := Qpower 2 e) in *; clearbody p
    | H : context [Qpower 2 ?e] |- _ =>
        pose proof (pow2_pos e);
        let p := fresh "pw" in set (p := Qpower 2 e) in *; clearbody p
    end.

Lemma pow2_add (a b : Z) : 2 ^ (a + b) == 2 ^ a * 2 ^ b.
Proof. apply Qpower_plus. discriminate. Qed.

Lemma pow2_le (a b : Z) : (a <= b)%Z -> 2 ^ a <= 2 ^ b.
Proof. intros H. apply Qpower_le_compat_l; [exact H|]. lra. Qed.

Lemma pow2_lt_inv (a b : Z) : 2 ^ a < 2 ^ b -> (a < b)%Z.
Proof.
  intros H. destruct (Z_lt_le_dec a b) as [|Hge]; [assumption|].
  exfalso. pose proof (pow2_le b a Hge). lra.
Qed.

Lemma pow2_inject (k : Z) : (0 <= k)%Z -> inject_Z (2 ^ k) == 2 ^ k.
Proof. intros H. rewrite Zpower_Qpower by exact H. reflexivity. Qed.

Lemma F2Q_build_false m e :
  (0 <= m)%Z -> (e <= Py.emax - Py.prec)%Z \/ m = 0%Z ->
  nonneg_finite (build false m e) = true /\ F2Q (build false m e) == inject_Z m * 2 ^ e.
Proof.
  intros Hm He. unfold build. destruct m as [|p|p]; try lia.
  - cbn [F2Q nonneg_finite]. split; [reflexivity|]. change (inject_Z 0) with 0. ring.
  - destruct He as [He|He]; [|discriminate].
    apply Z.leb_le in He. rewrite He. cbn [F2Q nonneg_finite negb].
    split; [reflexivity|]. ring.
Qed.

(** Digits from magnitude. *)
Lemma digits_exp_le m e k :
  (0 < m)%Z -> inject_Z m * 2 ^ e < 2 ^ k -> (Zdigits2 m + e <= k)%Z.
Proof.
  intros Hm Hlt.
  destruct (Zdigits2_bounds m Hm) as [Hlo _].
  assert (2 ^ (Zdigits2 m - 1) <= inject_Z m) as HloQ.
  { rewrite <- pow2_inject by (pose proof (Zdigits2_gt m 0 ltac:(lia) ltac:(simpl; lia)); lia).
    rewrite <- Zle_Qle. exact Hlo. }
  assert (2 ^ (Zdigits2 m - 1 + e) < 2 ^ k) as H.
  { rewrite pow2_add. pose proof (pow2_pos e).
    eapply Qle_lt_trans; [|exact Hlt]. apply Qmult_le_compat_r; [exact HloQ|lra]. }
  apply pow2_lt_inv in H. lia.
Qed.

Lemma digits_exp_le' m e k :
  (0 <= m)%Z -> (e <= k)%Z -> inject_Z m * 2 ^ e < 2 ^ k -> (Zdigits2 m + e <= k)%Z.
Proof.
  intros Hm Hek Hlt. destruct (Z.eq_dec m 0%Z) as [->|Hne]; [simpl; lia|].
  apply digits_exp_le; [lia|exact Hlt].
Qed.

Lemma fexp_mono a b : (a <= b)%Z -> (fexp Py.prec Py.emax a <= fexp Py.prec Py.emax b)%Z.
Proof. unfold fexp. lia. Qed.

(** The value of a rounded result is at most the value rounded plus half
    a unit of the exponent it is rounded at. *)
Lemma binary_round_aux_value m e l (U : Q) :
  (0 <= m)%Z ->
  let n := (fexp Py.prec Py.emax (Zdigits2 m + e) - e)%Z in
  inject_Z m * 2 ^ e
    + (if (0 <? n)%Z then 2 ^ (e + n - 1) else inject_Z (rounds_up l) * 2 ^ e) <= U ->
  U < 2 ^ (Py.emax - Py.prec + 1) ->
  nonneg_finite (binary_round_aux Py.prec Py.emax false m e l) = true
  /\ F2Q (binary_round_aux Py.prec Py.emax false m e l) <= U.
Proof.
  intros Hm n HU Hfin.
  destruct (binary_round_aux_upper false m e l Hm) as (m3 & e3 & Heq & Hm3 & He3 & Hle).
  fold n in He3, Hle. rewrite Heq.
  assert (inject_Z m3 * 2 ^ e3 <= U) as Hval.
  { eapply Qle_trans; [|exact HU].
    replace e3 with ((e3 - e) + e)%Z at 1 by lia. rewrite pow2_add.
    rewrite <- pow2_inject by lia. rewrite Qmult_assoc, <- inject_Z_mult.
    pose proof (pow2_pos e) as Hpe.
    destruct (0 <? n)%Z eqn:Hn.
    - apply Z.ltb_lt in Hn.
      replace (e + n - 1)%Z with ((n - 1) + e)%Z by lia. rewrite pow2_add.
      rewrite <- (pow2_inject (n - 1)) by lia.
      rewrite <- Qmult_plus_distr_l, <- inject_Z_plus.
      apply Qmult_le_compat_r; [|lra]. rewrite <- Zle_Qle. exact Hle.
    - rewrite <- Qmult_plus_distr_l, <- inject_Z_plus.
      apply Qmult_le_compat_r; [|lra]. rewrite <- Zle_Qle. exact Hle. }
  assert ((e3 <= Py.emax - Py.prec)%Z \/ m3 = 0%Z) as Hfit.
  { destruct (Z.eq_dec m3 0%Z) as [->|Hne]; [right; reflexivity|left].
    assert (2 ^ e3 < 2 ^ (Py.emax - Py.prec + 1)) as H.
    { eapply Qle_lt_trans; [|exact Hfin]. eapply Qle_trans; [|exact Hval].
      pose proof (pow2_pos e3).
      assert (1 <= inject_Z m3) by (change 1 with (inject_Z 1); rewrite <- Zle_Qle; lia).
      nra. }
    apply pow2_lt_inv in H. lia. }
  destruct (F2Q_build_false m3 e3 Hm3 Hfit) as [Hnf Hv].
  split; [exact Hnf|]. rewrite Hv. exact Hval.
Qed.

Lemma F2Q_nonneg x : nonneg_finite x = true -> 0 <= F2Q x.
Proof.
  destruct x as [s|s| |s m e]; cbn [F2Q nonneg_finite]; try lra.
  destruct s; [discriminate|]. intros _.
  pose proof (pow2_pos e).
  assert (0 < inject_Z (Z.pos m)) by (change 0 with (inject_Z 0); rewrite <- Zlt_Qlt; lia).
  nra.
Qed.

(** *** Multiplication *)
Lemma fmul_upper x y (k : Z) :
  nonneg_finite x = true -> nonneg_finite y = true ->
  F2Q x * F2Q y < 2 ^ k ->
  (-1074 <= k <= Py.emax - Py.prec)%Z ->
  nonneg_finite (SFmul Py.prec Py.emax x y) = true
  /\ F2Q (SFmul Py.prec Py.emax x y) <= F2Q x * F2Q y + 2 ^ (fexp Py.prec Py.emax k - 1).
Proof.
  intros Hx Hy Hlt Hk.
  pose proof (pow2_pos (fexp Py.prec Py.emax k - 1)) as Hpe.
  pose proof (F2Q_nonneg x Hx) as Hx0. pose proof (F2Q_nonneg y Hy) as Hy0.
  destruct x as [sx|sx| |sx mx ex]; try discriminate;
    destruct y as [sy|sy| |sy my ey]; try discriminate;
    try (cbn [SFmul nonneg_finite F2Q]; split; [reflexivity|nra]).
  destruct sx; [discriminate|]. destruct sy; [discriminate|].
  cbn [SFmul xorb]. cbn [F2Q] in *.
  assert ((1 * (inject_Z (Z.pos mx) * 2 ^ ex)) * (1 * (inject_Z (Z.pos my) * 2 ^ ey))
          == inject_Z (Z.pos (mx * my)) * 2 ^ (ex + ey)) as Hprod.
  { rewrite Pos2Z.inj_mul, inject_Z_mult, pow2_add. ring. }
  rewrite Hprod in *.
  apply binary_round_aux_value; [lia| |].
  - assert (Zdigits2 (Z.pos (mx * my)) + (ex + ey) <= k)%Z as Hd
        by (apply digits_exp_le; [lia|exact Hlt]).
    apply fexp_mono in Hd.
    destruct (0 <? _)%Z eqn:Hn.
    + apply Qplus_le_r. apply pow2_le. clear -Hd. revert Hd.
      generalize (fexp Py.prec Py.emax (Zdigits2 (Z.pos (mx * my)) + (ex + ey))).
      generalize (fexp Py.prec Py.emax k). intros; lia.
    + change (inject_Z (rounds_up loc_Exact)) with 0. pow_atoms. lra.
  - assert (2 ^ (fexp Py.prec Py.emax k - 1) <= 2 ^ k) by (apply pow2_le; unfold fexp, emin, Py.prec, Py.emax in *; lia).
    assert (2 ^ (k + 1) <= 2 ^ (Py.emax - Py.prec + 1)) by (apply pow2_le; lia).
    assert (2 ^ (k + 1) == 2 * 2 ^ k) as Hk1
      by (rewrite pow2_add; change (2 ^ 1) with 2; ring).
    pow_atoms. lra.
Qed.

(** *** Truncation *)
Lemma int_of_float_upper x :
  nonneg_finite x = true ->
  exists n : Z,
    match x with
    | S754_zero _ => n = 0%Z
    | S754_finite s m e =>
        n = match e with
            | Z0 => Zpos m
            | Zpos p => (Zpos m * 2 ^ Zpos p)%Z
            | Zneg p => (Zpos m / 2 ^ Zpos p)%Z
            end
    | _ => False
    end
    /\ (0 <= n)%Z /\ inject_Z n <= F2Q x.
Proof.
  destruct x as [s|s| |s m e]; try discriminate.
  - intros _. exists 0%Z. cbn [F2Q]. split; [reflexivity|]. split; [lia|].
    change (inject_Z 0) with 0. lra.
  - destruct s; [discriminate|]. intros _. cbn [F2Q].
    destruct e as [|p|p].
    + exists (Z.pos m). split; [reflexivity|]. split; [lia|].
      change (2 ^ 0) with 1. ring_simplify. apply Qle_refl.
    + exists (Z.pos m * 2 ^ Z.pos p)%Z. split; [reflexivity|].
      split; [apply Z.mul_nonneg_nonneg; [lia|apply Z.pow_nonneg; lia]|].
      rewrite inject_Z_mult, pow2_inject by lia. ring_simplify. apply Qle_refl.
    + exists (Z.pos m / 2 ^ Z.pos p)%Z. split; [reflexivity|].
      assert (0 < 2 ^ Z.pos p)%Z as Hp by (apply Z.pow_pos_nonneg; lia).
      split; [apply Z.div_pos; lia|].
      assert (inject_Z (Z.pos m / 2 ^ Z.pos p) * 2 ^ (Z.pos p) <= inject_Z (Z.pos m)) as H.
      { rewrite <- pow2_inject by lia. rewrite <- inject_Z_mult, <- Zle_Qle.
        rewrite Z.mul_comm. apply Z.mul_div_le. exact Hp. }
      assert (2 ^ Z.pos p * 2 ^ Z.neg p == 1) as Hinv.
      { rewrite <- pow2_add. change (Z.pos p + Z.neg p)%Z with (Z.pos p + - Z.pos p)%Z.
        rewrite Z.add_opp_diag_r. reflexivity. }
      pose proof (pow2_pos (Z.neg p)). pose proof (pow2_pos (Z.pos p)).
      set (a := inject_Z (Z.pos m / 2 ^ Z.pos p)) in *.
      set (b := inject_Z (Z.pos m)) in *.
      set (u := 2 ^ Z.pos p) in *. set (v := 2 ^ Z.neg p) in *.
      assert (a * u * v <= b * v) as G1 by (apply Qmult_le_compat_r; lra).
      assert (a * u * v == a) as G2 by (rewrite <- Qmult_assoc, Hinv; ring).
      rewrite G2 in G1. ring_simplify. exact G1.
Qed.

(** *** Conversion of an integer *)
Lemma iter_xO_value (m d : positive) :
  Z.pos (Pos.iter xO m d) = (Z.pos m * 2 ^ Z.pos d)%Z.
Proof.
  induction d as [|d IH] using Pos.peano_ind.
  - simpl. lia.
  - rewrite Pos.iter_succ, Pos2Z.inj_succ, Z.pow_succ_r by lia.
    change (Z.pos (Pos.iter xO m d)~0) with (2 * Z.pos (Pos.iter xO m d))%Z. rewrite IH. ring.
Qed.

Lemma iter_xO_digits (m d : positive) :
  Zdigits2 (Z.pos (Pos.iter xO m d)) = (Zdigits2 (Z.pos m) + Z.pos d)%Z.
Proof.
  induction d as [|d IH] using Pos.peano_ind.
  - simpl. lia.
  - rewrite Pos.iter_succ, Pos2Z.inj_succ. cbn [Zdigits2 digits2_pos] in *.
    rewrite Pos2Z.inj_succ, IH. lia.
Qed.

Lemma binary_normalize_small (q : Z) :
  (1 <= q < 2 ^ 53)%Z ->
  nonneg_finite (binary_normalize Py.prec Py.emax q 0 false) = true
  /\ F2Q (binary_normalize Py.prec Py.emax q 0 false) <= inject_Z q.
Proof.
  intros Hq. destruct q as [|mq|mq]; try lia.
  unfold binary_normalize, binary_round.
  assert (Zdigits2 (Z.pos mq) <= 53)%Z as Hd by (apply Zdigits2_le; lia).
  pose proof (Zdigits2_gt (Z.pos mq) 0 ltac:(lia) ltac:(simpl; lia)) as Hd1.
  change (Z.pos (digits2_pos mq)) with (Zdigits2 (Z.pos mq)).
  rewrite Z.add_0_r.
  assert (fexp Py.prec Py.emax (Zdigits2 (Z.pos mq)) = Zdigits2 (Z.pos mq) - 53)%Z as Hf
    by (unfold fexp, emin, Py.prec, Py.emax; lia).
  rewrite Hf. unfold shl_align.
  destruct (Zdigits2 (Z.pos mq) - 53 - 0)%Z as [|d|d] eqn:Hs; try lia.
  - (* 53 digits: no alignment *)
    apply binary_round_aux_value; [lia| |].
    + rewrite Z.add_0_r, Hf.
      replace (Zdigits2 (Z.pos mq) - 53 - 0)%Z with 0%Z by lia.
      change (0 <? 0)%Z with false. cbv iota.
      change (inject_Z (rounds_up loc_Exact)) with 0. change (2 ^ 0) with 1. lra.
    + apply Qlt_le_trans with (inject_Z (2 ^ 53)); [rewrite <- Zlt_Qlt; lia|].
      rewrite pow2_inject by lia. apply pow2_le. unfold Py.emax, Py.prec. lia.
  - (* fewer digits: mantissa shifted left *)
    assert (Zdigits2 (Z.pos mq) - 53 = Z.neg d)%Z as He by lia.
    apply binary_round_aux_value; [lia| |].
    + rewrite iter_xO_digits.
      replace (Zdigits2 (Z.pos mq) + Z.pos d + (Zdigits2 (Z.pos mq) - 53))%Z
        with (Zdigits2 (Z.pos mq) + 0)%Z by lia.
      rewrite Z.add_0_r, Hf, Z.sub_diag.
      change (0 <? 0)%Z with false. cbv iota.
      change (inject_Z (rounds_up loc_Exact)) with 0.
      rewrite iter_xO_value, inject_Z_mult, pow2_inject by lia.
      rewrite He. rewrite <- Qmult_assoc, <- pow2_add.
      change (Z.pos d + Z.neg d)%Z with (Z.pos d + - Z.pos d)%Z.
      rewrite Z.add_opp_diag_r. change (2 ^ 0) with 1. pow_atoms. lra.
    + apply Qlt_le_trans with (inject_Z (2 ^ 53)); [rewrite <- Zlt_Qlt; lia|].
      rewrite pow2_inject by lia. apply pow2_le. unfold Py.emax, Py.prec. lia.
Qed.

Ltac forget_bodies := repeat match goal with x := _ : Q |- _ => clearbody x end.

(** *** Division *)
Lemma div_core (m1 e1 m2 e2 : Z) :
  (0 < m1)%Z -> (0 < m2)%Z ->
  exists q r s : Z,
    SFdiv_core_binary Py.prec Py.emax m1 e1 m2 e2 = (q, (e1 - e2 - s)%Z, new_location m2 r)
    /\ (0 <= s)%Z
    /\ (e1 - e2 - s <= fexp Py.prec Py.emax (Zdigits2 m1 + e1 - (Zdigits2 m2 + e2)))%Z
    /\ (m1 * 2 ^ s = m2 * q + r)%Z
    /\ (0 <= r < m2)%Z /\ (0 <= q)%Z.
Proof.
  intros H1 H2. unfold SFdiv_core_binary.
  set (e' := Z.min (fexp Py.prec Py.emax (Zdigits2 m1 + e1 - (Zdigits2 m2 + e2))) (e1 - e2)).
  set (s := (e1 - e2 - e')%Z).
  assert (0 <= s)%Z as Hs by (subst s e'; lia).
  set (m' := match s with Z.pos _ => Z.shiftl m1 s | 0%Z => m1 | Z.neg _ => 0%Z end).
  assert (m' = m1 * 2 ^ s)%Z as Hm'.
  { subst m'. destruct s as [|p|p]; try lia.
    - rewrite Z.shiftl_mul_pow2 by lia. reflexivity. }
  pose proof (Z_div_mod m' m2 ltac:(lia)) as Hdm.
  destruct (Z.div_eucl m' m2) as [q r]. destruct Hdm as [Heq Hr].
  exists q, r, s. replace (e1 - e2 - s)%Z with e' by (subst s; lia).
  split; [reflexivity|]. split; [exact Hs|]. split; [subst e'; lia|].
  split; [lia|]. split; [exact Hr|].
  assert (0 <= m')%Z by (rewrite Hm'; apply Z.mul_nonneg_nonneg; [lia|apply Z.pow_nonneg; lia]).
  nia.
Qed.

Lemma new_location_up (m2 r : Z) :
  rounds_up (new_location m2 r) = 1%Z -> (m2 <= 2 * r)%Z.
Proof.
  unfold new_location, new_location_even, new_location_odd.
  destruct (Z.even m2); destruct (r =? 0)%Z; cbn [rounds_up]; try discriminate.
  - destruct (Z.compare_spec (2 * r) m2); cbn [rounds_up]; try discriminate; lia.
  - destruct (Z.compare_spec (2 * r + 1) m2); cbn [rounds_up]; try discriminate; lia.
Qed.

Lemma rounds_up_01 l : rounds_up l = 0%Z \/ rounds_up l = 1%Z.
Proof. destruct l as [|[| |]]; cbn; auto. Qed.

Lemma fdiv_100_upper (p : spec_float) :
  nonneg_finite p = true ->
  F2Q p <= 100 ->
  nonneg_finite (SFdiv Py.prec Py.emax p float_100) = true
  /\ F2Q (SFdiv Py.prec Py.emax p float_100) <= F2Q p * (1 # 100) + 2 ^ (-53).
Proof.
  intros Hp Hle. pose proof (pow2_pos (-53)) as H53.
  destruct p as [s|s| |s mp ep]; try discriminate.
  - cbn [SFdiv float_100 nonneg_finite F2Q]. split; [reflexivity|].
    set (u := 2 ^ (-53)) in *. forget_bodies. lra.
  - destruct s; [discriminate|]. unfold float_100. cbn [SFdiv xorb].
    destruct (div_core (Z.pos mp) ep (Z.pos 7036874417766400) (-46) ltac:(lia) ltac:(lia))
      as (q & r & s & Hcore & Hs & He' & Heq & Hr & Hq).
    rewrite Hcore. clear Hcore.
    change (Zdigits2 (Z.pos 7036874417766400)) with 53%Z in He'.
    set (e' := (ep - -46 - s)%Z) in *.
    cbn [F2Q] in *.
    (* magnitude of the dividend *)
    assert (Zdigits2 (Z.pos mp) + ep <= 7)%Z as Hd1.
    { apply digits_exp_le; [lia|].
      apply Qle_lt_trans with 100; [|reflexivity].
      set (P := inject_Z (Z.pos mp) * 2 ^ ep) in *. forget_bodies. lra. }
    assert (e' <= -53)%Z as He53.
    { eapply Z.le_trans; [exact He'|].
      apply (fexp_mono _ 0). lia. }
    (* the exact quotient *)
    assert (2 ^ e' <= 2 ^ (-53)) as HA by (apply pow2_le; exact He53).
    assert (inject_Z (Z.pos mp) * 2 ^ ep * 2 ^ 46
            == (inject_Z 7036874417766400 * inject_Z q + inject_Z r) * 2 ^ e') as HX.
    { rewrite <- inject_Z_mult, <- inject_Z_plus, <- Heq.
      rewrite inject_Z_mult, pow2_inject by lia.
      rewrite <- !Qmult_assoc, <- !pow2_add.
      replace (s + e')%Z with (ep + 46)%Z by (subst e'; lia). reflexivity. }
    assert (2 ^ 46 == 70368744177664) as H46 by reflexivity.
    assert (inject_Z 7036874417766400 == 7036874417766400) as HM by reflexivity.
    rewrite H46, HM in HX.
    assert (0 <= inject_Z r) as Hr0 by (change 0 with (inject_Z 0); rewrite <- Zle_Qle; lia).
    assert (0 <= inject_Z q) as Hq0 by (change 0 with (inject_Z 0); rewrite <- Zle_Qle; lia).
    assert (inject_Z r < 7036874417766400) as Hr1
      by (change 7036874417766400 with (inject_Z 7036874417766400); rewrite <- Zlt_Qlt; lia).
    assert (0 < 2 ^ e') as HA0 by apply pow2_pos.
    set (A := 2 ^ e') in *. set (P := inject_Z (Z.pos mp) * 2 ^ ep) in *.
    set (iq := inject_Z q) in *. set (ir := inject_Z r) in *.
    set (u := 2 ^ (-53)) in *.
    (* P / 100 = iq * A + v, with v the part of the remainder *)
    set (v := ir * A * (1 # 7036874417766400)).
    assert (0 <= ir * A) as HirA by (forget_bodies; nra).
    assert (1 * P * (1 # 100) == iq * A + v) as HXq.
    { subst v. forget_bodies. lra. }
    assert (0 <= v) as Hv0 by (subst v; forget_bodies; lra).
    apply binary_round_aux_value; [exact Hq| |].
    + (* bound *)
      fold iq. fold A.
      set (n := (fexp Py.prec Py.emax (Zdigits2 q + e') - e')%Z).
      destruct (0 <? n)%Z eqn:Hn.
      * apply Z.ltb_lt in Hn.
        assert (Zdigits2 q + e' <= 1)%Z as Hdq.
        { apply digits_exp_le'; [exact Hq|lia|]. fold iq. fold A.
          change (2 ^ 1) with 2. forget_bodies. lra. }
        apply (fexp_mono _ 1) in Hdq. change (fexp Py.prec Py.emax 1) with (-52)%Z in Hdq.
        assert (2 ^ (e' + n - 1) <= u) as Herr by (apply pow2_le; subst n; lia).
        set (w := 2 ^ (e' + n - 1)) in *. forget_bodies. lra.
      * destruct (rounds_up_01 (new_location (Z.pos 7036874417766400) r)) as [Hup|Hup];
          rewrite Hup.
        -- change (inject_Z 0) with 0. forget_bodies. lra.
        -- apply new_location_up in Hup.
           assert (7036874417766400 <= 2 * ir) as Hhalf.
           { subst ir. change 7036874417766400 with (inject_Z 7036874417766400).
             change 2 with (inject_Z 2). rewrite <- inject_Z_mult, <- Zle_Qle. exact Hup. }
           assert (A * (1 # 2) <= v) as Hv.
           { subst v. forget_bodies. nra. }
           change (inject_Z 1) with 1. forget_bodies. lra.
    + apply Qle_lt_trans with (1 + 1); [|reflexivity].
      assert (u <= 1) by (subst u; change 1 with (2 ^ 0); apply pow2_le; lia).
      forget_bodies. lra.
Qed.

End Float.

(** ** The growth calculator in binary64 *)

Lemma float_of_int_small (q : Z) :
  1 <= q < 2 ^ 53 ->
  exists f, Py.float_of_int q = Py.Ok f /\ nonneg_finite f = true
            /\ (F2Q f <= inject_Z q)%Q.
Proof.
  intros Hq. destruct (Float.binary_normalize_small q Hq) as [Hnf Hv].
  unfold Py.float_of_int.
  destruct (binary_normalize Py.prec Py.emax q 0 false) as [s|s| |s m e] eqn:E;
    try discriminate; eexists; (split; [reflexivity|]); split; assumption.
Qed.

Lemma int_of_float_nonneg (x : spec_float) :
  nonneg_finite x = true ->
  exists n, Py.int_of_float x = Py.Ok n /\ 0 <= n /\ (inject_Z n <= F2Q x)%Q.
Proof.
  intros Hx. destruct (Float.int_of_float_upper x Hx) as (n & Hn & H0 & Hle).
  exists n. split; [|split; assumption].
  destruct x as [s|s| |s m e]; try contradiction.
  - by subst n.
  - destruct s; [discriminate|]. cbn [Py.int_of_float]. by subst n.
Qed.

(** The increment [int(q * (p / 100))] for a draw [p] between 0 and 100:
    it exists, is not negative and is below [q * p / 100 + 1]. *)
Lemma increase_amount_bound (q : Z) (p : spec_float) :
  1 <= q < 2 ^ 52 ->
  nonneg_finite p = true ->
  (F2Q p <= 100)%Q ->
  exists ratio product inc,
    Py.float_div_int p 100 = Py.Ok ratio
    /\ Py.int_mul_float q ratio = Py.Ok product
    /\ Py.int_of_float product = Py.Ok inc
    /\ 0 <= inc
    /\ (inject_Z inc < inject_Z q * F2Q p * (1 # 100) + 1)%Q.
Proof.
  intros Hq Hp Hle.
  destruct (float_of_int_small q) as (fq & Hfq & Hfq_nf & Hfq_le); [lia|].
  destruct (Float.fdiv_100_upper p Hp Hle) as [Hr_nf Hr_le].
  set (ratio := SFdiv Py.prec Py.emax p float_100) in *.
  pose proof (Float.F2Q_nonneg _ Hfq_nf) as Hfq0.
  pose proof (Float.F2Q_nonneg _ Hr_nf) as Hr0.
  pose proof (Float.F2Q_nonneg _ Hp) as Hp0.
  assert ((2 ^ (-53) == 1 # 9007199254740992)%Q) as H53 by reflexivity.
  assert ((2 ^ 53 == 9007199254740992)%Q) as H53' by reflexivity.
  assert ((inject_Z q <= 4503599627370495)%Q) as HqQ.
  { change 4503599627370495%Q with (inject_Z 4503599627370495).
    rewrite <- Zle_Qle. change (2 ^ 52) with 4503599627370496 in Hq. lia. }
  assert ((1 <= inject_Z q)%Q) as Hq1
    by (change 1%Q with (inject_Z 1); rewrite <- Zle_Qle; lia).
  rewrite H53 in Hr_le.
  destruct (Float.fmul_upper fq ratio 53 Hfq_nf Hr_nf) as [Hy_nf Hy_le].
  { rewrite H53'.
    set (a := F2Q fq) in *. set (r := F2Q ratio) in *. set (P := F2Q p) in *.
    set (iq := inject_Z q) in *. clearbody a r P iq. nra. }
  { unfold Py.emax, Py.prec. lia. }
  change (fexp Py.prec Py.emax 53 - 1) with (-1) in Hy_le.
  assert ((2 ^ (-1) == 1 # 2)%Q) as Hhalf by reflexivity.
  rewrite Hhalf in Hy_le.
  set (product := SFmul Py.prec Py.emax fq ratio) in *.
  destruct (int_of_float_nonneg product Hy_nf) as (inc & Hinc & Hinc0 & Hinc_le).
  exists ratio, product, inc.
  split; [reflexivity|].
  split; [unfold Py.int_mul_float; rewrite Hfq; reflexivity|].
  split; [exact Hinc|]. split; [exact Hinc0|].
  set (a := F2Q fq) in *. set (r := F2Q ratio) in *. set (P := F2Q p) in *.
  set (y := F2Q product) in *. set (iq := inject_Z q) in *. set (ii := inject_Z inc) in *.
  clearbody a r P y iq ii. nra.
Qed.

(** X1. The growth calculator on a well-formed range. For a quantity from 1
    to below [2^52], a range whose two elements convert to doubles [a] and
    [b], and a draw that is a finite double between 0 and [b <= 100], the
    result is [quantity + increase] with an increase that is the truncated
    binary64 product [q * (p / 100)], is not negative and is at most
    [ceil (q * b / 100)]: the next quantity never falls below the current
    one and never exceeds the growth the range allows. *)
Theorem next_quantity_within_range
    (q : Z) (lo hi : Py.num) (a b : spec_float)
    (uniform : spec_float -> spec_float -> spec_float) :
  1 <= q < 2 ^ 52 ->
  Py.to_float lo = Py.Ok a ->
  Py.to_float hi = Py.Ok b ->
  nonneg_finite (uniform a b) = true ->
  (F2Q (uniform a b) <= F2Q b)%Q ->
  (F2Q b <= 100)%Q ->
  exists increase : Z,
    calculate_next_quantity q [lo; hi] uniform = Py.Ok (q + increase)
    /\ (let! ratio := Py.float_div_int (uniform a b) 100 in
        let! product := Py.int_mul_float q ratio in
        Py.int_of_float product) = Py.Ok increase
    /\ 0 <= increase <= Qceiling (inject_Z q * F2Q b / 100).
Proof.
  intros Hq Ha Hb Hp Hpb Hb100.
  destruct (increase_amount_bound q (uniform a b) Hq Hp) as
    (ratio & product & inc & Hratio & Hprod & Hinc & Hinc0 & Hlt); [lra|].
  exists inc.
  assert ((let! ratio := Py.float_div_int (uniform a b) 100 in
           let! product := Py.int_mul_float q ratio in
           Py.int_of_float product) = Py.Ok inc) as Hrun.
  { rewrite Hratio. cbn [Py.bind]. rewrite Hprod. cbn [Py.bind]. exact Hinc. }
  split; [|split; [exact Hrun|]].
  - unfold calculate_next_quantity. rewrite Ha, Hb. cbn [Py.bind].
    rewrite Hratio. cbn [Py.bind]. rewrite Hprod. cbn [Py.bind]. rewrite Hinc.
    reflexivity.
  - split; [exact Hinc0|].
    change (inject_Z q * F2Q b / 100)%Q with (inject_Z q * F2Q b * (1 # 100))%Q.
    pose proof (Qle_ceiling (inject_Z q * F2Q b * (1 # 100))) as Hc.
    assert ((inject_Z inc < inject_Z (Qceiling (inject_Z q * F2Q b * (1 # 100)) + 1))%Q) as H.
    { rewrite inject_Z_plus. change (inject_Z 1) with 1%Q.
      assert ((1 <= inject_Z q)%Q) as Hq1
        by (change 1%Q with (inject_Z 1); rewrite <- Zle_Qle; lia).
      set (c := inject_Z (Qceiling (inject_Z q * F2Q b * (1 # 100)))) in *.
      set (iq := inject_Z q) in *. set (B := F2Q b) in *. set (P := F2Q (uniform a b)) in *.
      set (ii := inject_Z inc) in *. clearbody c iq B P ii. nra. }
    rewrite <- Zlt_Qlt in H. lia.
Qed.

Lemma next_quantity_within_range_witness :
  exists increase : Z,
    calculate_next_quantity 100 [Py.PyInt 29; Py.PyInt 29] Sample.draw_low
    = Py.Ok (100 + increase)
    /\ 0 <= increase <= 29.
Proof.
  destruct (next_quantity_within_range 100 (Py.PyInt 29) (Py.PyInt 29)
              Sample.float_29 Sample.float_29 Sample.draw_low)
    as (increase & H1 & _ & H2).
  - split; [lia|reflexivity].
  - reflexivity.
  - reflexivity.
  - reflexivity.
  - unfold Qle. vm_compute. discriminate.
  - unfold Qle. vm_compute. discriminate.
  - exists increase. split; [exact H1|exact H2].
Defined.

(** X2. The growth calculator on a malformed range. For a quantity from 1 to
    below [2^52] and a range that is not two elements or has an element
    [None], the result is the fallback [int(quantity * 1.1)] in binary64,
    whatever the random source returns; no exception is raised, and the
    result exceeds [1.1 * quantity] by less than 1. *)
Theorem next_quantity_fallback
    (q : Z) (range : list Py.num) (uniform : spec_float -> spec_float -> spec_float) :
  1 <= q < 2 ^ 52 ->
  malformed_range range = true ->
  exists n : Z,
    calculate_next_quantity q range uniform = Py.Ok n
    /\ (let! product := Py.int_mul_float q Py.lit_1_1 in Py.int_of_float product) = Py.Ok n
    /\ 0 <= n
    /\ 10 * n <= 11 * q + 9.
Proof.
  intros Hq Hbad.
  destruct (float_of_int_small q) as (fq & Hfq & Hfq_nf & Hfq_le); [lia|].
  pose proof (Float.F2Q_nonneg _ Hfq_nf) as Hfq0.
  assert ((F2Q Py.lit_1_1 == 4953959590107546 # 4503599627370496)%Q) as H11 by reflexivity.
  assert ((inject_Z q <= 4503599627370495)%Q) as HqQ.
  { change 4503599627370495%Q with (inject_Z 4503599627370495).
    rewrite <- Zle_Qle. change (2 ^ 52) with 4503599627370496 in Hq. lia. }
  assert ((2 ^ 53 == 9007199254740992)%Q) as H53 by reflexivity.
  destruct (Float.fmul_upper fq Py.lit_1_1 53 Hfq_nf eq_refl) as [Hy_nf Hy_le].
  { rewrite H53, H11. set (a := F2Q fq) in *. set (iq := inject_Z q) in *.
    clearbody a iq. nra. }
  { unfold Py.emax, Py.prec. lia. }
  change (fexp Py.prec Py.emax 53 - 1) with (-1) in Hy_le.
  assert ((2 ^ (-1) == 1 # 2)%Q) as Hhalf by reflexivity.
  rewrite Hhalf, H11 in Hy_le.
  destruct (int_of_float_nonneg _ Hy_nf) as (n & Hn & Hn0 & Hn_le).
  assert ((let! product := Py.int_mul_float q Py.lit_1_1 in Py.int_of_float product)
          = Py.Ok n) as Hrun.
  { unfold Py.int_mul_float. rewrite Hfq. cbn [Py.bind]. exact Hn. }
  exists n. split; [|split; [exact Hrun|split; [exact Hn0|]]].
  - unfold calculate_next_quantity. cbv zeta.
    destruct range as [|x [|y [|z rest]]]; try exact Hrun.
    cbn [malformed_range] in Hbad.
    destruct x as [|nx|fx]; [exact Hrun| |].
    + destruct y as [|ny|fy]; try discriminate.
      cbn [Py.to_float]. destruct (Py.float_of_int nx); exact Hrun.
    + destruct y as [|ny|fy]; try discriminate. exact Hrun.
  - assert ((inject_Z (10 * n) < inject_Z (11 * q + 10))%Q) as H.
    { rewrite inject_Z_plus, !inject_Z_mult.
      change (inject_Z 10) with 10%Q. change (inject_Z 11) with 11%Q.
      set (a := F2Q fq) in *. set (iq := inject_Z q) in *.
      set (y := F2Q (SFmul Py.prec Py.emax fq Py.lit_1_1)) in *.
      set (ii := inject_Z n) in *. clearbody a iq y ii. nra. }
    rewrite <- Zlt_Qlt in H. lia.
Qed.

Lemma next_quantity_fallback_witness :
  exists n : Z,
    calculate_next_quantity 100 [Py.PyInt 10] Sample.draw_low = Py.Ok n
    /\ 10 * n <= 1109.
Proof.
  destruct (next_quantity_fallback 100 [Py.PyInt 10] Sample.draw_low)
    as (n & H1 & _ & _ & H2).
  - split; [lia|reflexivity].
  - reflexivity.
  - exists n. split; [exact H1|lia].
Defined.

(** ** The scheduler: firing, skipping, and what a pass keeps *)

(** Processing a job never adds or removes a user record. *)
Lemma process_job_user_presence env i job (w : World) (k : string) :
  is_Some (user_data (process_job env i job w).1.2 !! k) <-> is_Some (user_data w !! k).
Proof.
  unfold process_job.
  destruct (stopped job); [done|].
  destruct (if 0 <? next_run job then _ else _); [|done].
  destruct (next_run job <=? now env); [|done].
  destruct (user_data w !! user_id job) as [u|] eqn:Hu; [|done].
  pose proof (place_order_users (panel_reply env i) (order_time env i) (api_url job)
                (api_key job) (service_id job) (link job) (quantity job) (user_id job) w) as H.
  destruct (place_order _ _ _ _ _ _ _ _ w) as [[new_order timestamp] w1]. simpl in H.
  assert (forall u', is_Some (<[user_id job := u']> (user_data w1) !! k)
                     <-> is_Some (user_data w !! k)) as Hins.
  { intros u'. rewrite H. destruct (decide (user_id job = k)) as [<-|Hne].
    - rewrite lookup_insert_eq, Hu. split; eauto.
    - by rewrite lookup_insert_ne. }
  destruct (calculate_next_quantity _ _ _); [|apply Hins].
  destruct (fromtimestamp env _); apply Hins.
Qed.

Lemma process_at_user_presence env (w : World) i (k : string) :
  is_Some (user_data (process_at env w i) !! k) <-> is_Some (user_data w !! k).
Proof.
  unfold process_at. destruct (background_jobs w !! i) as [job|]; [|done].
  pose proof (process_job_user_presence env i job w k) as H.
  destruct (process_job env i job w) as [[job1 w1] raised]. exact H.
Qed.

Lemma foldl_process_at_user_presence env (positions : list nat) (w : World) (k : string) :
  is_Some (user_data (foldl (process_at env) w positions) !! k)
  <-> is_Some (user_data w !! k).
Proof.
  revert w. induction positions as [|i positions IH]; intros w; [done|].
  simpl. rewrite IH. apply process_at_user_presence.
Qed.

(** The job a pass leaves at a position, when its [try] block fires the
    job and nothing raises. *)
Lemma process_job_fires env i job (w : World) (user : User) (next : Z) :
  stopped job = false ->
  (0 < next_run job ->
   (exists s, fromtimestamp env (next_run job) = Py.Ok s)
   /\ exists s, fromtimestamp env (now env) = Py.Ok s) ->
  next_run job <= now env ->
  user_data w !! user_id job = Some user ->
  calculate_next_quantity (quantity job) (increase_range job) (uniform env i)
  = Py.Ok next ->
  (exists s, fromtimestamp env (now env + frequency job * 60) = Py.Ok s) ->
  exists info w',
    process_job env i job w
    = (set_next_run (now env + frequency job * 60)
         (set_quantity next (set_orders (orders job ++ [info]) job)), w', None)
    /\ o_quantity info = quantity job
    /\ o_job_id info = job_id job
    /\ o_service_id info = service_id job
    /\ o_link info = link job
    /\ o_timestamp info = order_time env i
    /\ (exists u', user_data w' !! user_id job = Some u'
                   /\ u_orders u' = Some (default [] (u_orders user) ++ [info]))
    /\ panel_log w'
       = panel_log w ++ [{| p_url := api_url job; p_key := api_key job; p_action := "add";
                            p_service := service_id job; p_link := link job;
                            p_quantity := quantity job |}].
Proof.
  intros Hs Hdbg Hdue Hu Hnext [s3 Hts].
  unfold process_job. rewrite Hs.
  assert ((if 0 <? next_run job
           then (let! next_run_time := fromtimestamp env (next_run job) in
                 fromtimestamp env (now env))
           else Py.Ok "") = Py.Ok (if 0 <? next_run job then
                                     match fromtimestamp env (now env) with
                                     | Py.Ok s => s | Py.Raise _ => "" end else ""))
    as ->.
  { destruct (0 <? next_run job) eqn:E; [|done]. apply Z.ltb_lt in E.
    destruct (Hdbg E) as [[s1 ->] [s2 ->]]. done. }
  apply Z.leb_le in Hdue. rewrite Hdue, Hu.
  pose proof (place_order_users (panel_reply env i) (order_time env i) (api_url job)
                (api_key job) (service_id job) (link job) (quantity job) (user_id job) w) as HU.
  pose proof (place_order_panel_log (panel_reply env i) (order_time env i) (api_url job)
                (api_key job) (service_id job) (link job) (quantity job) (user_id job) w) as HP.
  assert ((place_order (panel_reply env i) (order_time env i) (api_url job)
             (api_key job) (service_id job) (link job) (quantity job) (user_id job) w).1.2
          = order_time env i) as HT.
  { unfold place_order. destruct (panel_reply env i !! "order"); [|done].
    by destruct (Py.bind _ _). }
  destruct (place_order _ _ _ _ _ _ _ _ w) as [[new_order timestamp] w1].
  simpl in HU, HP, HT. subst timestamp.
  rewrite Hnext. simpl. rewrite Hts.
  eexists _, _. split; [reflexivity|]. simpl.
  split_and!; try done.
  eexists. rewrite lookup_insert_eq. split; [reflexivity|]. done.
Qed.

(** X3. A due job fires once. If a job is not stopped and due, its owner has a
    user record, the next quantity is computed without exception and the time
    stamps involved are within the platform's range, then the pass leaves at
    the job's position a job whose history has one more entry (for the
    quantity just ordered), whose quantity is the computed next quantity and
    whose next_run is [now + frequency * 60]; nothing else in the job
    changes, and the job is neither stopped nor counted as failed. *)
Theorem due_job_fires_once (env : TickEnv) (w : World) (i : nat) (job : Job) (next : Z) :
  background_jobs w !! i = Some job ->
  stopped job = false ->
  next_run job <= now env ->
  is_Some (user_data w !! user_id job) ->
  (forall t, t = next_run job \/ t = now env \/ t = now env + frequency job * 60 ->
             exists s, fromtimestamp env t = Py.Ok s) ->
  calculate_next_quantity (quantity job) (increase_range job) (uniform env i)
  = Py.Ok next ->
  exists info,
    background_jobs (scheduler_tick env w) !! i
    = Some (set_next_run (now env + frequency job * 60)
              (set_quantity next (set_orders (orders job ++ [info]) job)))
    /\ o_quantity info = quantity job
    /\ o_job_id info = job_id job
    /\ o_timestamp info = order_time env i
    /\ raised_at env w i = None.
Proof.
  intros Hi Hs Hdue Hu Hts Hnext.
  assert (is_Some (user_data (world_before env w i) !! user_id job)) as [user Huser]
    by (by apply foldl_process_at_user_presence).
  destruct (process_job_fires env i job (world_before env w i) user next)
    as (info & w' & Heq & H1 & H2 & _ & _ & H3 & _); try done.
  - intros _. split; apply Hts; auto.
  - apply Hts; auto.
  - exists info. rewrite (tick_position env w i job Hi).
    unfold raised_at. rewrite world_before_lookup, Hi, Heq. done.
Qed.

Lemma due_job_fires_once_witness :
  exists info,
    background_jobs
      (scheduler_tick (Sample.pass 1700000100 Sample.accepted)
         (Sample.world [Sample.job "j1" 100 10 20 5 1700000000])) !! 0%nat
    = Some (set_next_run 1700000400
              (set_quantity 110
                 (set_orders [info] (Sample.job "j1" 100 10 20 5 1700000000)))).
Proof.
  destruct (due_job_fires_once (Sample.pass 1700000100 Sample.accepted)
              (Sample.world [Sample.job "j1" 100 10 20 5 1700000000]) 0%nat
              (Sample.job "j1" 100 10 20 5 1700000000) 110)
    as (info & H & _).
  - reflexivity.
  - reflexivity.
  - vm_compute. discriminate.
  - eexists. reflexivity.
  - intros t [-> | [-> | ->]]; eexists; reflexivity.
  - reflexivity.
  - exists info. exact H.
Defined.

(** A job a pass does not reach: not yet due, or owned by a user without a
    record. *)
Lemma process_job_skips env i job (w : World) :
  (forall t, t = next_run job \/ t = now env -> exists s, fromtimestamp env t = Py.Ok s) ->
  now env < next_run job \/ user_data w !! user_id job = None ->
  process_job env i job w = (job, w, None).
Proof.
  intros Hts Hskip. unfold process_job.
  destruct (stopped job); [done|].
  destruct (Hts (next_run job)) as [s1 H1]; [auto|].
  destruct (Hts (now env)) as [s2 H2]; [auto|].
  rewrite H1, H2. simpl.
  assert ((if 0 <? next_run job then Py.Ok s2 else Py.Ok "")
          = Py.Ok (if 0 <? next_run job then s2 else "")) as -> by (by destruct (0 <? _)).
  destruct (next_run job <=? now env) eqn:E; [|done].
  apply Z.leb_le in E. destruct Hskip as [Hlt | ->]; [lia|done].
Qed.

Lemma world_before_S env (w : World) i :
  world_before env w (S i) = process_at env (world_before env w i) i.
Proof. unfold world_before. by rewrite seq_S, foldl_app. Qed.

Lemma process_at_skip env (w : World) i job :
  background_jobs w !! i = Some job ->
  process_job env i job w = (job, w, None) ->
  process_at env w i = w.
Proof.
  intros Hi Hp. unfold process_at. rewrite Hi, Hp.
  rewrite list_insert_id by done. apply with_jobs_same.
Qed.

(** X4. A job that is not yet due is skipped. While the clock is before a
    job's next_run (and the two time stamps can be formatted), the pass
    leaves the job as it is, raises nothing for it, and its turn leaves the
    whole state, the requests sent to the panel included, as it found it. *)
Theorem job_not_due_is_skipped (env : TickEnv) (w : World) (i : nat) (job : Job) :
  background_jobs w !! i = Some job ->
  now env < next_run job ->
  (forall t, t = next_run job \/ t = now env -> exists s, fromtimestamp env t = Py.Ok s) ->
  background_jobs (scheduler_tick env w) !! i = Some job
  /\ raised_at env w i = None
  /\ world_before env w (S i) = world_before env w i.
Proof.
  intros Hi Hdue Hts.
  pose proof (process_job_skips env i job (world_before env w i) Hts (or_introl Hdue)) as Hp.
  split_and!.
  - rewrite (tick_position env w i job Hi), Hp. done.
  - unfold raised_at. rewrite world_before_lookup, Hi, Hp. done.
  - rewrite world_before_S. apply (process_at_skip env _ i job); [|done].
    by rewrite world_before_lookup.
Qed.

Lemma job_not_due_is_skipped_witness :
  background_jobs
    (scheduler_tick (Sample.pass 1700000100 Sample.accepted)
       (Sample.world [Sample.job "j1" 100 10 20 5 1700000400])) !! 0%nat
  = Some (Sample.job "j1" 100 10 20 5 1700000400).
Proof.
  apply (job_not_due_is_skipped (Sample.pass 1700000100 Sample.accepted)
           (Sample.world [Sample.job "j1" 100 10 20 5 1700000400]) 0%nat
           (Sample.job "j1" 100 10 20 5 1700000400)).
  - reflexivity.
  - vm_compute. reflexivity.
  - intros t [-> | ->]; eexists; reflexivity.
Defined.

(** X5. A job whose owner has no user record is skipped. Even when it is due,
    the pass leaves such a job as it is, and its turn sends no request and
    changes nothing else. *)
Theorem job_of_unknown_user_is_skipped (env : TickEnv) (w : World) (i : nat) (job : Job) :
  background_jobs w !! i = Some job ->
  user_data w !! user_id job = None ->
  (forall t, t = next_run job \/ t = now env -> exists s, fromtimestamp env t = Py.Ok s) ->
  background_jobs (scheduler_tick env w) !! i = Some job
  /\ raised_at env w i = None
  /\ world_before env w (S i) = world_before env w i.
Proof.
  intros Hi Hu Hts.
  assert (user_data (world_before env w i) !! user_id job = None) as Hu'.
  { apply eq_None_not_Some. unfold world_before.
    rewrite foldl_process_at_user_presence. by apply eq_None_not_Some. }
  pose proof (process_job_skips env i job (world_before env w i) Hts (or_intror Hu')) as Hp.
  split_and!.
  - rewrite (tick_position env w i job Hi), Hp. done.
  - unfold raised_at. rewrite world_before_lookup, Hi, Hp. done.
  - rewrite world_before_S. apply (process_at_skip env _ i job); [|done].
    by rewrite world_before_lookup.
Qed.

Lemma job_of_unknown_user_is_skipped_witness :
  background_jobs
    (scheduler_tick (Sample.pass 1700000100 Sample.accepted)
       (with_users ∅ (Sample.world [Sample.job "j1" 100 10 20 5 1700000000]))) !! 0%nat
  = Some (Sample.job "j1" 100 10 20 5 1700000000).
Proof.
  apply (job_of_unknown_user_is_skipped (Sample.pass 1700000100 Sample.accepted)
           (with_users ∅ (Sample.world [Sample.job "j1" 100 10 20 5 1700000000])) 0%nat
           (Sample.job "j1" 100 10 20 5 1700000000)).
  - reflexivity.
  - reflexivity.
  - intros t [-> | ->]; eexists; reflexivity.
Defined.

(** *** What a run may change in a job *)

Lemma scheduler_run_refl (a : Job) : scheduler_run 0 a a.
Proof.
  exists [], (quantity a), (next_run a), (error_count a), (stopped a), (stopped_reason a).
  rewrite app_nil_r. split_and!; try done; try lia.
  - by destruct a.
  - intros H1 H2. congruence.
Qed.

Lemma scheduler_run_weaken (n m : nat) (a b : Job) :
  (n <= m)%nat -> scheduler_run n a b -> scheduler_run m a b.
Proof.
  intros Hnm (l & q & nr & ec & st & r & H1 & H2 & H3 & H4 & H5 & H6).
  exists l, q, nr, ec, st, r. split_and!; try done; lia.
Qed.

Lemma scheduler_run_trans (n m : nat) (a b c : Job) :
  scheduler_run n a b -> scheduler_run m b c -> scheduler_run (n + m) a c.
Proof.
  intros (l1 & q1 & nr1 & ec1 & st1 & r1 & Hb & Hl1 & Hf1 & He1 & Hs1 & Hc1)
         (l2 & q2 & nr2 & ec2 & st2 & r2 & Hc & Hl2 & Hf2 & He2 & Hs2 & Hc2).
  assert (job_id b = job_id a /\ orders b = orders a ++ l1
          /\ error_count b = ec1 /\ stopped b = st1) as (Hid & Ho & Hec & Hst)
    by (by rewrite Hb).
  exists (l1 ++ l2), q2, nr2, ec2, st2, r2.
  split_and!.
  - rewrite Hc, Ho, Hb. simpl. by rewrite app_assoc.
  - rewrite length_app. lia.
  - apply Forall_app. split; [done|]. by rewrite <- Hid.
  - rewrite Hec in He2. lia.
  - rewrite Hec in He2. lia.
  - intros Ha. pose proof (Hs1 Ha) as E. rewrite E in Hs2. by apply Hs2.
  - intros Ha Hst2. destruct st1.
    + pose proof (Hs2 Hst) as E.
      assert (error_count c = ec2) as <- by (by rewrite Hc).
      rewrite E, Hec. by apply Hc1.
    + by apply Hc2.
Qed.

Lemma process_job_run env i job (w : World) :
  exists (l : list OrderInfo) (q nr : Z),
    (process_job env i job w).1.1
    = set_next_run nr (set_quantity q (set_orders (orders job ++ l) job))
    /\ (length l <= 1)%nat
    /\ Forall (fun o => o_job_id o = job_id job) l
    /\ (stopped job = true -> l = [] /\ q = quantity job /\ nr = next_run job).
Proof.
  assert (exists (l : list OrderInfo) (q nr : Z),
             job = set_next_run nr (set_quantity q (set_orders (orders job ++ l) job))
             /\ (length l <= 1)%nat
             /\ Forall (fun o => o_job_id o = job_id job) l
             /\ (stopped job = true -> l = [] /\ q = quantity job /\ nr = next_run job))
    as Hsame.
  { exists [], (quantity job), (next_run job). rewrite app_nil_r.
    split_and!; try done; [by destruct job | simpl; lia]. }
  unfold process_job.
  destruct (stopped job) eqn:Hs; [done|].
  destruct (if 0 <? next_run job then _ else _); [|done].
  destruct (next_run job <=? now env); [|done].
  destruct (user_data w !! user_id job) as [u|]; [|done].
  destruct (place_order _ _ _ _ _ _ _ _ w) as [[new_order timestamp] w1].
  destruct (calculate_next_quantity _ _ _) as [next|e].
  - eexists [_], next, (now env + frequency job * 60).
    split_and!; [by destruct (fromtimestamp env _) | simpl; lia | | done].
    by apply Forall_singleton.
  - eexists [_], (quantity job), (next_run job). simpl.
    split_and!; [done | lia | | done]. by apply Forall_singleton.
Qed.

Lemma tick_run env (w : World) i job :
  background_jobs w !! i = Some job ->
  exists job', background_jobs (scheduler_tick env w) !! i = Some job'
               /\ scheduler_run 1 job job'.
Proof.
  intros Hi. eexists. split; [apply (tick_position env w i job Hi)|].
  destruct (stopped job) eqn:Hs.
  { rewrite (process_job_stopped _ _ _ _ Hs).
    apply (scheduler_run_weaken 0 1); [lia|apply scheduler_run_refl]. }
  destruct (process_job_run env i job (world_before env w i)) as (l & q & nr & Heq & Hl & Hf & _).
  pose proof (process_job_keeps_flags env i job (world_before env w i)) as (Hk1 & Hk2 & Hk3).
  destruct (process_job env i job (world_before env w i)) as [[job1 w1] raised].
  simpl in *. destruct raised as [e|].
  - pose proof (handle_job_error_spec e job1) as (He1 & He2 & _).
    exists l, q, nr, (error_count (handle_job_error e job1)),
      (stopped (handle_job_error e job1)), (stopped_reason (handle_job_error e job1)).
    split_and!; try done.
    + rewrite <- Heq. clear. unfold handle_job_error. destruct job1. simpl.
      by destruct (5 <? _).
    + rewrite He1, Hk2. simpl. lia.
    + rewrite He1, Hk2. simpl. lia.
    + congruence.
    + intros _. rewrite He2, He1, Hk1, Hs, Hk2. simpl. intros H. by apply Z.ltb_lt in H.
  - exists l, q, nr, (error_count job), (stopped job), (stopped_reason job).
    split_and!; try done; [lia | congruence | congruence].
Qed.

Lemma run_length (envs : list TickEnv) (w : World) :
  length (background_jobs (process_automation_jobs envs w)) = length (background_jobs w).
Proof.
  induction envs as [|env envs IH] using rev_ind; [done|].
  rewrite process_automation_jobs_snoc. unfold scheduler_tick.
  by rewrite save_data_jobs, foldl_process_at_length.
Qed.

Lemma run_of_passes (envs : list TickEnv) (w : World) i job :
  background_jobs w !! i = Some job ->
  exists job', background_jobs (process_automation_jobs envs w) !! i = Some job'
               /\ scheduler_run (length envs) job job'.
Proof.
  intros Hi. induction envs as [|env envs IH] using rev_ind.
  - exists job. split; [done|apply scheduler_run_refl].
  - destruct IH as (job1 & H1 & R1).
    rewrite process_automation_jobs_snoc.
    destruct (tick_run env _ i job1 H1) as (job2 & H2 & R2).
    exists job2. split; [done|]. rewrite length_app. simpl.
    by apply (scheduler_run_trans _ _ job job1 job2).
Qed.

(** X6. The scheduler never deletes, moves or re-targets a job. After any
    number of passes the list has the same length, and the job at a position
    is the job that was there with new values under at most the six keys
    'orders', 'quantity', 'next_run', 'error_count', 'stopped' and
    'stopped_reason': its id, owner, panel, service, link, range, frequency,
    pause marks and stop marks are as before. *)
Theorem scheduler_changes_only_six_keys (envs : list TickEnv) (w : World) (i : nat) (job : Job) :
  background_jobs w !! i = Some job ->
  length (background_jobs (process_automation_jobs envs w)) = length (background_jobs w)
  /\ exists os q nr ec st r,
       background_jobs (process_automation_jobs envs w) !! i
       = Some (set_stopped_reason r (set_stopped st (set_error_count ec
                 (set_next_run nr (set_quantity q (set_orders os job)))))).
Proof.
  intros Hi. split; [apply run_length|].
  destruct (run_of_passes envs w i job Hi) as (job' & H & (l & q & nr & ec & st & r & -> & _)).
  by exists (orders job ++ l), q, nr, ec, st, r.
Qed.

Lemma scheduler_changes_only_six_keys_witness :
  exists os q nr ec st r,
    background_jobs (process_automation_jobs Sample.six_passes
                       (Sample.world [Sample.runaway_job])) !! 0%nat
    = Some (set_stopped_reason r (set_stopped st (set_error_count ec
              (set_next_run nr (set_quantity q (set_orders os Sample.runaway_job)))))).
Proof.
  apply (scheduler_changes_only_six_keys Sample.six_passes
           (Sample.world [Sample.runaway_job]) 0%nat Sample.runaway_job).
  reflexivity.
Defined.

(** X7. The order history of a job only grows, by at most one entry per pass.
    After any number of passes the history is the old history followed by
    new entries, no more than there were passes, and every new entry carries
    the id of the job. *)
Theorem history_is_append_only (envs : list TickEnv) (w : World) (i : nat) (job : Job) :
  background_jobs w !! i = Some job ->
  exists job' new,
    background_jobs (process_automation_jobs envs w) !! i = Some job'
    /\ orders job' = orders job ++ new
    /\ (length new <= length envs)%nat
    /\ Forall (fun o => o_job_id o = job_id job') new.
Proof.
  intros Hi.
  destruct (run_of_passes envs w i job Hi)
    as (job' & H & (l & q & nr & ec & st & r & -> & Hl & Hf & _)).
  eexists _, l. split; [exact H|]. done.
Qed.

Lemma history_is_append_only_witness :
  exists job' new,
    background_jobs (process_automation_jobs Sample.six_passes
                       (Sample.world [Sample.runaway_job])) !! 0%nat = Some job'
    /\ orders job' = orders Sample.runaway_job ++ new
    /\ (length new <= 6)%nat.
Proof.
  destruct (history_is_append_only Sample.six_passes
              (Sample.world [Sample.runaway_job]) 0%nat Sample.runaway_job eq_refl)
    as (job' & new & H1 & H2 & H3 & _).
  exists job', new. exact (conj H1 (conj H2 H3)).
Defined.

(** X8. The error count of a job never goes down and grows by at most one per
    pass; a stopped job stays exactly as it is; and a job that was running
    before the passes and is stopped after them has an error count above 5,
    while its 'stopped_at' and 'stopped_by' are as before: the scheduler
    stops a job through its error path only. *)
Theorem scheduler_error_count_and_stop (envs : list TickEnv) (w : World) (i : nat) (job : Job) :
  background_jobs w !! i = Some job ->
  exists job',
    background_jobs (process_automation_jobs envs w) !! i = Some job'
    /\ default 0 (error_count job) <= default 0 (error_count job')
       <= default 0 (error_count job) + Z.of_nat (length envs)
    /\ (stopped job = true -> job' = job)
    /\ (stopped job = false -> stopped job' = true ->
        5 < default 0 (error_count job')
        /\ stopped_at job' = stopped_at job /\ stopped_by job' = stopped_by job).
Proof.
  intros Hi.
  destruct (run_of_passes envs w i job Hi)
    as (job' & H & (l & q & nr & ec & st & r & Heq & Hl & Hf & He & Hs & Hc)).
  exists job'. split; [exact H|]. subst job'. simpl in *. split_and!; try done; try lia.
  intros Ha Hb. split; [by apply Hc|done].
Qed.

Lemma scheduler_error_count_and_stop_witness :
  exists job',
    background_jobs (process_automation_jobs Sample.six_passes
                       (Sample.world [Sample.runaway_job])) !! 0%nat = Some job'
    /\ default 0 (error_count Sample.runaway_job) <= default 0 (error_count job')
       <= default 0 (error_count Sample.runaway_job) + 6.
Proof.
  destruct (scheduler_error_count_and_stop Sample.six_passes
              (Sample.world [Sample.runaway_job]) 0%nat Sample.runaway_job eq_refl)
    as (job' & H1 & H2 & _).
  exists job'. exact (conj H1 H2).
Defined.

(** *** The counters of [bot_statistics] *)










(** ** The lifecycle operations *)

(** The three loops that look for one job: what they return. *)
Ltac first_match_induction jobs :=
  let j0 := fresh "j0" in
  let rest := fresh "rest" in
  let IH := fresh "IH" in
  let Hc := fresh "Hc" in
  let Hf := fresh "Hf" in
  let i := fresh "i" in
  let j := fresh "j" in
  let Hi := fresh "Hi" in
  let Hm := fresh "Hm" in
  let Hfirst := fresh "Hfirst" in
  let k := fresh "k" in
  let j' := fresh "j'" in
  let Hk := fresh "Hk" in
  let Hj := fresh "Hj" in
  let jobs' := fresh "jobs'" in
  induction jobs as [|j0 rest IH]; simpl;
  [ intros j Hj; by apply elem_of_nil in Hj | ];
  match goal with
  | |- context [if ?c then _ else _] => destruct c eqn:Hc
  end;
  [ exists 0%nat, j0; split_and!;
    [ done | done | intros k j' Hk; lia | done ]
  | match type of IH with
    | match ?f with _ => _ end => destruct f as [jobs'|] eqn:Hf
    end; simpl;
    [ destruct IH as (i & j & Hi & Hm & Hfirst & ->);
      exists (S i), j; split_and!;
      [ done | done
      | intros [|k] j' Hk Hj; simpl in Hj;
        [ injection Hj as <-; by rewrite Hc | apply (Hfirst k j'); [lia|done] ]
      | done ]
    | intros j Hj; apply elem_of_cons in Hj as [->|Hj]; [done|by apply IH] ] ].

Lemma pause_first_spec now_str job user (jobs : list Job) :
  match pause_first now_str job user jobs with
  | Some jobs' =>
      exists i j, jobs !! i = Some j
        /\ String.eqb (job_id j) job && String.eqb (user_id j) user = true
        /\ (forall k j', (k < i)%nat -> jobs !! k = Some j' ->
              String.eqb (job_id j') job && String.eqb (user_id j') user = false)
        /\ jobs' = <[i := set_paused_at (Is now_str) (set_paused (Some true) j)]> jobs
  | None => forall j, j ∈ jobs ->
              String.eqb (job_id j) job && String.eqb (user_id j) user = false
  end.
Proof. first_match_induction jobs. Qed.

Lemma resume_first_spec now_str time_now job user (jobs : list Job) :
  match resume_first now_str time_now job user jobs with
  | Some jobs' =>
      exists i j, jobs !! i = Some j
        /\ String.eqb (job_id j) job && String.eqb (user_id j) user = true
        /\ (forall k j', (k < i)%nat -> jobs !! k = Some j' ->
              String.eqb (job_id j') job && String.eqb (user_id j') user = false)
        /\ jobs' = <[i := set_next_run time_now
                            (set_resumed_at (Is now_str) (set_paused (Some false) j))]> jobs
  | None => forall j, j ∈ jobs ->
              String.eqb (job_id j) job && String.eqb (user_id j) user = false
  end.
Proof. first_match_induction jobs. Qed.

Lemma stop_first_spec now_str job by_user (jobs : list Job) :
  match stop_first now_str job by_user jobs with
  | Some jobs' =>
      exists i j, jobs !! i = Some j
        /\ String.eqb (job_id j) job = true
        /\ (forall k j', (k < i)%nat -> jobs !! k = Some j' ->
              String.eqb (job_id j') job = false)
        /\ jobs' = <[i := if truthy by_user
                           then set_stopped_by by_user
                                  (set_stopped_at (Some now_str) (set_stopped true j))
                           else set_stopped_at (Some now_str) (set_stopped true j)]> jobs
  | None => forall j, j ∈ jobs -> String.eqb (job_id j) job = false
  end.
Proof. first_match_induction jobs. Qed.

Lemma owned_eqb (job user : string) (j : Job) :
  String.eqb (job_id j) job && String.eqb (user_id j) user = true
  <-> job_id j = job /\ user_id j = user.
Proof. by rewrite andb_true_iff, !String.eqb_eq. Qed.

Lemma owned_eqb_false (job user : string) (j : Job) :
  String.eqb (job_id j) job && String.eqb (user_id j) user = false
  <-> ~ (job_id j = job /\ user_id j = user).
Proof. rewrite <- owned_eqb. by destruct (_ && _). Qed.

(** X11. A request on a job the requester does not own is refused. When no
    job has the given id together with the given owner, [pause_job] and
    [resume_job] return False, and so does the stop route for a requester
    who is not the administrator; the state, files included, is left as it
    was. *)
Theorem request_on_unowned_job_is_refused
    (now_str : string) (time_now : Z) (job user : string) (w : World) :
  (forall j, j ∈ background_jobs w -> ~ (job_id j = job /\ user_id j = user)) ->
  pause_job now_str job user w = (false, w)
  /\ resume_job now_str time_now job user w = (false, w)
  /\ (user <> ADMIN_USERNAME -> stop_job_route now_str job user w = (false, w)).
Proof.
  intros Hnone. split_and!.
  - unfold pause_job.
    pose proof (pause_first_spec now_str job user (background_jobs w)) as H.
    destruct (pause_first _ _ _ _); [|done].
    destruct H as (i & j & Hi & Hm & _). apply owned_eqb in Hm.
    destruct (Hnone j); [by eapply list_elem_of_lookup_2|done].
  - unfold resume_job.
    pose proof (resume_first_spec now_str time_now job user (background_jobs w)) as H.
    destruct (resume_first _ _ _ _ _); [|done].
    destruct H as (i & j & Hi & Hm & _). apply owned_eqb in Hm.
    destruct (Hnone j); [by eapply list_elem_of_lookup_2|done].
  - intros Hadmin. unfold stop_job_route.
    destruct (existsb _ _) eqn:E; [|done].
    apply existsb_exists in E as (j & Hj & Hm).
    apply andb_true_iff in Hm as [Hid Hown]. apply String.eqb_eq in Hid.
    apply orb_true_iff in Hown as [Hown|Hown]; apply String.eqb_eq in Hown; [|done].
    destruct (Hnone j); [by apply list_elem_of_In|done].
Qed.

Lemma request_on_unowned_job_is_refused_witness :
  pause_job "2023-11-14 22:20:00" "j1" "bob"
    (Sample.world [Sample.job "j1" 100 10 20 5 1700000000])
  = (false, Sample.world [Sample.job "j1" 100 10 20 5 1700000000]).
Proof.
  assert (forall j, j ∈ background_jobs (Sample.world [Sample.job "j1" 100 10 20 5 1700000000])
                    -> ~ (job_id j = "j1" /\ user_id j = "bob")) as Hnone.
  { intros j Hj [_ Hu]. apply list_elem_of_singleton in Hj. subst j. discriminate Hu. }
  exact (proj1 (request_on_unowned_job_is_refused "2023-11-14 22:20:00" 0 "j1" "bob"
                  (Sample.world [Sample.job "j1" 100 10 20 5 1700000000]) Hnone)).
Defined.

(** X12. [pause_job] marks the first job with the given id and owner and
    nothing else. It returns True, that job gets paused = True and the time
    under 'paused_at', every other key of it and every other job is as
    before, and the state is saved. *)
Theorem pause_job_marks_the_job (now_str : string) (w : World) (i : nat) (j : Job) :
  background_jobs w !! i = Some j ->
  (forall k j', (k < i)%nat -> background_jobs w !! k = Some j' ->
                ~ (job_id j' = job_id j /\ user_id j' = user_id j)) ->
  pause_job now_str (job_id j) (user_id j) w
  = (true,
     save_data (with_jobs (<[i := set_paused_at (Is now_str) (set_paused (Some true) j)]>
                             (background_jobs w)) w)).
Proof.
  intros Hi Hfirst. unfold pause_job.
  pose proof (pause_first_spec now_str (job_id j) (user_id j) (background_jobs w)) as H.
  destruct (pause_first _ _ _ _) as [jobs'|].
  - destruct H as (i0 & j0 & Hi0 & Hm0 & Hfirst0 & ->).
    apply owned_eqb in Hm0.
    destruct (Nat.lt_trichotomy i0 i) as [Hlt | [-> | Hlt]].
    + destruct (Hfirst i0 j0 Hlt Hi0). done.
    + rewrite Hi in Hi0. by injection Hi0 as ->.
    + specialize (Hfirst0 i j Hlt Hi). apply owned_eqb_false in Hfirst0. by destruct Hfirst0.
  - specialize (H j (list_elem_of_lookup_2 _ _ _ Hi)).
    apply owned_eqb_false in H. by destruct H.
Qed.

Lemma pause_job_marks_the_job_witness :
  pause_job "2023-11-14 22:20:00" "j1" "alice"
    (Sample.world [Sample.job "j1" 100 10 20 5 1700000000])
  = (true,
     save_data
       (with_jobs
          (<[0%nat := set_paused_at (Is "2023-11-14 22:20:00")
                        (set_paused (Some true) (Sample.job "j1" 100 10 20 5 1700000000))]>
             [Sample.job "j1" 100 10 20 5 1700000000])
          (Sample.world [Sample.job "j1" 100 10 20 5 1700000000]))).
Proof.
  apply (pause_job_marks_the_job "2023-11-14 22:20:00"
           (Sample.world [Sample.job "j1" 100 10 20 5 1700000000]) 0%nat
           (Sample.job "j1" 100 10 20 5 1700000000)).
  - reflexivity.
  - intros k j' Hk. lia.
Defined.

Lemma stop_first_at now_str by_user (jobs : list Job) (i : nat) (j : Job) :
  jobs !! i = Some j ->
  (forall k j', (k < i)%nat -> jobs !! k = Some j' -> job_id j' <> job_id j) ->
  stop_first now_str (job_id j) by_user jobs
  = Some (<[i := if truthy by_user
                 then set_stopped_by by_user
                        (set_stopped_at (Some now_str) (set_stopped true j))
                 else set_stopped_at (Some now_str) (set_stopped true j)]> jobs).
Proof.
  intros Hi Hfirst.
  pose proof (stop_first_spec now_str (job_id j) by_user jobs) as H.
  destruct (stop_first _ _ _ _) as [jobs'|].
  - destruct H as (i0 & j0 & Hi0 & Hm0 & Hfirst0 & ->).
    apply String.eqb_eq in Hm0.
    destruct (Nat.lt_trichotomy i0 i) as [Hlt | [-> | Hlt]].
    + destruct (Hfirst i0 j0 Hlt Hi0). done.
    + rewrite Hi in Hi0. by injection Hi0 as ->.
    + specialize (Hfirst0 i j Hlt Hi). by rewrite String.eqb_refl in Hfirst0.
  - specialize (H j (list_elem_of_lookup_2 _ _ _ Hi)). by rewrite String.eqb_refl in H.
Qed.

(** A stopped job is where it was after any number of passes. *)
Lemma run_keeps_stopped (envs : list TickEnv) (w : World) i job :
  background_jobs w !! i = Some job -> stopped job = true ->
  background_jobs (process_automation_jobs envs w) !! i = Some job.
Proof.
  intros Hi Hs.
  destruct (run_of_passes envs w i job Hi) as (job' & H & (l & q & nr & ec & st & r & H')).
  destruct H' as (_ & _ & _ & _ & Hsame & _). by rewrite H, (Hsame Hs).
Qed.

(** X13. The stop route stops the job for good. When the requester owns the
    job the id denotes (the first job with that id), or is the
    administrator, the route finds it, the job gets stopped = True, the time
    under 'stopped_at' and the requester under 'stopped_by', every other job
    is left as it was, and no later pass of the scheduler changes the job
    again: no order is placed for it any more. *)
Theorem stop_route_stops_for_good
    (now_str user : string) (w : World) (i : nat) (j : Job) (envs : list TickEnv) :
  background_jobs w !! i = Some j ->
  (forall k j', (k < i)%nat -> background_jobs w !! k = Some j' -> job_id j' <> job_id j) ->
  user_id j = user \/ user = ADMIN_USERNAME ->
  user <> "" ->
  (stop_job_route now_str (job_id j) user w).1 = true
  /\ background_jobs (stop_job_route now_str (job_id j) user w).2
     = <[i := set_stopped_by (Some user)
                (set_stopped_at (Some now_str) (set_stopped true j))]> (background_jobs w)
  /\ background_jobs
       (process_automation_jobs envs (stop_job_route now_str (job_id j) user w).2) !! i
     = Some (set_stopped_by (Some user)
               (set_stopped_at (Some now_str) (set_stopped true j))).
Proof.
  intros Hi Hfirst Hown Huser.
  assert (truthy (Some user) = true) as Ht.
  { simpl. apply negb_true_iff. by apply String.eqb_neq. }
  assert (stop_job_route now_str (job_id j) user w
          = (true, save_data (stop_job now_str (job_id j) (Some user) w).2)) as ->.
  { unfold stop_job_route.
    assert (existsb (fun j0 => String.eqb (job_id j0) (job_id j)
                               && (String.eqb (user_id j0) user
                                   || String.eqb user ADMIN_USERNAME))
              (background_jobs w) = true) as ->; [|done].
    apply existsb_exists. exists j. split.
    - apply list_elem_of_In. by eapply list_elem_of_lookup_2.
    - rewrite String.eqb_refl. simpl. apply orb_true_iff.
      destruct Hown as [<- | ->]; [left|right]; apply String.eqb_refl. }
  unfold stop_job. rewrite (stop_first_at now_str (Some user) _ i j Hi Hfirst), Ht.
  cbn [fst snd]. rewrite !save_data_jobs. cbn [with_jobs background_jobs].
  split_and!; [done|done|].
  apply run_keeps_stopped; [|done].
  rewrite !save_data_jobs. cbn [with_jobs background_jobs].
  apply list_lookup_insert_eq. by eapply lookup_lt_Some.
Qed.

Lemma stop_route_stops_for_good_witness :
  background_jobs
    (process_automation_jobs Sample.six_passes
       (stop_job_route "2023-11-14 22:20:00" "j1" "alice"
          (Sample.world [Sample.job "j1" 100 10 20 5 1700000000])).2) !! 0%nat
  = Some (set_stopped_by (Some "alice")
            (set_stopped_at (Some "2023-11-14 22:20:00")
               (set_stopped true (Sample.job "j1" 100 10 20 5 1700000000)))).
Proof.
  apply (stop_route_stops_for_good "2023-11-14 22:20:00" "alice"
           (Sample.world [Sample.job "j1" 100 10 20 5 1700000000]) 0%nat
           (Sample.job "j1" 100 10 20 5 1700000000) Sample.six_passes).
  - reflexivity.
  - intros k j' Hk. lia.
  - left. reflexivity.
  - discriminate.
Defined.

Lemma unique_id_position (jobs : list Job) (a b : nat) (x y : Job) :
  NoDup (job_id <$> jobs) -> jobs !! a = Some x -> jobs !! b = Some y ->
  job_id x = job_id y -> a = b.
Proof.
  intros Hnd Ha Hb Hid.
  apply (NoDup_lookup (job_id <$> jobs) a b (job_id x)); [done| |].
  - by rewrite list_lookup_fmap, Ha.
  - by rewrite list_lookup_fmap, Hb, Hid.
Qed.

(** X14. The stop route cannot touch another user's job. When job ids are
    unique and the requester is not the administrator, every job owned by
    someone else is, after the route has run with any id, exactly as it was
    before. *)
Theorem stop_route_spares_other_users_jobs
    (now_str job user : string) (w : World) (i : nat) (j : Job) :
  NoDup (job_id <$> background_jobs w) ->
  user <> ADMIN_USERNAME ->
  background_jobs w !! i = Some j ->
  user_id j <> user ->
  background_jobs (stop_job_route now_str job user w).2 !! i = Some j.
Proof.
  intros Hnd Hadmin Hi Hother. unfold stop_job_route.
  destruct (existsb _ _) eqn:E; [|done].
  apply existsb_exists in E as (j1 & Hj1 & Hm).
  apply andb_true_iff in Hm as [Hid Hown]. apply String.eqb_eq in Hid.
  apply orb_true_iff in Hown as [Hown|Hown]; apply String.eqb_eq in Hown; [|done].
  apply list_elem_of_In, list_elem_of_lookup_1 in Hj1 as [i1 Hi1].
  cbn [snd]. rewrite save_data_jobs. unfold stop_job.
  pose proof (stop_first_spec now_str job (Some user) (background_jobs w)) as H.
  destruct (stop_first _ _ _ _) as [jobs'|]; [|done].
  destruct H as (i0 & j0 & Hi0 & Hm0 & _ & ->). apply String.eqb_eq in Hm0.
  cbn [snd]. rewrite save_data_jobs. cbn [with_jobs background_jobs].
  assert (i0 = i1) as -> by (apply (unique_id_position _ _ _ j0 j1 Hnd); congruence).
  rewrite list_lookup_insert_ne; [done|].
  intros ->. congruence.
Qed.

Lemma stop_route_spares_other_users_jobs_witness :
  background_jobs
    (stop_job_route "2023-11-14 22:20:00" "j1" "bob"
       (Sample.world [Sample.job "j1" 100 10 20 5 1700000000])).2 !! 0%nat
  = Some (Sample.job "j1" 100 10 20 5 1700000000).
Proof.
  apply (stop_route_spares_other_users_jobs "2023-11-14 22:20:00" "j1" "bob"
           (Sample.world [Sample.job "j1" 100 10 20 5 1700000000]) 0%nat
           (Sample.job "j1" 100 10 20 5 1700000000)).
  - apply NoDup_singleton.
  - discriminate.
  - reflexivity.
  - discriminate.
Defined.

(** *** The bulk operations, composed *)

Lemma imap_same {A} (f : nat -> A -> A) (l : list A) :
  (forall i x, l !! i = Some x -> f i x = x) -> imap f l = l.
Proof.
  intros H. apply list_eq. intros i. rewrite list_lookup_imap.
  destruct (l !! i) as [x|] eqn:E; simpl; [|done]. by rewrite (H i x E).
Qed.

Lemma filter_none {A} (P : A -> Prop) `{forall x, Decision (P x)} (l : list A) :
  (forall x, x ∈ l -> ~ P x) -> filter P l = [].
Proof.
  induction l as [|x l IH]; intros Hl; [done|].
  rewrite filter_cons, decide_False by (apply Hl; left).
  apply IH. intros y Hy. apply Hl. by right.
Qed.

Lemma filter_imap_length {A} (P : A -> Prop) `{forall x, Decision (P x)} (l : list A) :
  forall g : nat -> A -> A,
    (forall i x, P (g i x) <-> P x) ->
    length (filter P (imap g l)) = length (filter P l).
Proof.
  induction l as [|x l IH]; intros g Hg; [done|].
  rewrite imap_cons, !filter_cons.
  destruct (decide (P x)) as [Hx|Hx].
  - rewrite decide_True by (by apply Hg). simpl. f_equal. apply IH. intros i y. apply Hg.
  - rewrite decide_False by (by rewrite Hg). apply IH. intros i y. apply Hg.
Qed.

(** A bulk operation on a group without running member does nothing. *)
Lemma bulk_apply_no_member (change : nat -> Job -> Job) (group user : string) (w : World) :
  (forall j, j ∈ background_jobs w -> in_group group user j = false) ->
  bulk_apply change group user w = (0, w).
Proof.
  intros Hnone. unfold bulk_apply.
  assert (filter (fun j => in_group group user j = true) (background_jobs w) = []) as ->.
  { apply filter_none. intros j Hj. by rewrite (Hnone j Hj). }
  simpl. rewrite imap_same; [by rewrite with_jobs_same|].
  intros i x Hx. by rewrite (Hnone x (list_elem_of_lookup_2 _ _ _ Hx)).
Qed.

Lemma bulk_apply_jobs (change : nat -> Job -> Job) (group user : string) (w : World) :
  background_jobs (bulk_apply change group user w).2
  = imap (fun i j => if in_group group user j then change i j else j) (background_jobs w).
Proof. unfold bulk_apply. simpl. by destruct (0 <? _). Qed.

(** X15. A stopped group is out of reach of the bulk operations. After
    [stop_bulk_jobs] on a group, each of [pause_bulk_jobs],
    [resume_bulk_jobs] and [stop_bulk_jobs] on the same group returns 0 and
    leaves the state, files included, as it is; in particular stopping a
    group twice stops nothing the second time. *)
Theorem stopped_group_is_out_of_reach (env env' : BulkEnv) (group user : string) (w : World) :
  pause_bulk_jobs env' group user (stop_bulk_jobs env group user w).2
  = (0, (stop_bulk_jobs env group user w).2)
  /\ resume_bulk_jobs env' group user (stop_bulk_jobs env group user w).2
     = (0, (stop_bulk_jobs env group user w).2)
  /\ stop_bulk_jobs env' group user (stop_bulk_jobs env group user w).2
     = (0, (stop_bulk_jobs env group user w).2).
Proof.
  assert (forall j, j ∈ background_jobs (stop_bulk_jobs env group user w).2 ->
                    in_group group user j = false) as Hnone.
  { intros j Hj. unfold stop_bulk_jobs in Hj. rewrite bulk_apply_jobs in Hj.
    apply list_elem_of_lookup_1 in Hj as [i Hi].
    rewrite list_lookup_imap in Hi.
    destruct (background_jobs w !! i) as [j0|]; [|done]. simpl in Hi.
    injection Hi as <-. destruct (in_group group user j0) eqn:E; [|done].
    unfold in_group. simpl. apply andb_false_r. }
  split_and!; by apply bulk_apply_no_member.
Qed.

(** X16. Pausing a group and then resuming it. The two operations return the
    same count; every member of the group ends with paused = False, with
    next_run at the clock reading of the resume and with both time marks set,
    and every other job is as it was before the pause. *)
Theorem bulk_pause_then_resume
    (env1 env2 : BulkEnv) (group user : string) (w : World) (i : nat) (j : Job) :
  background_jobs w !! i = Some j ->
  (resume_bulk_jobs env2 group user (pause_bulk_jobs env1 group user w).2).1
  = (pause_bulk_jobs env1 group user w).1
  /\ background_jobs
       (resume_bulk_jobs env2 group user (pause_bulk_jobs env1 group user w).2).2 !! i
     = Some (if in_group group user j
             then set_next_run (time_now_at env2 i)
                    (set_resumed_at (Is (now_str_at env2 i))
                       (set_paused_at (Is (now_str_at env1 i))
                          (set_paused (Some false) j)))
             else j).
Proof.
  intros Hi. split.
  - unfold resume_bulk_jobs, pause_bulk_jobs.
    rewrite (proj1 (bulk_apply_spec _ group user _)).
    rewrite (proj1 (bulk_apply_spec _ group user w)).
    rewrite bulk_apply_jobs. f_equal.
    apply (filter_imap_length (fun j => in_group group user j = true)).
    intros k x. destruct (in_group group user x) eqn:E; [|by rewrite E].
    split; [done|]. intros _. exact E.
  - unfold resume_bulk_jobs, pause_bulk_jobs.
    rewrite !bulk_apply_jobs, !list_lookup_imap, Hi. simpl.
    destruct (in_group group user j) eqn:E.
    + assert (in_group group user
                (set_paused_at (Is (now_str_at env1 i)) (set_paused (Some true) j)) = true)
        as -> by exact E.
      by destruct j.
    + by rewrite E.
Qed.

Lemma bulk_pause_then_resume_witness :
  (resume_bulk_jobs Sample.bulk_env "g1" "alice"
     (pause_bulk_jobs Sample.bulk_env "g1" "alice"
        (Sample.world [Sample.job "j1" 100 10 20 5 1700000000])).2).1
  = (pause_bulk_jobs Sample.bulk_env "g1" "alice"
       (Sample.world [Sample.job "j1" 100 10 20 5 1700000000])).1.
Proof.
  apply (bulk_pause_then_resume Sample.bulk_env Sample.bulk_env "g1" "alice"
           (Sample.world [Sample.job "j1" 100 10 20 5 1700000000]) 0%nat
           (Sample.job "j1" 100 10 20 5 1700000000)).
  reflexivity.
Defined.

(** ** Once stopped, always stopped *)

Lemma marked_refl (a : Job) : marked a a.
Proof.
  exists (paused a), (paused_at a), (resumed_at a), (next_run a), (stopped_at a), (stopped_by a).
  by destruct a.
Qed.

Lemma marked_trans (a b c : Job) : marked a b -> marked b c -> marked a c.
Proof.
  intros (p1 & pa1 & ra1 & nr1 & sa1 & sb1 & ->) (p2 & pa2 & ra2 & nr2 & sa2 & sb2 & ->).
  by exists p2, pa2, ra2, nr2, sa2, sb2.
Qed.

Lemma marked_stopped (a b : Job) : marked a b -> stopped b = stopped a.
Proof. by intros (p & pa & ra & nr & sa & sb & ->). Qed.

Lemma marked_insert (jobs : list Job) (i0 i : nat) (j0 j j0' : Job) :
  jobs !! i0 = Some j0 -> marked j0 j0' -> jobs !! i = Some j ->
  exists j', <[i0 := j0']> jobs !! i = Some j' /\ marked j j'.
Proof.
  intros Hi0 Hm Hi. destruct (decide (i0 = i)) as [->|Hne].
  - exists j0'. rewrite list_lookup_insert_eq by (by eapply lookup_lt_Some).
    split; [done|]. congruence.
  - exists j. rewrite list_lookup_insert_ne by done. split; [done|apply marked_refl].
Qed.

(** One operation leaves a stopped job stopped, and only marks it. *)
Lemma operation_keeps_stopped (w w' : World) (i : nat) (j : Job) :
  operation w w' -> background_jobs w !! i = Some j -> stopped j = true ->
  exists j', background_jobs w' !! i = Some j' /\ marked j j'.
Proof.
  intros Hop Hi Hs. destruct Hop.
  - exists j. split; [by apply tick_keeps_stopped|apply marked_refl].
  - unfold pause_job.
    pose proof (pause_first_spec now_str job user (background_jobs w)) as H.
    destruct (pause_first _ _ _ _) as [jobs'|]; cbn [snd];
      [|exists j; split; [done|apply marked_refl]].
    destruct H as (i0 & j0 & Hi0 & _ & _ & ->). rewrite save_data_jobs.
    cbn [with_jobs background_jobs]. apply (marked_insert _ i0 i j0 j); try done.
    exists (Some true), (Is now_str), (resumed_at j0), (next_run j0), (stopped_at j0),
      (stopped_by j0). by destruct j0.
  - unfold resume_job.
    pose proof (resume_first_spec now_str time_now job user (background_jobs w)) as H.
    destruct (resume_first _ _ _ _ _) as [jobs'|]; cbn [snd];
      [|exists j; split; [done|apply marked_refl]].
    destruct H as (i0 & j0 & Hi0 & _ & _ & ->). rewrite save_data_jobs.
    cbn [with_jobs background_jobs]. apply (marked_insert _ i0 i j0 j); try done.
    exists (Some false), (paused_at j0), (Is now_str), time_now, (stopped_at j0),
      (stopped_by j0). by destruct j0.
  - unfold stop_job.
    pose proof (stop_first_spec now_str job by_user (background_jobs w)) as H.
    destruct (stop_first _ _ _ _) as [jobs'|]; cbn [snd];
      [|exists j; split; [done|apply marked_refl]].
    destruct H as (i0 & j0 & Hi0 & _ & _ & ->). rewrite save_data_jobs.
    cbn [with_jobs background_jobs].
    destruct (decide (i0 = i)) as [->|Hne].
    + assert (j0 = j) as -> by congruence.
      eexists. rewrite list_lookup_insert_eq by (by eapply lookup_lt_Some).
      split; [done|].
      destruct (truthy by_user).
      * exists (paused j), (paused_at j), (resumed_at j), (next_run j), (Some now_str), by_user.
        destruct j; simpl in *; by subst.
      * exists (paused j), (paused_at j), (resumed_at j), (next_run j), (Some now_str),
          (stopped_by j).
        destruct j; simpl in *; by subst.
    + exists j. rewrite list_lookup_insert_ne by done. split; [done|apply marked_refl].
  - unfold stop_job_route.
    destruct (existsb _ _); cbn [snd]; [|exists j; split; [done|apply marked_refl]].
    rewrite save_data_jobs. unfold stop_job.
    pose proof (stop_first_spec now_str job (Some user) (background_jobs w)) as H.
    destruct (stop_first _ _ _ _) as [jobs'|]; cbn [snd];
      [|exists j; split; [done|apply marked_refl]].
    destruct H as (i0 & j0 & Hi0 & _ & _ & ->). rewrite save_data_jobs.
    cbn [with_jobs background_jobs].
    destruct (decide (i0 = i)) as [->|Hne].
    + assert (j0 = j) as -> by congruence.
      eexists. rewrite list_lookup_insert_eq by (by eapply lookup_lt_Some).
      split; [done|].
      destruct (truthy (Some user)).
      * exists (paused j), (paused_at j), (resumed_at j), (next_run j), (Some now_str),
          (Some user).
        destruct j; simpl in *; by subst.
      * exists (paused j), (paused_at j), (resumed_at j), (next_run j), (Some now_str),
          (stopped_by j).
        destruct j; simpl in *; by subst.
    + exists j. rewrite list_lookup_insert_ne by done. split; [done|apply marked_refl].
  - exists j. split; [|apply marked_refl].
    unfold pause_bulk_jobs. rewrite bulk_apply_jobs, list_lookup_imap, Hi. simpl.
    unfold in_group. by rewrite Hs, andb_false_r.
  - exists j. split; [|apply marked_refl].
    unfold resume_bulk_jobs. rewrite bulk_apply_jobs, list_lookup_imap, Hi. simpl.
    unfold in_group. by rewrite Hs, andb_false_r.
  - exists j. split; [|apply marked_refl].
    unfold stop_bulk_jobs. rewrite bulk_apply_jobs, list_lookup_imap, Hi. simpl.
    unfold in_group. by rewrite Hs, andb_false_r.
  - exists j. split; [|apply marked_refl].
    unfold setup_automation.
    destruct (f_bulk_mode f && _); [done|].
    destruct (f_individual_settings f && f_bulk_mode f).
    + destruct (f_service_configs f); [done|].
      cbn [snd]. rewrite save_data_jobs. cbn [with_jobs background_jobs].
      by apply lookup_app_l_Some.
    + cbn [snd]. rewrite save_data_jobs. cbn [with_jobs background_jobs].
      by apply lookup_app_l_Some.
  - exists j. split; [|apply marked_refl].
    unfold create_jobs_from_telegram.
    destruct (mapM _ _); [|done].
    cbn [snd]. rewrite save_data_jobs. cbn [with_jobs background_jobs].
    by apply lookup_app_l_Some.
  - exists j. split; [by rewrite save_data_jobs|apply marked_refl].
Qed.

(** X17. Once stopped, always stopped. Through any sequence of scheduler
    passes, pause, resume and stop requests (single or bulk, by anyone) and
    creation requests, a stopped job stays at its position and stays
    stopped; only its pause marks, its stop marks and next_run can be
    rewritten. Its order history, its quantity and its error count are as
    they were when it was stopped: nothing is ordered for it again. *)
Theorem stopped_is_final (w w' : World) (i : nat) (j : Job) :
  rtc operation w w' ->
  background_jobs w !! i = Some j ->
  stopped j = true ->
  exists (p : option bool) (pa ra : entry string) (nr : Z) (sa sb : option string),
    background_jobs w' !! i
    = Some (set_paused p (set_paused_at pa (set_resumed_at ra
              (set_next_run nr (set_stopped_at sa (set_stopped_by sb j)))))).
Proof.
  intros Hrun Hi Hs.
  assert (exists j', background_jobs w' !! i = Some j' /\ marked j j') as (j' & Hj' & Hm).
  { revert j Hi Hs. induction Hrun as [w|w1 w2 w3 Hop _ IH]; intros j Hi Hs.
    - exists j. split; [done|apply marked_refl].
    - destruct (operation_keeps_stopped w1 w2 i j Hop Hi Hs) as (j2 & H2 & M2).
      destruct (IH j2 H2) as (j3 & H3 & M3).
      + by rewrite (marked_stopped j j2 M2).
      + exists j3. split; [done|]. by apply (marked_trans j j2 j3). }
  destruct Hm as (p & pa & ra & nr & sa & sb & ->).
  by exists p, pa, ra, nr, sa, sb.
Qed.

Lemma stopped_is_final_witness :
  exists (p : option bool) (pa ra : entry string) (nr : Z) (sa sb : option string),
    background_jobs
      (scheduler_tick (Sample.pass 1700000500 Sample.accepted)
         (resume_job "2023-11-14 22:20:00" 1700000400 "j1" "alice"
            (Sample.world [Sample.stopped_job])).2) !! 0%nat
    = Some (set_paused p (set_paused_at pa (set_resumed_at ra
              (set_next_run nr (set_stopped_at sa (set_stopped_by sb Sample.stopped_job)))))).
Proof.
  apply (stopped_is_final (Sample.world [Sample.stopped_job])).
  - eapply rtc_l; [apply op_resume|]. apply rtc_once. apply op_tick.
  - reflexivity.
  - reflexivity.
Defined.

(** ** The creation form *)

(** Two nested [for] loops: the pairs in the order the loops visit them. *)
Lemma pairs_length {A B} (xs : list A) (ys : list B) :
  length (x ← xs; (fun y => (x, y)) <$> ys) = (length xs * length ys)%nat.
Proof.
  induction xs as [|x xs IH]; [done|].
  rewrite bind_cons, length_app, length_fmap, IH. simpl. lia.
Qed.

Lemma pairs_lookup {A B} (xs : list A) (ys : list B) (a b : nat) (x : A) (y : B) :
  xs !! a = Some x -> ys !! b = Some y ->
  (x ← xs; (fun y => (x, y)) <$> ys) !! (a * length ys + b)%nat = Some (x, y).
Proof.
  revert a. induction xs as [|x0 xs IH]; intros a Ha Hb; [done|].
  rewrite bind_cons. destruct a as [|a]; simpl in Ha.
  - injection Ha as ->. simpl.
    rewrite lookup_app_l by (rewrite length_fmap; by eapply lookup_lt_Some).
    by rewrite list_lookup_fmap, Hb.
  - rewrite lookup_app_r by (rewrite length_fmap; simpl; lia).
    rewrite length_fmap.
    replace (S a * length ys + b - length ys)%nat with (a * length ys + b)%nat by (simpl; lia).
    by apply IH.
Qed.

Lemma clamp_frequency_ge (frequency : Z) : 5 <= clamp_frequency frequency.
Proof. unfold clamp_frequency. destruct (frequency <? 5) eqn:E; lia. Qed.

(** X18. The plain form creates one job per link and service id. When the
    request is not turned away and individual settings are off, the form
    creates [number of links] times [1 + number of extra service ids] jobs,
    appends them after the existing jobs and saves; the job for the [a]-th
    link and the [b]-th service id is at position [a * services + b] of the
    new jobs, belongs to the requester, carries the form's quantity, has a
    frequency of at least 5 minutes (a smaller one is raised to 5), is not
    stopped, has an empty history and is due at once. *)
Theorem plain_form_creates_cross_product
    (env : CreateEnv) (user : string) (f : Form) (w : World) :
  f_individual_settings f && f_bulk_mode f = false ->
  (f_bulk_mode f = true -> f_bulk_links f <> [] /\ (length (f_bulk_links f) <= 10)%nat) ->
  exists created : list Job,
    setup_automation env user f w
    = (Some created, save_data (with_jobs (background_jobs w ++ created) w))
    /\ length created
       = (length (if f_bulk_mode f then f_bulk_links f else [f_link f])
          * S (length (f_bulk_service_ids f)))%nat
    /\ forall (a b : nat) (l sid : string),
         (if f_bulk_mode f then f_bulk_links f else [f_link f]) !! a = Some l ->
         (f_service_id f :: f_bulk_service_ids f) !! b = Some sid ->
         exists job,
           created !! (a * S (length (f_bulk_service_ids f)) + b)%nat = Some job
           /\ link job = l /\ service_id job = sid /\ user_id job = user
           /\ quantity job = f_quantity f
           /\ frequency job = clamp_frequency (f_frequency f) /\ 5 <= frequency job
           /\ stopped job = false /\ orders job = [] /\ error_count job = None
           /\ next_run job
              = time_at env ((if f_bulk_mode f then 1 else 0)
                             + (a * S (length (f_bulk_service_ids f)) + b))%nat.
Proof.
  intros Hind Hbulk. unfold setup_automation. rewrite Hind.
  assert (f_bulk_mode f
          && (bool_decide ((if f_bulk_mode f then f_bulk_links f else [f_link f]) = [])
              || (10 <? length (if f_bulk_mode f then f_bulk_links f else [f_link f]))%nat)
          = false) as ->.
  { destruct (f_bulk_mode f); [|done]. destruct (Hbulk eq_refl) as [Hne Hlen].
    simpl. rewrite bool_decide_eq_false_2 by done. simpl. apply Nat.ltb_ge. lia. }
  eexists. split; [reflexivity|].
  split; [by rewrite length_imap, pairs_length|].
  intros a b l sid Ha Hb.
  eexists. rewrite list_lookup_imap.
  pose proof (pairs_lookup _ (f_service_id f :: f_bulk_service_ids f) a b l sid Ha Hb) as Hp.
  cbn [length] in Hp. rewrite Hp.
  simpl. split_and!; try done. apply clamp_frequency_ge.
Qed.

Lemma plain_form_creates_cross_product_witness :
  exists created : list Job,
    setup_automation Sample.create_env "alice" Sample.bulk_form (Sample.world [])
    = (Some created,
       save_data (with_jobs (background_jobs (Sample.world []) ++ created) (Sample.world [])))
    /\ length created
       = (length (f_bulk_links Sample.bulk_form)
          * S (length (f_bulk_service_ids Sample.bulk_form)))%nat.
Proof.
  destruct (plain_form_creates_cross_product Sample.create_env "alice" Sample.bulk_form
              (Sample.world [])) as (created & H1 & H2 & _).
  - reflexivity.
  - intros _. split; [discriminate|]. vm_compute. lia.
  - exists created. exact (conj H1 H2).
Defined.

(** X19. The form with individual settings creates one job per service
    configuration and link. In bulk mode with individual settings, at least
    one configuration and one to ten links, the form creates [number of
    configurations] times [number of links] jobs, appended after the
    existing jobs; the job for the [a]-th configuration and the [b]-th link
    is at position [a * links + b], takes service id and quantity from the
    configuration, has a frequency of at least 5 minutes, and all the jobs
    carry the same group id, built from the first uuid drawn. *)
Theorem individual_form_creates_cross_product
    (env : CreateEnv) (user : string) (f : Form) (w : World) :
  f_bulk_mode f = true -> f_individual_settings f = true ->
  f_bulk_links f <> [] -> (length (f_bulk_links f) <= 10)%nat ->
  f_service_configs f <> [] ->
  exists created : list Job,
    setup_automation env user f w
    = (Some created, save_data (with_jobs (background_jobs w ++ created) w))
    /\ length created = (length (f_service_configs f) * length (f_bulk_links f))%nat
    /\ forall (a b : nat) (c : ServiceConfig) (l : string),
         f_service_configs f !! a = Some c ->
         f_bulk_links f !! b = Some l ->
         exists job,
           created !! (a * length (f_bulk_links f) + b)%nat = Some job
           /\ service_id job = c_service_id c /\ link job = l /\ user_id job = user
           /\ quantity job = c_quantity c
           /\ frequency job = clamp_frequency (c_frequency c) /\ 5 <= frequency job
           /\ bulk_group_id job = Is ("bulk_" +:+ uuid4 env 0)
           /\ stopped job = false /\ paused job = Some false /\ orders job = [].
Proof.
  intros Hb Hi Hne Hlen Hc. unfold setup_automation. rewrite Hb, Hi.
  assert (true && (bool_decide (f_bulk_links f = []) || (10 <? length (f_bulk_links f))%nat)
          = false) as ->.
  { simpl. rewrite bool_decide_eq_false_2 by done. simpl. apply Nat.ltb_ge. lia. }
  cbn [andb]. destruct (f_service_configs f) as [|c0 cs] eqn:E; [done|].
  eexists. split; [reflexivity|].
  split; [by rewrite length_imap, pairs_length|].
  intros a b c l Ha Hbl.
  eexists. rewrite list_lookup_imap.
  rewrite (pairs_lookup (c0 :: cs) (f_bulk_links f) a b c l Ha Hbl).
  simpl. split_and!; try done. apply clamp_frequency_ge.
Qed.

Lemma individual_form_creates_cross_product_witness :
  exists created : list Job,
    setup_automation Sample.create_env "alice" Sample.individual_form (Sample.world [])
    = (Some created,
       save_data (with_jobs (background_jobs (Sample.world []) ++ created) (Sample.world [])))
    /\ length created
       = (length (f_service_configs Sample.individual_form)
          * length (f_bulk_links Sample.individual_form))%nat.
Proof.
  destruct (individual_form_creates_cross_product Sample.create_env "alice"
              Sample.individual_form (Sample.world [])) as (created & H1 & H2 & _).
  - reflexivity.
  - reflexivity.
  - discriminate.
  - vm_compute. lia.
  - discriminate.
  - exists created. exact (conj H1 H2).
Defined.

(** X20. What the form turns away. In bulk mode a request without links, with
    more than ten links, or with individual settings and no service
    configuration creates nothing and leaves the state, files included, as
    it was. *)
Theorem form_rejects_bad_bulk_request
    (env : CreateEnv) (user : string) (f : Form) (w : World) :
  f_bulk_mode f = true ->
  f_bulk_links f = [] \/ (10 < length (f_bulk_links f))%nat
  \/ (f_individual_settings f = true /\ f_service_configs f = []) ->
  setup_automation env user f w = (None, w).
Proof.
  intros Hb Hbad. unfold setup_automation. rewrite Hb. cbn [andb].
  destruct (bool_decide (f_bulk_links f = []) || (10 <? length (f_bulk_links f))%nat) eqn:E;
    [done|].
  apply orb_false_iff in E as [E1 E2].
  apply bool_decide_eq_false in E1. apply Nat.ltb_ge in E2.
  destruct Hbad as [H | [H | [Hi Hc]]]; [done|lia|].
  by rewrite Hi, Hc.
Qed.

Lemma form_rejects_bad_bulk_request_witness :
  setup_automation Sample.create_env "alice"
    {| f_api_url := "https://panel.example/api/v2"; f_api_key := "k";
       f_service_id := "1"; f_bulk_service_ids := []; f_quantity := 100;
       f_increase_min := Py.lit_1_1; f_increase_max := Py.lit_1_1; f_frequency := 5;
       f_bulk_mode := true; f_individual_settings := false; f_bulk_links := [];
       f_link := ""; f_service_configs := [] |} (Sample.world [])
  = (None, Sample.world []).
Proof.
  apply form_rejects_bad_bulk_request.
  - reflexivity.
  - left. reflexivity.
Defined.

(** X21. The conversational creation with an empty list. When one of the four
    lists (urls, keys, links, service ids) is empty, the creation returns 0
    and the job list is what it was: the index error of the first job is
    caught, or there was no job to build. *)
Theorem telegram_creation_with_empty_list
    (env : CreateEnv) (user : string) (d : JobData) (w : World) :
  api_urls d = [] \/ api_keys d = [] \/ target_links d = [] \/ service_ids d = [] ->
  (create_jobs_from_telegram env user d w).1 = 0
  /\ background_jobs (create_jobs_from_telegram env user d w).2 = background_jobs w.
Proof.
  intros Hempty. unfold create_jobs_from_telegram.
  set (n := if (10 <? _)%nat then 10%nat else _). clearbody n.
  destruct n as [|n].
  - simpl. rewrite app_nil_r. done.
  - assert (telegram_job env user d 0 = None) as H0.
    { unfold telegram_job, pick.
      destruct Hempty as [-> | [-> | [-> | ->]]]; simpl;
        repeat (match goal with
                | |- context [if ?c then _ else _] => destruct c
                end);
        repeat (match goal with
                | |- context [?l !! 0%nat] => destruct (l !! 0%nat); simpl
                end); done. }
    assert (mapM (telegram_job env user d) (seq 0 (S n)) = None) as ->; [|done].
    simpl. by rewrite H0.
Qed.

Lemma telegram_creation_with_empty_list_witness :
  (create_jobs_from_telegram Sample.create_env "alice"
     {| api_urls := ["https://panel.example/api/v2"]; api_keys := [];
        target_links := ["https://example.org/p"]; service_ids := ["1"];
        jd_quantity := 100; jd_increase_min := Py.lit_1_1; jd_increase_max := Py.lit_1_1;
        jd_frequency := 60 |} (Sample.world [])).1 = 0.
Proof.
  apply telegram_creation_with_empty_list. right. left. reflexivity.
Defined.

(** ** The store: what a save leaves on disk *)

Lemma store_names_nodup td (w : World) :
  td = "data/temp" \/ td = "data" ->
  NoDup ((data_files td w).*1 ++ (final_file td <$> (data_files td w).*1)).
Proof.
  intros Htd.
  change ((data_files td w).*1)
    with [td +:+ "/user_data.json.tmp"; td +:+ "/activation_keys.json.tmp";
          td +:+ "/active_users.json.tmp"; td +:+ "/bot_statistics.json.tmp";
          td +:+ "/background_jobs.json.tmp";
          td +:+ "/telegram_verification_codes.json.tmp"].
  destruct Htd as [-> | ->]; apply (bool_decide_unpack _); vm_compute; reflexivity.
Qed.


(** After the second loop no temporary file is left. *)
Lemma move_phase_removes td (es : list (string * Document)) (m : gmap string Document) e :
  NoDup (es.*1 ++ (final_file td <$> es.*1)) ->
  (forall e', e' ∈ es -> is_Some (m !! e'.1)) ->
  e ∈ es ->
  foldl (move_temp td) m es !! e.1 = None.
Proof.
  revert m. induction es as [|e0 es IH]; intros m Hnd Hm He; [by apply elem_of_nil in He|].
  simpl in Hnd. apply NoDup_cons in Hnd as [Hnotin Hnd].
  pose proof Hnd as Hnd'.
  apply NoDup_app in Hnd as (Hnd1 & Hdisj & Hnd2).
  apply NoDup_cons in Hnd2 as [Hf0 Hnd2].
  rewrite not_elem_of_app, not_elem_of_cons in Hnotin.
  destruct Hnotin as (Ht0 & Ht0f & Ht0fs).
  destruct (Hm e0) as [doc Hdoc]; [left|].
  simpl. unfold move_temp at 2. rewrite Hdoc.
  apply elem_of_cons in He as [->|He].
  - rewrite move_phase_other by done.
    rewrite lookup_insert_ne by done. by rewrite lookup_delete_eq.
  - apply IH; [|  |done].
    + apply NoDup_app. split_and!; [done| |done].
      intros x Hx Hxf. apply (Hdisj x Hx). by right.
    + intros e' He'.
      assert (e'.1 ∈ es.*1) as Hin by (by apply list_elem_of_fmap_2).
      rewrite lookup_insert_ne.
      * rewrite lookup_delete_ne by (intros Heq; apply Ht0; by rewrite Heq).
        rewrite lookup_delete_ne; [apply Hm; by right|].
        intros Heq. apply (Hdisj e'.1 Hin). apply elem_of_cons. left. congruence.
      * intros Heq. apply (Hdisj e'.1 Hin). apply elem_of_cons. left. congruence.
Qed.

Lemma saved_temp td (w : World) (m : gmap string Document) e :
  td = "data/temp" \/ td = "data" ->
  e ∈ data_files td w ->
  foldl (move_temp td) (foldl write_temp m (data_files td w)) (data_files td w) !! e.1 = None.
Proof.
  intros Htd He. pose proof (store_names_nodup td w Htd) as Hnd.
  apply move_phase_removes; [done| |done].
  intros e' He'. rewrite write_phase; [done| |done].
  by apply NoDup_app in Hnd as (? & _).
Qed.

Lemma saved_other td (w : World) (m : gmap string Document) k :
  k ∉ (data_files td w).*1 -> k ∉ (final_file td <$> (data_files td w).*1) ->
  foldl (move_temp td) (foldl write_temp m (data_files td w)) (data_files td w) !! k = m !! k.
Proof. intros H1 H2. by rewrite move_phase_other, write_phase_other. Qed.


Lemma save_data_files_eq (w : World) (m : gmap string Document) :
  (forall k, files (fs (save_data w)) !! k = m !! k) ->
  save_data w = with_fs {| files := m; temp_dir_usable := temp_dir_usable (fs w) |} w.
Proof.
  intros H. apply map_eq in H. rewrite <- H. reflexivity.
Qed.

(** X23. Saving twice is saving once. A second [save_data] right after the
    first leaves the state, files included, exactly as the first left it. *)
Theorem save_data_is_idempotent (w : World) : save_data (save_data w) = save_data w.
Proof.
  set (td := if temp_dir_usable (fs w) then "data/temp" else "data").
  assert (td = "data/temp" \/ td = "data") as Htd
    by (subst td; destruct (temp_dir_usable (fs w)); auto).
  rewrite (save_data_files_eq (save_data w) (files (fs (save_data w)))).
  { by destruct w. }
  intros k.
  change (files (fs (save_data (save_data w))))
    with (foldl (move_temp td) (foldl write_temp (files (fs (save_data w))) (data_files td w))
            (data_files td w)).
  destruct (decide (k ∈ (data_files td w).*1)) as [Hk|Hk].
  - apply list_elem_of_fmap in Hk as (e & -> & He).
    rewrite saved_temp by done. symmetry. by apply saved_temp.
  - destruct (decide (k ∈ final_file td <$> (data_files td w).*1)) as [Hf|Hf].
    + apply list_elem_of_fmap in Hf as (t & -> & Ht).
      apply list_elem_of_fmap in Ht as (e & -> & He).
      rewrite saved_file by done. symmetry. by apply saved_file.
    + by apply saved_other.
Qed.

(** X24. After a save, memory and disk agree. Loading right after a save
    changes nothing: all six collections read from the files are the
    collections in memory. *)
Theorem load_after_save_changes_nothing (w : World) :
  load_data (save_data w) = save_data w.
Proof.
  set (td := if temp_dir_usable (fs w) then "data/temp" else "data").
  assert (td = "data/temp" \/ td = "data") as Htd
    by (subst td; destruct (temp_dir_usable (fs w)); auto).
  assert (forall e, e ∈ data_files td w ->
            files (fs (save_data w)) !! final_file td e.1 = Some e.2) as Hsaved
    by (intros e He; by apply saved_file).
  pose proof (Hsaved (td +:+ "/user_data.json.tmp", DocUsers (user_data w))) as H1.
  pose proof (Hsaved (td +:+ "/activation_keys.json.tmp",
                      DocJson (Py.JDict (activation_keys w)))) as H2.
  pose proof (Hsaved (td +:+ "/active_users.json.tmp",
                      DocJson (Py.JList (active_users w)))) as H3.
  pose proof (Hsaved (td +:+ "/bot_statistics.json.tmp",
                      DocStatistics (bot_statistics w))) as H4.
  pose proof (Hsaved (td +:+ "/background_jobs.json.tmp", DocJobs (background_jobs w))) as H5.
  pose proof (Hsaved (td +:+ "/telegram_verification_codes.json.tmp",
                      DocJson (Py.JDict (telegram_verification_codes w)))) as H6.
  assert (final_file td (td +:+ "/user_data.json.tmp") = "data/user_data.json"
          /\ final_file td (td +:+ "/activation_keys.json.tmp") = "data/activation_keys.json"
          /\ final_file td (td +:+ "/active_users.json.tmp") = "data/active_users.json"
          /\ final_file td (td +:+ "/bot_statistics.json.tmp") = "data/bot_statistics.json"
          /\ final_file td (td +:+ "/background_jobs.json.tmp") = "data/background_jobs.json"
          /\ final_file td (td +:+ "/telegram_verification_codes.json.tmp")
             = "data/telegram_verification_codes.json")
    as (E1 & E2 & E3 & E4 & E5 & E6)
    by (destruct Htd as [-> | ->]; repeat split; vm_compute; reflexivity).
  cbn [fst snd] in *. rewrite E1 in H1. rewrite E2 in H2. rewrite E3 in H3.
  rewrite E4 in H4. rewrite E5 in H5. rewrite E6 in H6.
  unfold load_data.
  rewrite H1, H2, H3, H4, H5, H6;
    try (unfold data_files;
         first [ apply list_elem_of_here
               | do 1 apply list_elem_of_further; apply list_elem_of_here
               | do 2 apply list_elem_of_further; apply list_elem_of_here
               | do 3 apply list_elem_of_further; apply list_elem_of_here
               | do 4 apply list_elem_of_further; apply list_elem_of_here
               | do 5 apply list_elem_of_further; apply list_elem_of_here ]).
  by destruct w.
Qed.

(** ** Dispatch: one order, recorded three times *)

(** X10. A dispatched order is recorded consistently. When the pass reaches a
    due job that is not stopped and whose owner has a user record, then,
    whether or not the computation of the next quantity fails afterwards,
    the job's turn sends exactly one request to the panel, for the job's
    service, link and current quantity, and appends one and the same entry
    to the job's history and to the owner's order list. *)
Theorem dispatched_order_is_recorded (env : TickEnv) (w : World) (i : nat) (job : Job) :
  background_jobs w !! i = Some job ->
  stopped job = false ->
  next_run job <= now env ->
  is_Some (user_data w !! user_id job) ->
  (forall t, t = next_run job \/ t = now env -> exists s, fromtimestamp env t = Py.Ok s) ->
  exists info job',
    background_jobs (world_before env w (S i)) !! i = Some job'
    /\ orders job' = orders job ++ [info]
    /\ get_user_orders (user_id job) (world_before env w (S i))
       = get_user_orders (user_id job) (world_before env w i) ++ [info]
    /\ panel_log (world_before env w (S i))
       = panel_log (world_before env w i)
         ++ [{| p_url := api_url job; p_key := api_key job; p_action := "add";
                p_service := service_id job; p_link := link job;
                p_quantity := quantity job |}]
    /\ o_quantity info = quantity job /\ o_job_id info = job_id job
    /\ o_service_id info = service_id job /\ o_link info = link job.
Proof.
  intros Hi Hs Hdue Hu Hts.
  assert (is_Some (user_data (world_before env w i) !! user_id job)) as [user Huser]
    by (by apply foldl_process_at_user_presence).
  assert (background_jobs (world_before env w i) !! i = Some job) as Hi0
    by (by rewrite world_before_lookup).
  rewrite world_before_S. unfold process_at, get_user_orders.
  rewrite Hi0, Huser.
  set (w0 := world_before env w i) in *. clearbody w0.
  unfold process_job. rewrite Hs.
  destruct (Hts (next_run job)) as [s1 H1]; [auto|].
  destruct (Hts (now env)) as [s2 H2]; [auto|].
  rewrite H1, H2. simpl.
  assert ((if 0 <? next_run job then Py.Ok s2 else Py.Ok "")
          = Py.Ok (if 0 <? next_run job then s2 else "")) as -> by (by destruct (0 <? _)).
  apply Z.leb_le in Hdue. rewrite Hdue, Huser.
  pose proof (place_order_users (panel_reply env i) (order_time env i) (api_url job)
                (api_key job) (service_id job) (link job) (quantity job) (user_id job) w0) as HU.
  pose proof (place_order_panel_log (panel_reply env i) (order_time env i) (api_url job)
                (api_key job) (service_id job) (link job) (quantity job) (user_id job) w0) as HP.
  pose proof (place_order_jobs (panel_reply env i) (order_time env i) (api_url job)
                (api_key job) (service_id job) (link job) (quantity job) (user_id job) w0) as HJ.
  destruct (place_order _ _ _ _ _ _ _ _ w0) as [[new_order timestamp] w1].
  simpl in HU, HP, HJ.
  assert (i < length (background_jobs w1))%nat as Hlen
    by (rewrite HJ; by eapply lookup_lt_Some).
  destruct (calculate_next_quantity _ _ _) as [next|e];
    [destruct (fromtimestamp env (now env + frequency job * 60))|];
    eexists _, _; cbn [with_jobs with_users background_jobs user_data panel_log];
    rewrite list_lookup_insert_eq by done;
    rewrite lookup_insert_eq;
    (split; [reflexivity|]);
    unfold handle_job_error; try (destruct (5 <? _));
    split_and!; done.
Qed.

Lemma dispatched_order_is_recorded_witness :
  exists info job',
    background_jobs
      (world_before (Sample.pass 1700000100 Sample.refused)
         (Sample.world [Sample.job "j1" 100 10 20 5 1700000000]) 1) !! 0%nat = Some job'
    /\ orders job' = orders (Sample.job "j1" 100 10 20 5 1700000000) ++ [info]
    /\ get_user_orders "alice"
         (world_before (Sample.pass 1700000100 Sample.refused)
            (Sample.world [Sample.job "j1" 100 10 20 5 1700000000]) 1)
       = get_user_orders "alice"
           (world_before (Sample.pass 1700000100 Sample.refused)
              (Sample.world [Sample.job "j1" 100 10 20 5 1700000000]) 0) ++ [info].
Proof.
  destruct (dispatched_order_is_recorded (Sample.pass 1700000100 Sample.refused)
              (Sample.world [Sample.job "j1" 100 10 20 5 1700000000]) 0%nat
              (Sample.job "j1" 100 10 20 5 1700000000))
    as (info & job' & H1 & H2 & H3 & _).
  - reflexivity.
  - reflexivity.
  - vm_compute. discriminate.
  - eexists. reflexivity.
  - intros t [-> | ->]; eexists; reflexivity.
  - exists info, job'. exact (conj H1 (conj H2 H3)).
Defined.

(** ** Listings of active jobs *)

(** X25. The listings of active jobs. The per-user listing is the global
    listing restricted to the user, in the same order; pausing a group
    removes nothing from the listing (a paused job counts as active); and
    after a group was stopped no job of the group is listed any more. *)
Theorem active_job_listings (env : BulkEnv) (group user : string) (w : World) :
  get_user_active_jobs user w
  = filter (fun j => user_id j = user) (get_all_active_jobs w)
  /\ length (get_all_active_jobs (pause_bulk_jobs env group user w).2)
     = length (get_all_active_jobs w)
  /\ forall j, j ∈ get_all_active_jobs (stop_bulk_jobs env group user w).2 ->
               ~ (bulk_group_id j = Is group /\ user_id j = user).
Proof.
  split_and!.
  - unfold get_user_active_jobs, get_all_active_jobs.
    induction (background_jobs w) as [|j rest IH]; [done|].
    rewrite !filter_cons.
    destruct (decide (stopped j = false)) as [Hs|Hs].
    + rewrite filter_cons. destruct (decide (user_id j = user)) as [Hu|Hu].
      * rewrite decide_True by done. by rewrite IH.
      * rewrite decide_False by (intros [? ?]; done). done.
    + rewrite decide_False by (intros [? ?]; done). done.
  - unfold get_all_active_jobs, pause_bulk_jobs. rewrite bulk_apply_jobs.
    apply (filter_imap_length (fun j => stopped j = false)).
    intros i x. by destruct (in_group group user x).
  - intros j Hj [Hg Hu]. unfold get_all_active_jobs in Hj.
    apply list_elem_of_filter in Hj as [Hs Hj].
    unfold stop_bulk_jobs in Hj. rewrite bulk_apply_jobs in Hj.
    apply list_elem_of_lookup_1 in Hj as [i Hi].
    rewrite list_lookup_imap in Hi.
    destruct (background_jobs w !! i) as [j0|]; [|done]. simpl in Hi.
    injection Hi as <-. destruct (in_group group user j0) eqn:E; [done|].
    assert (in_group group user j0 = true); [|congruence].
    by apply in_group_spec.
Qed.

(** ** Conversation sessions *)

(** X26. The session of a /newjob conversation. What [store_newjob_session]
    stores is what [get_newjob_session] returns, whether or not the chat had
    a session; the other keys of the chat's session are kept; clearing the
    conversation makes [get_newjob_session] return None while the chat keeps
    its (possibly empty) session; and [store_user_session] replaces the whole
    session, so a conversation in progress survives only if the new session
    data carries it. *)
Theorem newjob_session_round_trip
    (chat step : string) (data : list (string * Py.json))
    (session_data : gmap string Py.json) (ss : Sessions) :
  get_newjob_session chat (store_newjob_session chat step data ss)
  = Some (newjob_entry step data)
  /\ get_user_session chat (store_newjob_session chat step data ss)
     = Some (<["newjob" := newjob_entry step data]> (default ∅ (ss !! chat)))
  /\ get_newjob_session chat
       (clear_newjob_session chat (store_newjob_session chat step data ss)) = None
  /\ get_user_session chat
       (clear_newjob_session chat (store_newjob_session chat step data ss))
     = Some (delete "newjob" (default ∅ (ss !! chat)))
  /\ get_newjob_session chat (store_user_session chat session_data ss)
     = session_data !! "newjob"
  /\ get_user_session chat (clear_user_session chat ss) = None.
Proof.
  unfold get_newjob_session, get_user_session, clear_newjob_session, store_newjob_session,
    store_user_session, clear_user_session, Sessions in *.
  rewrite !lookup_insert_eq. simpl. rewrite !lookup_insert_eq.
  by rewrite delete_insert_eq, !lookup_delete_eq.
Qed.

(** X27. Sessions are per chat. None of the session functions touches the
    session of another chat. *)
Theorem sessions_are_per_chat
    (chat other step : string) (data : list (string * Py.json))
    (session_data : gmap string Py.json) (ss : Sessions) :
  other <> chat ->
  get_user_session other (store_user_session chat session_data ss) = get_user_session other ss
  /\ get_user_session other (clear_user_session chat ss) = get_user_session other ss
  /\ get_user_session other (store_newjob_session chat step data ss)
     = get_user_session other ss
  /\ get_user_session other (clear_newjob_session chat ss) = get_user_session other ss
  /\ get_newjob_session other (store_newjob_session chat step data ss)
     = get_newjob_session other ss
  /\ get_newjob_session other (clear_newjob_session chat ss) = get_newjob_session other ss.
Proof.
  intros Hne.
  unfold get_newjob_session, get_user_session, clear_newjob_session, store_newjob_session,
    store_user_session, clear_user_session, Sessions in *.
  assert (forall s, (<[chat := s]> ss) !! other = ss !! other) as Hins
    by (intros s; by rewrite lookup_insert_ne).
  rewrite !Hins, lookup_delete_ne by done.
  destruct (ss !! chat) as [session|]; [|done].
  destruct (session !! "newjob"); by rewrite ?Hins.
Qed.

Lemma sessions_are_per_chat_witness :
  get_newjob_session "7" (store_newjob_session "8" "api_urls" [] ∅)
  = get_newjob_session "7" ∅.
Proof.
  apply (sessions_are_per_chat "8" "7" "api_urls" [] ∅ ∅). discriminate.
Defined.

(** ** The period between two orders of a job *)

(** X28. A job that fired waits a full period. After a pass at time [now]
    in which a job fired (as in the theorem on due jobs), a later pass whose
    clock is before [now + frequency * 60] leaves the job exactly as the
    first pass left it: two orders of a job are at least [frequency] minutes
    apart. *)
Theorem fired_job_waits_a_full_period
    (env env2 : TickEnv) (w : World) (i : nat) (job : Job) (next : Z) :
  background_jobs w !! i = Some job ->
  stopped job = false ->
  next_run job <= now env ->
  is_Some (user_data w !! user_id job) ->
  (forall t, t = next_run job \/ t = now env \/ t = now env + frequency job * 60 ->
             exists s, fromtimestamp env t = Py.Ok s) ->
  calculate_next_quantity (quantity job) (increase_range job) (uniform env i)
  = Py.Ok next ->
  now env2 < now env + frequency job * 60 ->
  (forall t, t = now env + frequency job * 60 \/ t = now env2 ->
             exists s, fromtimestamp env2 t = Py.Ok s) ->
  exists job',
    background_jobs (scheduler_tick env w) !! i = Some job'
    /\ length (orders job') = S (length (orders job))
    /\ background_jobs (scheduler_tick env2 (scheduler_tick env w)) !! i = Some job'.
Proof.
  intros Hi Hs Hdue Hu Hts Hnext Hearly Hts2.
  assert (is_Some (user_data (world_before env w i) !! user_id job)) as [user Huser]
    by (by apply foldl_process_at_user_presence).
  destruct (process_job_fires env i job (world_before env w i) user next)
    as (info & w' & Heq & _); try done.
  { intros _. split; apply Hts; auto. }
  { apply Hts; auto. }
  pose proof (tick_position env w i job Hi) as H1. rewrite Heq in H1.
  eexists. split; [exact H1|]. split.
  { simpl. rewrite length_app. simpl. lia. }
  rewrite (tick_position env2 _ i _ H1).
  rewrite process_job_skips; [done| |left; exact Hearly].
  intros t Ht. apply Hts2. exact Ht.
Qed.

Lemma fired_job_waits_a_full_period_witness :
  exists job',
    background_jobs
      (scheduler_tick (Sample.pass 1700000100 Sample.accepted)
         (Sample.world [Sample.job "j1" 100 10 20 5 1700000000])) !! 0%nat = Some job'
    /\ length (orders job') = 1%nat
    /\ background_jobs
         (scheduler_tick (Sample.pass 1700000399 Sample.accepted)
            (scheduler_tick (Sample.pass 1700000100 Sample.accepted)
               (Sample.world [Sample.job "j1" 100 10 20 5 1700000000]))) !! 0%nat
       = Some job'.
Proof.
  destruct (fired_job_waits_a_full_period (Sample.pass 1700000100 Sample.accepted)
              (Sample.pass 1700000399 Sample.accepted)
              (Sample.world [Sample.job "j1" 100 10 20 5 1700000000]) 0%nat
              (Sample.job "j1" 100 10 20 5 1700000000) 110)
    as (job' & H1 & H2 & H3).
  - reflexivity.
  - reflexivity.
  - vm_compute. discriminate.
  - eexists. reflexivity.
  - intros t [-> | [-> | ->]]; eexists; reflexivity.
  - reflexivity.
  - vm_compute. reflexivity.
  - intros t [-> | ->]; eexists; reflexivity.
  - exists job'. exact (conj H1 (conj H2 H3)).
Defined.

(** ** Binary64 arithmetic: how far rounding can go down *)

Module FloatLower.

(** The second shift of [binary_round_aux] loses nothing: a mantissa of at
    most 53 bits, or 2^53, at an exponent not below [emin]. *)
Lemma second_shift_exact m1 e1 :
  0 <= m1 <= 2 ^ 53 -> emin Py.prec Py.emax <= e1 ->
  let n2 := Z.max 0 (fexp Py.prec Py.emax (Zdigits2 m1 + e1) - e1) in
  m1 / 2 ^ n2 * 2 ^ n2 = m1.
Proof.
  intros Hm He n2.
  destruct (Z.eq_dec m1 (2 ^ 53)) as [->|Hne].
  - subst n2. change (Zdigits2 (2 ^ 53)) with 54.
    unfold fexp, emin, Py.prec, Py.emax in *.
    replace (Z.max 0 (Z.max (54 + e1 - 53) (3 - 1024 - 53) - e1)) with 1 by lia.
    reflexivity.
  - assert (Zdigits2 m1 <= 53) as Hd by (apply Float.Zdigits2_le; lia).
    subst n2. unfold fexp, emin, Py.prec, Py.emax in *.
    replace (Z.max 0 (Z.max (Zdigits2 m1 + e1 - 53) (3 - 1024 - 53) - e1)) with 0 by lia.
    rewrite Z.pow_0_r, Z.div_1_r. lia.
Qed.

Lemma binary_round_aux_lower s m e l :
  0 <= m ->
  let n := fexp Py.prec Py.emax (Zdigits2 m + e) - e in
  exists m3 e3,
    binary_round_aux Py.prec Py.emax s m e l = build s m3 e3
    /\ 0 <= m3
    /\ e + Z.max 0 n <= e3
    /\ m / 2 ^ Z.max 0 n * 2 ^ Z.max 0 n <= m3 * 2 ^ (e3 - e).
Proof.
  intros Hm n. unfold binary_round_aux.
  pose proof (Float.shr_fexp_round m e l Hm) as H1. cbv zeta in H1. fold n in H1.
  destruct (shr_fexp Py.prec Py.emax m e l) as [mrs1 e1]. cbn [fst snd] in H1.
  set (m1 := round_nearest_even (shr_m mrs1) (loc_of_shr_record mrs1)) in *.
  destruct H1 as (He1 & Hm1 & Hup & Hlow).
  pose proof (Float.shr_fexp_m m1 e1 loc_Exact Hm1) as H2. cbv zeta in H2.
  destruct (shr_fexp Py.prec Py.emax m1 e1 loc_Exact) as [mrs2 e2]. cbn [fst snd] in H2.
  set (n2 := Z.max 0 (fexp Py.prec Py.emax (Zdigits2 m1 + e1) - e1)) in *.
  destruct H2 as (He2 & Hm2).
  exists (shr_m mrs2), e2.
  assert (0 < 2 ^ n2) as Hp2 by (apply Z.pow_pos_nonneg; lia).
  assert (0 <= n2) as Hn2 by lia.
  assert (0 <= shr_m mrs2) as Hm3 by (rewrite Hm2; apply Z.div_pos; lia).
  split.
  { unfold build. destruct (shr_m mrs2) as [|p|p]; try reflexivity. }
  split; [exact Hm3|]. split; [lia|].
  (* the first shift leaves at most 53 bits, so the rounded mantissa is at most 2^53 *)
  set (k := Z.max 0 n) in *.
  assert (e1 - e = k) as Hk by lia. rewrite Hk in *.
  assert (0 <= k) as Hk0 by lia.
  assert (0 < 2 ^ k) as Hpk by (apply Z.pow_pos_nonneg; lia).
  set (t := m / 2 ^ k) in *.
  assert (t * 2 ^ k <= m < (t + 1) * 2 ^ k) as Ht.
  { subst t. pose proof (Z.div_mod m (2 ^ k) ltac:(lia)).
    pose proof (Z.mod_pos_bound m (2 ^ k) Hpk). nia. }
  assert (emin Py.prec Py.emax <= e1) as Hemin.
  { subst n. unfold fexp in *. lia. }
  assert (m1 <= t + 1) as Hm1t.
  { destruct (0 <? n) eqn:En.
    - apply Z.ltb_lt in En. assert (k = n) as Hkn by lia.
      assert (2 ^ n = 2 * 2 ^ (n - 1)) as Hn2'.
      { replace n with (Z.succ (n - 1)) at 1 by lia. apply Z.pow_succ_r. lia. }
      assert (0 < 2 ^ (n - 1)) by (apply Z.pow_pos_nonneg; lia).
      rewrite Hkn in *. nia.
    - apply Z.ltb_ge in En. assert (k = 0) as Hk00 by lia.
      rewrite Hk00 in *. rewrite Z.pow_0_r in *.
      pose proof (Float.rounds_up_01 l). lia. }
  assert (t < 2 ^ 53) as Ht53.
  { destruct (Z.eq_dec m 0) as [->|Hm0].
    - subst t. rewrite Z.div_0_l by lia. reflexivity.
    - destruct (Float.Zdigits2_bounds m ltac:(lia)) as [_ Hhi].
      assert (Zdigits2 m <= 53 + k) as Hd.
      { subst k n. unfold fexp, Py.prec in *. lia. }
      pose proof (Float.Zdigits2_nonneg m).
      assert (2 ^ Zdigits2 m <= 2 ^ (53 + k)) by (apply Z.pow_le_mono_r; lia).
      rewrite Z.pow_add_r in * by lia.
      subst t. apply Z.div_lt_upper_bound; [lia|]. lia. }
  pose proof (second_shift_exact m1 e1 ltac:(lia) Hemin) as Hex. cbv zeta in Hex.
  fold n2 in Hex.
  replace (e2 - e) with (n2 + k) by lia.
  rewrite Z.pow_add_r by lia. rewrite Hm2.
  rewrite Z.mul_assoc, Hex. nia.
Qed.

#[local] Open Scope Q_scope.

Lemma F2Q_build_finite m e :
  (0 <= m)%Z -> nonneg_finite (build false m e) = true ->
  F2Q (build false m e) == inject_Z m * 2 ^ e.
Proof.
  intros Hm Hf. unfold build in *. destruct m as [|p|p]; try lia.
  - cbn [F2Q]. change (inject_Z 0) with 0. ring.
  - destruct (e <=? Py.emax - Py.prec)%Z; [|discriminate].
    cbn [F2Q]. ring.
Qed.

(** Magnitude from digits. *)
Lemma digits_exp_ge m e :
  (0 < m)%Z -> 2 ^ (Zdigits2 m - 1 + e) <= inject_Z m * 2 ^ e.
Proof.
  intros Hm.
  destruct (Float.Zdigits2_bounds m Hm) as [Hlo _].
  pose proof (Float.Zdigits2_gt m 0 ltac:(lia) ltac:(simpl; lia)) as Hd.
  rewrite Float.pow2_add. pose proof (Float.pow2_pos e).
  apply Qmult_le_compat_r; [|lra].
  rewrite <- Float.pow2_inject by lia. rewrite <- Zle_Qle. exact Hlo.
Qed.

(** Rounding a value of at least 1 loses at most the fraction 2^-52 of it. *)
Lemma binary_round_aux_relative m e l :
  (0 < m)%Z -> 1 <= inject_Z m * 2 ^ e ->
  nonneg_finite (binary_round_aux Py.prec Py.emax false m e l) = true ->
  inject_Z m * 2 ^ e * (1 - 2 ^ (-52))
  <= F2Q (binary_round_aux Py.prec Py.emax false m e l).
Proof.
  intros Hm Hone Hfin.
  destruct (binary_round_aux_lower false m e l ltac:(lia)) as (m3 & e3 & Heq & Hm3 & He3 & Hlow).
  cbv zeta in He3, Hlow.
  rewrite Heq in *. rewrite (F2Q_build_finite m3 e3 Hm3 Hfin).
  set (d := Zdigits2 m) in *.
  assert (1 <= d + e)%Z as Hde.
  { destruct (Float.Zdigits2_bounds m Hm) as [_ Hhi]. fold d in Hhi.
    assert (inject_Z m * 2 ^ e < 2 ^ (d + e)) as Hlt.
    { rewrite Float.pow2_add. pose proof (Float.pow2_pos e).
      apply Qmult_lt_compat_r; [lra|].
      pose proof (Float.Zdigits2_nonneg m). fold d in H0.
      rewrite <- Float.pow2_inject by lia. rewrite <- Zlt_Qlt. exact Hhi. }
    assert (2 ^ 0 < 2 ^ (d + e)) as H0 by (change (2 ^ 0) with 1; lra).
    apply Float.pow2_lt_inv in H0. lia. }
  assert (fexp Py.prec Py.emax (d + e) - e = d - 53)%Z as Hn
    by (unfold fexp, emin, Py.prec, Py.emax; lia).
  rewrite Hn in *.
  set (k := Z.max 0 (d - 53)) in *.
  assert (0 <= k)%Z as Hk0 by lia.
  assert (0 < 2 ^ k)%Z as Hpk by (apply Z.pow_pos_nonneg; lia).
  (* integers: the truncation keeps all but the fraction 2^-52 *)
  assert (m * (2 ^ 52 - 1) <= (m / 2 ^ k * 2 ^ k) * 2 ^ 52)%Z as Hint.
  { pose proof (Z.div_mod m (2 ^ k) ltac:(lia)) as Hdm.
    pose proof (Z.mod_pos_bound m (2 ^ k) Hpk) as Hmod.
    destruct (Z_le_gt_dec (d - 53) 0) as [Hle|Hgt].
    - assert (k = 0)%Z as -> by lia. rewrite Z.pow_0_r, Z.div_1_r. lia.
    - assert (k = d - 53)%Z as Hkd by lia.
      destruct (Float.Zdigits2_bounds m Hm) as [Hlo _]. fold d in Hlo.
      assert (2 ^ (d - 1) = 2 ^ k * 2 ^ 52)%Z as Hsplit.
      { rewrite <- Z.pow_add_r by lia. f_equal. lia. }
      change (2 ^ 52)%Z with 4503599627370496%Z in *. nia. }
  assert (m * (2 ^ 52 - 1) <= m3 * 2 ^ (e3 - e) * 2 ^ 52)%Z as Hint2.
  { change (2 ^ 52)%Z with 4503599627370496%Z in *. nia. }
  rewrite Zle_Qle in Hint2. rewrite !inject_Z_mult in Hint2.
  rewrite Float.pow2_inject in Hint2 by lia.
  change (inject_Z (2 ^ 52 - 1)) with 4503599627370495 in Hint2.
  change (inject_Z (2 ^ 52)) with 4503599627370496 in Hint2.
  assert (2 ^ (-52) == 1 # 4503599627370496) as H52 by reflexivity.
  rewrite H52.
  assert (2 ^ e3 == 2 ^ (e3 - e) * 2 ^ e) as Hsplit.
  { rewrite <- Float.pow2_add. replace (e3 - e + e)%Z with e3 by lia. reflexivity. }
  rewrite Hsplit.
  pose proof (Float.pow2_pos e) as Hpe. pose proof (Float.pow2_pos (e3 - e)) as Hpd.
  set (M := inject_Z m) in *. set (M3 := inject_Z m3) in *.
  set (pe := 2 ^ e) in *. set (pd := 2 ^ (e3 - e)) in *.
  clearbody M M3 pe pd. clear -Hint2 Hpe Hpd.
  assert (M * 4503599627370495 * pe <= M3 * pd * 4503599627370496 * pe) as H
    by (apply Qmult_le_compat_r; lra).
  lra.
Qed.

Lemma fmul_lower x y (k : Z) :
  nonneg_finite x = true -> nonneg_finite y = true ->
  1 <= F2Q x * F2Q y ->
  F2Q x * F2Q y < 2 ^ k ->
  (-1074 <= k <= Py.emax - Py.prec)%Z ->
  F2Q x * F2Q y * (1 - 2 ^ (-52)) <= F2Q (SFmul Py.prec Py.emax x y).
Proof.
  intros Hx Hy Hone Hlt Hk.
  destruct (Float.fmul_upper x y k Hx Hy Hlt Hk) as [Hfin _].
  destruct x as [sx|sx| |sx mx ex]; try discriminate;
    destruct y as [sy|sy| |sy my ey]; try discriminate;
    try (cbn [F2Q] in Hone; lra).
  destruct sx; [discriminate|]. destruct sy; [discriminate|].
  cbn [SFmul xorb] in *. cbn [F2Q] in Hone |- *.
  assert ((1 * (inject_Z (Z.pos mx) * 2 ^ ex)) * (1 * (inject_Z (Z.pos my) * 2 ^ ey))
          == inject_Z (Z.pos (mx * my)) * 2 ^ (ex + ey)) as Hprod.
  { rewrite Pos2Z.inj_mul, inject_Z_mult, Float.pow2_add. ring. }
  rewrite Hprod in *.
  apply binary_round_aux_relative; [lia|exact Hone|exact Hfin].
Qed.

(** [float(q)] is exact below 2^53. *)
Lemma binary_normalize_exact (q : Z) :
  (1 <= q < 2 ^ 53)%Z ->
  inject_Z q <= F2Q (binary_normalize Py.prec Py.emax q 0 false).
Proof.
  intros Hq. destruct (Float.binary_normalize_small q Hq) as [Hfin _].
  assert (inject_Z q * (1 - 2 ^ (-52)) < inject_Z q) as _ by
    (assert (2 ^ (-52) == 1 # 4503599627370496) as -> by reflexivity;
     assert (1 <= inject_Z q) by (change 1 with (inject_Z 1); rewrite <- Zle_Qle; lia); lra).
  destruct q as [|mq|mq]; try lia.
  unfold binary_normalize, binary_round in *.
  assert (Zdigits2 (Z.pos mq) <= 53)%Z as Hd by (apply Float.Zdigits2_le; lia).
  pose proof (Float.Zdigits2_gt (Z.pos mq) 0 ltac:(lia) ltac:(simpl; lia)) as Hd1.
  change (Z.pos (digits2_pos mq)) with (Zdigits2 (Z.pos mq)) in *.
  rewrite Z.add_0_r in *.
  assert (fexp Py.prec Py.emax (Zdigits2 (Z.pos mq)) = Zdigits2 (Z.pos mq) - 53)%Z as Hf
    by (unfold fexp, emin, Py.prec, Py.emax; lia).
  rewrite Hf in *. unfold shl_align in *.
  destruct (Zdigits2 (Z.pos mq) - 53 - 0)%Z as [|d|d] eqn:Hs; try lia.
  - (* 53 digits: no alignment *)
    destruct (binary_round_aux_lower false (Z.pos mq) 0 loc_Exact ltac:(lia))
      as (m3 & e3 & Heq & Hm3 & He3 & Hlow).
    cbv zeta in He3, Hlow. rewrite Z.add_0_r, Hf in He3, Hlow.
    replace (Zdigits2 (Z.pos mq) - 53 - 0)%Z with 0%Z in He3, Hlow by lia.
    change (Z.max 0 0) with 0%Z in He3, Hlow.
    rewrite Z.pow_0_r, Z.div_1_r, Z.mul_1_r, Z.sub_0_r in Hlow.
    rewrite Heq in *. rewrite (F2Q_build_finite m3 e3 Hm3 Hfin).
    rewrite <- Float.pow2_inject by lia. rewrite <- inject_Z_mult, <- Zle_Qle. exact Hlow.
  - (* fewer digits: mantissa shifted left *)
    assert (Zdigits2 (Z.pos mq) - 53 = Z.neg d)%Z as He by lia.
    destruct (binary_round_aux_lower false (Z.pos (Pos.iter xO mq d))
                (Zdigits2 (Z.pos mq) - 53) loc_Exact ltac:(lia))
      as (m3 & e3 & Heq & Hm3 & He3 & Hlow).
    cbv zeta in He3, Hlow. rewrite Float.iter_xO_digits in He3, Hlow.
    replace (Zdigits2 (Z.pos mq) + Z.pos d + (Zdigits2 (Z.pos mq) - 53))%Z
      with (Zdigits2 (Z.pos mq) + 0)%Z in He3, Hlow by lia.
    rewrite Z.add_0_r, Hf, Z.sub_diag in He3, Hlow.
    change (Z.max 0 0) with 0%Z in He3, Hlow.
    rewrite Z.pow_0_r, Z.div_1_r, Z.mul_1_r in Hlow.
    rewrite Float.iter_xO_value in Hlow.
    rewrite Heq in *. rewrite (F2Q_build_finite m3 e3 Hm3 Hfin).
    rewrite He in *.
    (* m3 * 2^e3 = (m3 * 2^(e3 + d)) * 2^(-d) >= mq * 2^d * 2^(-d) *)
    assert (2 ^ e3 == 2 ^ (e3 - Z.neg d) * 2 ^ (Z.neg d)) as Hsplit.
    { rewrite <- Float.pow2_add. replace (e3 - Z.neg d + Z.neg d)%Z with e3 by lia.
      reflexivity. }
    rewrite Hsplit.
    rewrite Zle_Qle in Hlow. rewrite !inject_Z_mult in Hlow.
    rewrite !Float.pow2_inject in Hlow by lia.
    assert (2 ^ Z.pos d * 2 ^ Z.neg d == 1) as Hinv.
    { rewrite <- Float.pow2_add. change (Z.pos d + Z.neg d)%Z with (Z.pos d + - Z.pos d)%Z.
      rewrite Z.add_opp_diag_r. reflexivity. }
    pose proof (Float.pow2_pos (Z.neg d)) as Hp1.
    set (M := inject_Z (Z.pos mq)) in *. set (M3 := inject_Z m3) in *.
    set (a := 2 ^ Z.pos d) in *. set (b := 2 ^ Z.neg d) in *.
    set (c := 2 ^ (e3 - Z.neg d)) in *.
    clearbody M M3 a b c. clear -Hlow Hinv Hp1.
    assert (M * a * b <= M3 * c * b) as H by (apply Qmult_le_compat_r; lra).
    assert (M * a * b == M) as H' by (rewrite <- Qmult_assoc, Hinv; ring).
    rewrite H' in H. lra.
Qed.

Lemma float_of_int_exact (q : Z) :
  (1 <= q < 2 ^ 53)%Z ->
  exists f, Py.float_of_int q = Py.Ok f /\ nonneg_finite f = true
            /\ F2Q f == inject_Z q.
Proof.
  intros Hq. destruct (Float.binary_normalize_small q Hq) as [Hnf Hv].
  pose proof (binary_normalize_exact q Hq) as Hv'.
  unfold Py.float_of_int.
  destruct (binary_normalize Py.prec Py.emax q 0 false) as [s|s| |s m e] eqn:E;
    try discriminate; eexists; (split; [reflexivity|]); (split; [assumption|]);
    apply Qle_antisym; assumption.
Qed.

(** [int(x)] is the floor of a non-negative [x]. *)
Lemma int_of_float_floor (x : spec_float) (n : Z) :
  nonneg_finite x = true -> Py.int_of_float x = Py.Ok n ->
  F2Q x < inject_Z n + 1.
Proof.
  destruct x as [s|s| |s m e]; try discriminate.
  - intros _ [= <-]. cbn [F2Q]. change (inject_Z 0) with 0. lra.
  - destruct s; [discriminate|]. intros _. cbn [Py.int_of_float F2Q].
    intros [= <-].
    destruct e as [|p|p].
    + change (2 ^ 0) with 1. lra.
    + rewrite inject_Z_mult, Float.pow2_inject by lia. lra.
    + assert (0 < 2 ^ Z.pos p)%Z as Hp by (apply Z.pow_pos_nonneg; lia).
      assert (Z.pos m < (Z.pos m / 2 ^ Z.pos p + 1) * 2 ^ Z.pos p)%Z as Hlt.
      { pose proof (Z.div_mod (Z.pos m) (2 ^ Z.pos p) ltac:(lia)).
        pose proof (Z.mod_pos_bound (Z.pos m) (2 ^ Z.pos p) Hp). nia. }
      rewrite Zlt_Qlt in Hlt. rewrite inject_Z_mult, inject_Z_plus in Hlt.
      rewrite Float.pow2_inject in Hlt by lia.
      assert (2 ^ Z.pos p * 2 ^ Z.neg p == 1) as Hinv.
      { rewrite <- Float.pow2_add. change (Z.pos p + Z.neg p)%Z with (Z.pos p + - Z.pos p)%Z.
        rewrite Z.add_opp_diag_r. reflexivity. }
      pose proof (Float.pow2_pos (Z.neg p)) as Hp1.
      change (inject_Z 1) with 1 in Hlt.
      set (M := inject_Z (Z.pos m)) in *.
      set (N := inject_Z (Z.pos m / 2 ^ Z.pos p)) in *.
      set (a := 2 ^ Z.pos p) in *. set (b := 2 ^ Z.neg p) in *.
      clearbody M N a b. clear -Hlt Hinv Hp1.
      assert (M * b < (N + 1) * a * b) as H by (apply Qmult_lt_compat_r; lra).
      assert ((N + 1) * a * b == N + 1) as H' by (rewrite <- Qmult_assoc, Hinv; ring).
      rewrite H' in H. lra.
Qed.

End FloatLower.

(** X29. The growth calculator never lowers the quantity. For a quantity q
    with 1 <= q < 2^52, whatever the range holds, provided only that the
    draw, when one is made, is a finite double between 0 and 100:
    [calculate_next_quantity] raises nothing and returns n with
    q <= n <= 2 * q, through the percentage or through the fallback. *)
Theorem next_quantity_never_decreases
    (q : Z) (range : list Py.num) (uniform : spec_float -> spec_float -> spec_float) :
  1 <= q < 2 ^ 52 ->
  (forall lo hi a b, range = [lo; hi] ->
     Py.to_float lo = Py.Ok a -> Py.to_float hi = Py.Ok b ->
     nonneg_finite (uniform a b) = true /\ (F2Q (uniform a b) <= 100)%Q) ->
  exists n : Z,
    calculate_next_quantity q range uniform = Py.Ok n /\ q <= n <= 2 * q.
Proof.
  intros Hq Hdraw.
  assert ((1 <= inject_Z q)%Q) as Hq1
    by (change 1%Q with (inject_Z 1); rewrite <- Zle_Qle; lia).
  assert ((inject_Z q <= 4503599627370495)%Q) as HqQ.
  { change 4503599627370495%Q with (inject_Z 4503599627370495).
    rewrite <- Zle_Qle. change (2 ^ 52) with 4503599627370496 in Hq. lia. }
  (* the fallback *)
  assert (exists n, (let! product := Py.int_mul_float q Py.lit_1_1 in
                     Py.int_of_float product) = Py.Ok n /\ q <= n <= 2 * q)
    as (n & Hrun & Hn).
  { destruct (FloatLower.float_of_int_exact q) as (fq & Hfq & Hfq_nf & Hfq_eq); [lia|].
    assert ((F2Q Py.lit_1_1 == 4953959590107546 # 4503599627370496)%Q) as H11 by reflexivity.
    assert ((2 ^ 53 == 9007199254740992)%Q) as H53 by reflexivity.
    assert ((F2Q fq * F2Q Py.lit_1_1 < 2 ^ 53)%Q) as Hlt.
    { rewrite H53, H11, Hfq_eq. set (iq := inject_Z q) in *. clearbody iq. lra. }
    destruct (Float.fmul_upper fq Py.lit_1_1 53 Hfq_nf eq_refl Hlt) as [Hy_nf Hy_le].
    { unfold Py.emax, Py.prec. lia. }
    pose proof (FloatLower.fmul_lower fq Py.lit_1_1 53 Hfq_nf eq_refl) as Hy_ge.
    change (fexp Py.prec Py.emax 53 - 1) with (-1) in Hy_le.
    assert ((2 ^ (-1) == 1 # 2)%Q) as Hhalf by reflexivity.
    assert ((2 ^ (-52) == 1 # 4503599627370496)%Q) as H52 by reflexivity.
    rewrite Hhalf, H11, Hfq_eq in Hy_le.
    rewrite H52, H11, Hfq_eq in Hy_ge.
    specialize (Hy_ge ltac:(set (iq := inject_Z q) in *; clearbody iq; lra)).
    rewrite H11, Hfq_eq in Hlt. specialize (Hy_ge Hlt).
    specialize (Hy_ge ltac:(unfold Py.emax, Py.prec; lia)).
    destruct (int_of_float_nonneg _ Hy_nf) as (n & Hn & Hn0 & Hn_le).
    pose proof (FloatLower.int_of_float_floor _ n Hy_nf Hn) as Hn_gt.
    exists n. split.
    - unfold Py.int_mul_float. rewrite Hfq. cbn [Py.bind]. exact Hn.
    - set (y := F2Q (SFmul Py.prec Py.emax fq Py.lit_1_1)) in *.
      set (iq := inject_Z q) in *. set (ii := inject_Z n) in *.
      assert ((iq < ii + 1)%Q) as H1 by (clearbody y iq ii; lra).
      assert ((ii < 2 * iq + 1)%Q) as H2 by (clearbody y iq ii; lra).
      subst iq ii. change 1%Q with (inject_Z 1) in H1, H2.
      change 2%Q with (inject_Z 2) in H2.
      rewrite <- inject_Z_plus, <- Zlt_Qlt in H1.
      rewrite <- inject_Z_mult, <- inject_Z_plus, <- Zlt_Qlt in H2. lia. }
  unfold calculate_next_quantity. cbv zeta.
  destruct range as [|lo [|hi [|z rest]]]; try (exists n; split; [exact Hrun|exact Hn]).
  destruct (Py.to_float lo) as [a|ea] eqn:Ea;
    [|exists n; split; [exact Hrun|exact Hn]].
  destruct (Py.to_float hi) as [b|eb] eqn:Eb;
    [|exists n; split; [exact Hrun|exact Hn]].
  destruct (Hdraw lo hi a b eq_refl Ea Eb) as [Hp Hple].
  destruct (increase_amount_bound q (uniform a b) Hq Hp Hple)
    as (ratio & product & inc & Hr & Hprod & Hinc & Hinc0 & Hinc_lt).
  cbn [Py.bind]. rewrite Hr. cbn [Py.bind]. rewrite Hprod. cbn [Py.bind]. rewrite Hinc.
  cbn [Py.bind].
  exists (q + inc). split; [reflexivity|].
  pose proof (Float.F2Q_nonneg _ Hp) as Hp0.
  assert ((inject_Z inc < inject_Z q + 1)%Q) as H.
  { set (P := F2Q (uniform a b)) in *. set (iq := inject_Z q) in *.
    set (ii := inject_Z inc) in *. clearbody P iq ii. nra. }
  change 1%Q with (inject_Z 1) in H. rewrite <- inject_Z_plus, <- Zlt_Qlt in H. lia.
Qed.

Lemma next_quantity_never_decreases_witness :
  exists n : Z,
    calculate_next_quantity 100 [Py.PyInt 10; Py.PyInt 20] Sample.draw_low = Py.Ok n
    /\ 100 <= n <= 200.
Proof.
  apply (next_quantity_never_decreases 100 [Py.PyInt 10; Py.PyInt 20] Sample.draw_low).
  - lia.
  - intros lo hi a b [= <- <-] [= <-] [= <-]. split; [reflexivity|].
    vm_compute. discriminate.
Defined.
